(** * cfyTracker: the scrape / reconcile / notify pipeline

    A shallow embedding of the edge functions of the repository
    (track-product, update-prices and send-price-alert-email), of the
    alert dialog, of the product form, of the product list and of what
    the product card and the price chart compute, followed by the
    properties of the specification that were checked against them and
    by further properties of the code.

    Conventions of the embedding:
    - a JavaScript number that holds a price is an integer [Z]; the value
      [NaN], which [parseInt] can return, is kept apart in [number]
      (integers are exact here, in the source up to 2^53);
    - strings are [string] (bytes); whitespace and letter case are the
      ASCII ones;
    - the regular-expression engine and the URL parser belong to the
      JavaScript runtime and are taken as an interface ([Runtime]);
    - everything outside the process (HTTP fetch, auth service, storage
      errors, mail delivery, clock) is an explicit [World] of outcomes;
    - an exception is a value of type [error] carried by [result]. *)

From Stdlib Require Import String Ascii ZArith List Bool Lia.
From Stdlib Require Import DecimalString.
From Stdlib Require Import Permutation Sorted.
Import ListNotations.

Open Scope string_scope.
Open Scope Z_scope.

(** ** JavaScript values *)

(** Results of [parseInt] and the working variables [mrp], [sale_price]. *)
Inductive number :=
| NaN
| Num (z : Z).

(** Truthiness of a number: [!n] is [negb (truthy n)]. *)
Definition truthy (n : number) : bool :=
  match n with
  | NaN => false
  | Num z => negb (z =? 0)
  end.

(** [n > 0 && n < 2000000]. *)
Definition in_price_range (n : number) : bool :=
  match n with
  | NaN => false
  | Num z => (0 <? z) && (z <? 2000000)
  end.

(** [a > b] on numbers; any comparison with [NaN] is false. *)
Definition num_gt (a b : number) : bool :=
  match a, b with
  | Num x, Num y => y <? x
  | _, _ => false
  end.

(** [a || b] where the right operand is a plain number. *)
Definition num_or (a : number) (b : Z) : Z :=
  match a with
  | Num z => if z =? 0 then b else z
  | NaN => b
  end.

(** A number that is not negative ([NaN] counts as such). *)
Definition nonneg (n : number) : Prop :=
  match n with
  | NaN => True
  | Num z => 0 <= z
  end.

(** [s || d] on strings: the empty string is falsy. *)
Definition str_or (s d : string) : string :=
  match s with
  | EmptyString => d
  | _ => s
  end.

Definition string_of_Z (z : Z) : string := NilZero.string_of_int (Z.to_int z).

(** ** Strings *)

Definition is_digit (c : ascii) : bool :=
  let n := nat_of_ascii c in (Nat.leb 48 n) && (Nat.leb n 57).

Definition digit_value (c : ascii) : Z := Z.of_nat (nat_of_ascii c - 48).

(** The longest prefix of decimal digits, read as an integer; [None] when
    the string does not start with a digit. *)
Fixpoint parse_digits (s : string) (acc : option Z) : option Z :=
  match s with
  | EmptyString => acc
  | String c rest =>
      if is_digit c
      then parse_digits rest
             (Some (10 * match acc with Some a => a | None => 0 end
                    + digit_value c))
      else acc
  end.

(** [parseInt(s)] for the strings the scraper passes to it: what a
    [([0-9,]+)] group captured, with the commas removed. *)
Definition parseInt (s : string) : number :=
  match parse_digits s None with
  | Some z => Num z
  | None => NaN
  end.

(** [s.replace(/,/g, '')]. *)
Fixpoint remove_commas (s : string) : string :=
  match s with
  | EmptyString => EmptyString
  | String c rest =>
      if Ascii.eqb c ","%char then remove_commas rest
      else String c (remove_commas rest)
  end.

(** [s.startsWith(p)]. *)
Definition startsWith (p s : string) : bool := String.prefix p s.

(** [s.includes(needle)]. *)
Fixpoint includes (needle s : string) : bool :=
  String.prefix needle s ||
  match s with
  | EmptyString => false
  | String _ rest => includes needle rest
  end.

Definition is_space (c : ascii) : bool :=
  let n := nat_of_ascii c in
  Nat.eqb n 32 || (Nat.leb 9 n && Nat.leb n 13).

Fixpoint trim_start (s : string) : string :=
  match s with
  | String c rest => if is_space c then trim_start rest else s
  | EmptyString => EmptyString
  end.

Fixpoint rev_string (s : string) (acc : string) : string :=
  match s with
  | EmptyString => acc
  | String c rest => rev_string rest (String c acc)
  end.

(** [s.trim()]. *)
Definition trim (s : string) : string :=
  rev_string (trim_start (rev_string (trim_start s) "")) "".

(** [s.replace(/\s+/g, ' ')]: every run of whitespace becomes one blank. *)
Fixpoint collapse_from (in_run : bool) (s : string) : string :=
  match s with
  | EmptyString => EmptyString
  | String c rest =>
      if is_space c
      then (if in_run then collapse_from true rest
            else String " "%char (collapse_from true rest))
      else String c (collapse_from false rest)
  end.

Definition collapse_spaces (s : string) : string := collapse_from false s.

Definition lower_ascii (c : ascii) : ascii :=
  let n := nat_of_ascii c in
  if Nat.leb 65 n && Nat.leb n 90 then ascii_of_nat (n + 32) else c.

Definition upper_ascii (c : ascii) : ascii :=
  let n := nat_of_ascii c in
  if Nat.leb 97 n && Nat.leb n 122 then ascii_of_nat (n - 32) else c.

(** [s.toLowerCase()]. *)
Fixpoint toLowerCase (s : string) : string :=
  match s with
  | EmptyString => EmptyString
  | String c rest => String (lower_ascii c) (toLowerCase rest)
  end.

(** [s.split(sep)] for a one-character separator. *)
Fixpoint split_on (sep : ascii) (s : string) (cur : string) : list string :=
  match s with
  | EmptyString => [rev_string cur ""]
  | String c rest =>
      if Ascii.eqb c sep then rev_string cur "" :: split_on sep rest ""
      else split_on sep rest (String c cur)
  end.

Definition split (sep : ascii) (s : string) : list string := split_on sep s "".

(** [s.replace(/-/g, ' ')]. *)
Fixpoint dashes_to_spaces (s : string) : string :=
  match s with
  | EmptyString => EmptyString
  | String c rest =>
      String (if Ascii.eqb c "-"%char then " "%char else c)
             (dashes_to_spaces rest)
  end.

(** [s.charAt(0).toUpperCase() + s.slice(1)]. *)
Definition capitalize (s : string) : string :=
  match s with
  | EmptyString => EmptyString
  | String c rest => String (upper_ascii c) rest
  end.

(** ** Exceptions *)

Inductive error :=
| FetchRejected (message : string)   (* fetch(url) rejected *)
| HttpError (status : Z)             (* response.ok is false *)
| BodyRejected (message : string)    (* response.text() rejected *)
| TypeError (message : string)       (* raised by the runtime *)
| NoPriceInformation.                (* 'Could not extract price ...' *)

(** [error.message]. *)
Definition error_message (e : error) : string :=
  match e with
  | FetchRejected m => m
  | HttpError st => "HTTP error! status: " ++ string_of_Z st
  | BodyRejected m => m
  | TypeError m => m
  | NoPriceInformation => "Could not extract price information from the page"
  end.

Inductive result (A : Type) :=
| Ok (a : A)
| Throw (e : error).

Arguments Ok {A} a.
Arguments Throw {A} e.

Definition bind {A B : Type} (r : result A) (k : A -> result B) : result B :=
  match r with
  | Ok a => k a
  | Throw e => Throw e
  end.

Notation "x <- r ;; k" := (bind r (fun x => k))
  (at level 61, r at next level, right associativity).

(** ** The runtime interface: regular expressions and URL parsing *)

(** The two edge functions; each has its own [scrapeProduct]. *)
Inductive edge_function :=
| track_product
| update_prices.

(** The regular expressions of [scrapeProduct], named after the variable
    or array that holds them in the source (array elements are numbered
    from 0). The expressions that look for a price contain the currency
    sign, which the two source files spell differently (update-prices
    has it as three other characters), so each of them is one pattern
    per edge function; the other expressions are the same in both. *)
Inductive pattern :=
| outOfStockPattern
| h1Pattern
| titlePattern
| mrpPattern (f : edge_function)
| fallbackMrpPatterns_0 (f : edge_function)
| fallbackMrpPatterns_1 (f : edge_function)
| fallbackMrpPatterns_2 (f : edge_function)
| fallbackMrpPatterns_3 (f : edge_function)
| salePricePattern (f : edge_function)
| fallbackSalePricePatterns_0 (f : edge_function)
| fallbackSalePricePatterns_1 (f : edge_function)
| fallbackSalePricePatterns_2 (f : edge_function)
| fallbackSalePricePatterns_3 (f : edge_function)
| discountPattern
| fallbackDiscountPatterns_0 | fallbackDiscountPatterns_1
| fallbackDiscountPatterns_2 | fallbackDiscountPatterns_3
| bodyPattern
| storageMatchPattern
| fallbackStorageMatchPattern
| conditionPatterns_0 | conditionPatterns_1 | conditionPatterns_2
| conditionPatterns_3 | conditionPatterns_4
| storagePatterns_0 | storagePatterns_1
| storagePatterns_2 | storagePatterns_3
| imagePatterns_0 | imagePatterns_1 | imagePatterns_2
| imagePatterns_3 | imagePatterns_4
| cashifySuffixPattern.

(** The [g] flag of each expression. *)
Definition isGlobal (p : pattern) : bool :=
  match p with
  | fallbackMrpPatterns_0 _ | fallbackMrpPatterns_1 _
  | fallbackMrpPatterns_2 _ | fallbackMrpPatterns_3 _
  | fallbackSalePricePatterns_0 _ | fallbackSalePricePatterns_1 _
  | fallbackSalePricePatterns_2 _ | fallbackSalePricePatterns_3 _
  | fallbackDiscountPatterns_0 | fallbackDiscountPatterns_1
  | fallbackDiscountPatterns_2 | fallbackDiscountPatterns_3
  | conditionPatterns_2
  | storagePatterns_0 | storagePatterns_1 => true
  | _ => false
  end.

Definition fallbackMrpPatterns (f : edge_function) : list pattern :=
  [fallbackMrpPatterns_0 f; fallbackMrpPatterns_1 f;
   fallbackMrpPatterns_2 f; fallbackMrpPatterns_3 f].

Definition fallbackSalePricePatterns (f : edge_function) : list pattern :=
  [fallbackSalePricePatterns_0 f; fallbackSalePricePatterns_1 f;
   fallbackSalePricePatterns_2 f; fallbackSalePricePatterns_3 f].

Definition fallbackDiscountPatterns : list pattern :=
  [fallbackDiscountPatterns_0; fallbackDiscountPatterns_1;
   fallbackDiscountPatterns_2; fallbackDiscountPatterns_3].

Definition conditionPatterns : list pattern :=
  [conditionPatterns_0; conditionPatterns_1; conditionPatterns_2;
   conditionPatterns_3; conditionPatterns_4].

Definition storagePatterns : list pattern :=
  [storagePatterns_0; storagePatterns_1; storagePatterns_2; storagePatterns_3].

Definition imagePatterns : list pattern :=
  [imagePatterns_0; imagePatterns_1; imagePatterns_2;
   imagePatterns_3; imagePatterns_4].

(** What the scraper asks of the JavaScript runtime.
    - [regexp_exec p s]: the first match of [p] in [s], as the array
      [whole match; group 1; group 2; ...];
    - [regexp_all p s]: all the matches of [p] in [s], left to right
      (what [s.match(p)] returns for an expression with the [g] flag);
    - [regexp_cut p s]: [s.replace(p, '')];
    - [url_href rel base]: [new URL(rel, base).href], [None] when the
      constructor throws;
    - [url_hostname u]: [new URL(u).hostname], [None] when it throws. *)
Class Runtime := {
  regexp_exec : pattern -> string -> option (list string);
  regexp_all : pattern -> string -> list string;
  regexp_cut : pattern -> string -> string;
  url_href : string -> string -> option string;
  url_hostname : string -> option string
}.

(** ** The extractor: the body of [scrapeProduct] *)

Record ScrapedData := {
  title : string;
  mrp : Z;
  sale_price : Z;
  discount : string;
  condition : string;
  storage : string;
  ram : option string;
  color : option string;
  image_url : option string;
  is_out_of_stock : bool
}.

(** The HTTP response of [fetch]; [text] is the outcome of
    [response.text()]. *)
Record response := {
  ok : bool;
  status : Z;
  text : result string
}.

Definition is_empty (s : string) : bool :=
  match s with
  | EmptyString => true
  | _ => false
  end.

(** [m[i]] for a capture group that takes part in every match. *)
Definition group (i : nat) (m : list string) : string := nth i m "".

Definition knownConditions : list string :=
  ["Fair"; "Good"; "Excellent"; "Superb"].

(** The chain of [if / else if] that normalizes a fallback condition. *)
Definition normalize_condition (c : string) : string :=
  let l := toLowerCase c in
  if includes "fair" l then "Fair"
  else if includes "good" l then "Good"
  else if includes "excellent" l then "Excellent"
  else if includes "superb" l then "Superb"
  else c.

(** [Math.round(((mrp - sale_price) / mrp) * 100)], on the exact quotient.
    The source computes it in double precision, where a quotient that
    ends in one half exactly can land just below it and round down
    (list 10000, sale 8550: 14 in the source, 15 here). No property
    below reads a computed discount. *)
Definition discountPercent (mrp sale_price : number) : Z :=
  match mrp, sale_price with
  | Num m, Num s => (200 * (m - s) + m) / (2 * m)
  | _, _ => 0
  end.

(** The price backfill for out-of-stock products, on the working
    variables [mrp] and [sale_price]. *)
Definition backfill (isOutOfStock : bool) (mrp sale_price : number)
  : number * number :=
  if isOutOfStock then
    if negb (truthy mrp) && negb (truthy sale_price)
    then (Num 50000, Num 45000)
    else if negb (truthy sale_price)
    then (mrp, Num (num_or mrp 45000))
    else if negb (truthy mrp)
    then (match sale_price with
          | Num s => Num (s + 5000)
          | NaN => NaN
          end, sale_price)
    else (mrp, sale_price)
  else (mrp, sale_price).

(** [finalStorage]. *)
Definition combine_storage (ram storage : string) : string :=
  if negb (is_empty ram) && negb (is_empty storage)
  then ram ++ " / " ++ storage
  else if negb (is_empty ram) && is_empty storage then ram
  else storage.

(** The data returned by the [catch] block of track-product's
    [scrapeProduct]. *)
Definition fallbackData (url : string) : ScrapedData :=
  let urlTitle :=
    str_or (dashes_to_spaces (last (split "/" url) "")) "Product" in
  {| title := "Cashify " ++ capitalize urlTitle;
     mrp := 50000;
     sale_price := 45000;
     discount := "10%";
     condition := "Good";
     storage := "128GB";
     ram := None;
     color := None;
     image_url := None;
     is_out_of_stock := false |}.

Section Extractor.
Context {RT : Runtime}.

(** [s.match(p)]: with the [g] flag the array of all matches, [null]
    when there is none; otherwise the first match with its groups. *)
Definition str_match (p : pattern) (s : string) : option (list string) :=
  if isGlobal p then
    match regexp_all p s with
    | [] => None
    | l => Some l
    end
  else regexp_exec p s.

Definition isOutOfStock (html : string) : bool :=
  match regexp_exec outOfStockPattern html with
  | Some _ => true
  | None => false
  end.

Definition scrape_title (html : string) : string :=
  match regexp_exec h1Pattern html with
  | Some h1Match => trim (group 1 h1Match)
  | None =>
      match regexp_exec titlePattern html with
      | Some titleMatch => trim (collapse_spaces (group 1 titleMatch))
      | None => "Unknown Product"
      end
  end.

(** The [for] loop over fallback price patterns: the first pattern
    whose match parses to a price in range sets the variable. *)
Fixpoint fallback_price (patterns : list pattern) (html : string)
                        (current : number) : number :=
  match patterns with
  | [] => current
  | p :: rest =>
      match regexp_exec p html with
      | Some m =>
          let price := parseInt (remove_commas (group 1 m)) in
          if in_price_range price then price
          else fallback_price rest html current
      | None => fallback_price rest html current
      end
  end.

(** The variable [mrp] before the backfill. *)
Definition scrape_mrp (f : edge_function) (html : string) : number :=
  let mrp0 :=
    match regexp_exec (mrpPattern f) html with
    | Some mrpMatch => parseInt (remove_commas (group 1 mrpMatch))
    | None => Num 0
    end in
  if truthy mrp0 then mrp0
  else fallback_price (fallbackMrpPatterns f) html mrp0.

(** The variable [sale_price] before the backfill. *)
Definition scrape_sale_price (f : edge_function) (html : string) : number :=
  if isOutOfStock html then Num 0
  else
    let sale0 :=
      match regexp_exec (salePricePattern f) html with
      | Some salePriceMatch =>
          parseInt (remove_commas (group 1 salePriceMatch))
      | None => Num 0
      end in
    if truthy sale0 then sale0
    else fallback_price (fallbackSalePricePatterns f) html sale0.

Fixpoint fallback_discount (patterns : list pattern) (html : string)
  : string :=
  match patterns with
  | [] => "0%"
  | p :: rest =>
      match regexp_exec p html with
      | Some m => group 1 m ++ "%"
      | None => fallback_discount rest html
      end
  end.

Definition scrape_discount (html : string) (mrp sale_price : number)
  : string :=
  if isOutOfStock html then "0%"
  else
    let d0 :=
      match regexp_exec discountPattern html with
      | Some discountMatch => group 1 discountMatch ++ "%"
      | None => "0%"
      end in
    let d1 :=
      if String.eqb d0 "0%"
      then fallback_discount fallbackDiscountPatterns html
      else d0 in
    if String.eqb d1 "0%" && num_gt mrp (Num 0)
       && num_gt sale_price (Num 0) && num_gt mrp sale_price
    then string_of_Z (discountPercent mrp sale_price) ++ "%"
    else d1.

(** The descriptive line (body element), split on commas:
    [(condition, storage, ram, color)] as the block leaves them. *)
Definition scrape_body (html : string)
  : string * string * string * string :=
  match regexp_exec bodyPattern html with
  | None => ("Good", "", "", "")
  | Some bodyMatch =>
      let bodyText := trim (group 1 bodyMatch) in
      let parts := map trim (split "," bodyText) in
      let condition :=
        match nth_error parts 1 with
        | Some conditionPart =>
            if existsb (fun c => includes (toLowerCase c)
                                          (toLowerCase conditionPart))
                       knownConditions
            then conditionPart else "Good"
        | None => "Good"
        end in
      let ram_storage :=
        match nth_error parts 2 with
        | Some storagePart =>
            match regexp_exec storageMatchPattern storagePart with
            | Some storageMatch =>
                (trim (group 1 storageMatch), trim (group 2 storageMatch))
            | None =>
                match regexp_exec fallbackStorageMatchPattern storagePart with
                | Some fallbackStorageMatch =>
                    ("", trim (group 1 fallbackStorageMatch))
                | None => ("", "")
                end
            end
        | None => ("", "")
        end in
      let color :=
        match nth_error parts 3 with
        | Some c => c
        | None => ""
        end in
      (condition, snd ram_storage, fst ram_storage, color)
  end.

(** The loop over [conditionPatterns]. [match[1]] is the first group,
    except for the expression with the [g] flag, where it is the second
    match of the page: when there is only one, [match[1]] is
    [undefined] and [.trim()] raises a [TypeError]. *)
Fixpoint fallback_condition (patterns : list pattern) (html : string)
                            (current : string) : result string :=
  match patterns with
  | [] => Ok current
  | p :: rest =>
      match str_match p html with
      | Some m =>
          match nth_error m 1 with
          | Some s => Ok (normalize_condition (trim s))
          | None =>
              Throw (TypeError
                "Cannot read properties of undefined (reading 'trim')")
          end
      | None => fallback_condition rest html current
      end
  end.

Definition scrape_condition (html : string) (condition : string)
  : result string :=
  if String.eqb condition "Good"
  then fallback_condition conditionPatterns html condition
  else Ok condition.

Fixpoint storage_from_title (patterns : list pattern) (title : string)
  : string :=
  match patterns with
  | [] => ""
  | p :: rest =>
      match str_match p title with
      | Some matches => trim (nth 0 matches "")
      | None => storage_from_title rest title
      end
  end.

Fixpoint storage_from_html (patterns : list pattern) (html : string)
  : string :=
  match patterns with
  | [] => ""
  | p :: rest =>
      match str_match p html with
      | Some matches =>
          match filter (fun s => Nat.ltb (String.length s) 20)
                       (map trim matches) with
          | v :: _ => v
          | [] => storage_from_html rest html
          end
      | None => storage_from_html rest html
      end
  end.

Definition scrape_storage (html title storage : string) : string :=
  if is_empty storage then
    let from_title := storage_from_title storagePatterns title in
    if is_empty from_title then storage_from_html storagePatterns html
    else from_title
  else storage.

(** The loop over [imagePatterns]; a relative address is resolved
    against the page URL, which can throw. *)
Fixpoint scrape_image (patterns : list pattern) (html url : string)
  : result string :=
  match patterns with
  | [] => Ok ""
  | p :: rest =>
      match regexp_exec p html with
      | Some m =>
          let image_url := group 1 m in
          if startsWith "http" image_url then Ok image_url
          else
            match url_href image_url url with
            | Some href => Ok href
            | None => Throw (TypeError "Invalid URL")
            end
      | None => scrape_image rest html url
      end
  end.

Definition clean_title (title : string) : string :=
  let t := trim (collapse_spaces (regexp_cut cashifySuffixPattern title)) in
  if Nat.ltb 100 (String.length t)
  then String.substring 0 100 t ++ "..."
  else t.

(** The body of the [try] block of [scrapeProduct], from the point
    where [html] holds the text of the page. It is the same in both
    edge functions up to logging and to the spelling of the currency
    sign in the price expressions. *)
Definition scrape_page (f : edge_function) (url html : string)
  : result ScrapedData :=
  let isOutOfStock := isOutOfStock html in
  let title := scrape_title html in
  let mrp := scrape_mrp f html in
  let sale_price := scrape_sale_price f html in
  let discount := scrape_discount html mrp sale_price in
  let '(condition0, storage0, ram, color) := scrape_body html in
  condition <- scrape_condition html condition0 ;;
  let storage := scrape_storage html title storage0 in
  image_url <- scrape_image imagePatterns html url ;;
  let title := clean_title title in
  let finalStorage := combine_storage ram storage in
  let (mrp, sale_price) := backfill isOutOfStock mrp sale_price in
  if negb (truthy mrp) && negb (truthy sale_price)
  then Throw NoPriceInformation
  else Ok {| title := str_or title "Cashify Product";
             mrp := num_or mrp (num_or sale_price 50000);
             sale_price := num_or sale_price (num_or mrp 45000);
             discount := discount;
             condition := condition;
             storage := str_or finalStorage "128GB";
             ram := Some ram;
             color := Some color;
             image_url := if is_empty image_url then None else Some image_url;
             is_out_of_stock := isOutOfStock |}.

(** The two steps of [scrape_page] that can raise a [TypeError], on
    their own: the condition found by the fallback loop and the image
    address. *)
Definition scrape_details (url html : string) : result (string * string) :=
  condition <- scrape_condition html (fst (fst (fst (scrape_body html)))) ;;
  image_url <- scrape_image imagePatterns html url ;;
  Ok (condition, image_url).

(** The working variables [mrp] and [sale_price] after every rule,
    backfill included. *)
Definition scrape_prices (f : edge_function) (html : string)
  : number * number :=
  backfill (isOutOfStock html) (scrape_mrp f html) (scrape_sale_price f html).

(** The test under 'Ensure we have valid data': no rule, backfill
    included, left a list price or a sale price. *)
Definition no_price_data (f : edge_function) (html : string) : bool :=
  negb (truthy (fst (scrape_prices f html)))
  && negb (truthy (snd (scrape_prices f html))).

(** [fetch(url)], the [response.ok] test and [response.text()]. *)
Definition fetch_page (fetched : result response) : result string :=
  response <- fetched ;;
  if ok response then text response
  else Throw (HttpError (status response)).
End Extractor.

(** [try { body } catch (error) { handler }]. *)
Definition try_catch {A : Type} (body : result A) (handler : error -> result A)
  : result A :=
  match body with
  | Ok a => Ok a
  | Throw e => handler e
  end.

(** [scrapeProduct] of the update-prices function: the [catch] block logs
    and rethrows. *)
Module UpdatePrices_scraper.
Definition scrapeProduct {RT : Runtime} (fetch : string -> result response)
                         (url : string) : result ScrapedData :=
  try_catch (html <- fetch_page (fetch url) ;;
             scrape_page update_prices url html)
            (fun error => Throw error).
End UpdatePrices_scraper.

(** [scrapeProduct] of the track-product function: the [catch] block logs
    and returns [fallbackData]. *)
Module TrackProduct_scraper.
Definition scrapeProduct {RT : Runtime} (fetch : string -> result response)
                         (url : string) : result ScrapedData :=
  try_catch (html <- fetch_page (fetch url) ;;
             scrape_page track_product url html)
            (fun error => Ok (fallbackData url)).
End TrackProduct_scraper.

(** ** Storage: the [products] and [price_alerts] tables *)

(** Instants ([Date.now()], ISO strings, [timestamptz]) in milliseconds. *)
Definition timestamp := Z.

Record PriceEntry := {
  price : Z;
  checked_at : timestamp
}.

Module Product.
Record t := {
  id : string;
  user_id : string;
  url : string;
  title : string;
  mrp : Z;
  sale_price : Z;
  discount : string;
  condition : string;
  storage : string;
  ram : string;
  color : string;
  image_url : option string;
  last_checked : timestamp;
  price_history : list PriceEntry;
  created_at : timestamp;
  updated_at : timestamp;
  is_out_of_stock : option bool   (* a nullable column *)
}.
End Product.

Module PriceAlert.
Record t := {
  id : string;
  product_id : string;
  user_id : string;
  target_price : Z;
  is_active : bool;
  created_at : timestamp;
  updated_at : timestamp
}.
End PriceAlert.

(** [.update(f).eq('id', key)] on a table. *)
Definition update_where {A : Type} (id_of : A -> string) (key : string)
                        (f : A -> A) (table : list A) : list A :=
  map (fun row => if String.eqb (id_of row) key then f row else row) table.

(** [.single()]: the row when exactly one row is selected. *)
Definition single {A : Type} (rows : list A) : option A :=
  match rows with
  | [row] => Some row
  | _ => None
  end.

(** A request handed to the delivery side: the call of
    [sendPriceTriggeredEmail] or of [sendStockAlertEmail]. *)
Inductive intent :=
| PriceTargetReached (email product_id alert_id : string) (newPrice : Z)
| BackInStock (email product_id : string).

(** ** The outside world during one unit of work

    One [World] holds the outcomes of the external calls made while one
    product is processed by the sweep, or while one tracking request is
    served. *)
Record World := {
  (* fetch(url) *)
  fetch : string -> result response;
  (* the error of the products insert or update, if any *)
  storeError : option string;
  (* the product id generated by an insert *)
  generated_id : string;
  (* successive readings of new Date() *)
  now_checked_at : timestamp;
  now_last_checked : timestamp;
  now_updated_at : timestamp;
  (* auth.getUser(token): the id of the user, when the token is valid *)
  getUser : string -> option string;
  (* auth.admin.getUserById(id): the email of the user, when there is one *)
  getUserEmail : string -> option string;
  (* whether the select on price_alerts returned an error *)
  alertsError : bool;
  (* per alert id: sendPriceTriggeredEmail returned (true) or threw (false) *)
  priceMailDelivered : string -> bool;
  (* per alert id: the reading of new Date() when it is deactivated *)
  now_alert : string -> timestamp
}.

(** [user?.user?.email] used as a condition. *)
Definition email_of (w : World) (user_id : string) : option string :=
  match getUserEmail w user_id with
  | Some email => if is_empty email then None else Some email
  | None => None
  end.

(** The two tables. *)
Record Database := {
  products : list Product.t;
  price_alerts : list PriceAlert.t
}.

(** The JSON bodies of the responses of the two edge functions. *)
Inductive json :=
| Empty
| Error (error : string)
| NothingToUpdate   (* message 'No products need updating', updated 0 *)
| Summary (message : string) (updated total : nat)
          (errors : option (list string))
| Tracking (product : Product.t) (message : string).  (* success: true *)

Record Response := {
  http_status : Z;
  payload : json
}.

Definition string_of_nat (n : nat) : string := string_of_Z (Z.of_nat n).

(** ** update-prices: reconcile, notify, sweep *)

Module UpdatePrices.
Import UpdatePrices_scraper.

(** The price of the last history entry, 0 for an empty history. *)
Definition lastPrice (currentPriceHistory : list PriceEntry) : Z :=
  last (map price currentPriceHistory) 0.

(** [!scrapedData.is_out_of_stock && lastPrice !== scrapedData.sale_price] *)
Definition priceChanged (product : Product.t) (scrapedData : ScrapedData)
  : bool :=
  negb (is_out_of_stock scrapedData)
  && negb (lastPrice (Product.price_history product) =? sale_price scrapedData).

Definition newPriceHistory (w : World) (product : Product.t)
                           (scrapedData : ScrapedData) : list PriceEntry :=
  if priceChanged product scrapedData
  then (Product.price_history product ++
        [{| price := sale_price scrapedData;
            checked_at := now_checked_at w |}])%list
  else Product.price_history product.

(** [product.is_out_of_stock !== scrapedData.is_out_of_stock] *)
Definition stockStatusChanged (product : Product.t)
                              (scrapedData : ScrapedData) : bool :=
  match Product.is_out_of_stock product with
  | Some b => negb (Bool.eqb b (is_out_of_stock scrapedData))
  | None => true
  end.

(** The object passed to [.update(...)], applied to a stored row. A
    property whose value is [undefined] ([image_url]) is not sent and
    leaves the column as it is. *)
Definition reconciled (w : World) (product : Product.t)
                      (scrapedData : ScrapedData) (row : Product.t)
  : Product.t :=
  {| Product.id := Product.id row;
     Product.user_id := Product.user_id row;
     Product.url := Product.url row;
     Product.title := title scrapedData;
     Product.mrp := mrp scrapedData;
     Product.sale_price := sale_price scrapedData;
     Product.discount := discount scrapedData;
     Product.condition := condition scrapedData;
     Product.storage := storage scrapedData;
     Product.ram := match ram scrapedData with Some r => r | None => "" end;
     Product.color := match color scrapedData with Some c => c | None => "" end;
     Product.image_url :=
       match image_url scrapedData with
       | Some u => Some u
       | None => Product.image_url row
       end;
     Product.last_checked := now_last_checked w;
     Product.price_history := newPriceHistory w product scrapedData;
     Product.created_at := Product.created_at row;
     Product.updated_at := now_updated_at w;
     Product.is_out_of_stock := Some (is_out_of_stock scrapedData) |}.

Definition deactivate (w : World) (alert : PriceAlert.t) : PriceAlert.t :=
  {| PriceAlert.id := PriceAlert.id alert;
     PriceAlert.product_id := PriceAlert.product_id alert;
     PriceAlert.user_id := PriceAlert.user_id alert;
     PriceAlert.target_price := PriceAlert.target_price alert;
     PriceAlert.is_active := false;
     PriceAlert.created_at := PriceAlert.created_at alert;
     PriceAlert.updated_at := now_alert w (PriceAlert.id alert) |}.

(** The filter of the select in [checkPriceAlerts]. *)
Definition triggered (product : Product.t) (newPrice : Z)
                     (alert : PriceAlert.t) : bool :=
  String.eqb (PriceAlert.product_id alert) (Product.id product)
  && PriceAlert.is_active alert
  && (newPrice <=? PriceAlert.target_price alert).

(** One turn of the loop over the triggered alerts: the mail is sent
    when the user has an email; the alert is deactivated unless sending
    threw (the [catch] skips the update). The source does not look at
    the result of this update, which is taken as applied. *)
Definition notify_alert (w : World) (product : Product.t) (newPrice : Z)
                        (acc : list PriceAlert.t * list intent)
                        (alert : PriceAlert.t)
  : list PriceAlert.t * list intent :=
  let id := PriceAlert.id alert in
  match email_of w (PriceAlert.user_id alert) with
  | Some email =>
      let sent := (snd acc ++
                   [PriceTargetReached email (Product.id product) id newPrice])%list in
      if priceMailDelivered w id
      then (update_where PriceAlert.id id (deactivate w) (fst acc), sent)
      else (fst acc, sent)
  | None => (update_where PriceAlert.id id (deactivate w) (fst acc), snd acc)
  end.

Definition checkPriceAlerts (w : World) (alerts : list PriceAlert.t)
                            (product : Product.t) (newPrice : Z)
  : list PriceAlert.t * list intent :=
  if alertsError w then (alerts, [])
  else fold_left (notify_alert w product newPrice)
                 (filter (triggered product newPrice) alerts)
                 (alerts, []).

Definition sendStockAlert (w : World) (product : Product.t) : list intent :=
  match email_of w (Product.user_id product) with
  | Some email => [BackInStock email (Product.id product)]
  | None => []
  end.

Section Handler.
Context {RT : Runtime}.

(** The state of the loop of the handler. *)
Record State := {
  db : Database;
  updatedCount : nat;
  errors : list string;
  outbox : list intent
}.

(** The body of the loop for one product: the inner [try] block and
    its [catch]. *)
Definition process_product (w : World) (st : State) (product : Product.t)
  : State :=
  match scrapeProduct (fetch w) (Product.url product) with
  | Throw error =>
      {| db := db st;
         updatedCount := updatedCount st;
         errors := app (errors st)
                       ["Failed to scrape product " ++ Product.id product
                        ++ ": " ++ error_message error];
         outbox := outbox st |}
  | Ok scrapedData =>
      match storeError w with
      | Some message =>
          {| db := db st;
             updatedCount := updatedCount st;
             errors := app (errors st)
                           ["Failed to update product " ++ Product.id product
                            ++ ": " ++ message];
             outbox := outbox st |}
      | None =>
          let stored :=
            update_where Product.id (Product.id product)
                         (reconciled w product scrapedData)
                         (products (db st)) in
          let price_step :=
            if negb (is_out_of_stock scrapedData)
               && priceChanged product scrapedData
               && (sale_price scrapedData
                   <? lastPrice (Product.price_history product))
            then checkPriceAlerts w (price_alerts (db st)) product
                                  (sale_price scrapedData)
            else (price_alerts (db st), []) in
          let stock_step :=
            if stockStatusChanged product scrapedData
               && negb (is_out_of_stock scrapedData)
               && match Product.is_out_of_stock product with
                  | Some b => b
                  | None => false
                  end
            then sendStockAlert w product
            else [] in
          {| db := {| products := stored; price_alerts := fst price_step |};
             updatedCount := S (updatedCount st);
             errors := errors st;
             outbox := (outbox st ++ snd price_step ++ stock_step)%list |}
      end
  end.

(** What one invocation of the function meets outside. *)
Record Sweep := {
  (* Date.now() when the stale products are selected *)
  select_now : timestamp;
  (* whether the select on products returned an error *)
  selectError : bool;
  (* the world while the product with a given id is processed *)
  world_of : string -> World
}.

Definition stale (s : Sweep) (database : Database) : list Product.t :=
  let oneHourAgo := select_now s - 60 * 60 * 1000 in
  filter (fun p => Product.last_checked p <? oneHourAgo) (products database).

Definition run (s : Sweep) (database : Database) (items : list Product.t)
  : State :=
  fold_left (fun st product =>
               process_product (world_of s (Product.id product)) st product)
            items
            {| db := database; updatedCount := 0%nat;
               errors := []; outbox := [] |}.

(** The handler passed to [Deno.serve]: the response, the database
    afterwards and the notification requests issued. *)
Definition handler (s : Sweep) (method : string) (database : Database)
  : Response * Database * list intent :=
  if String.eqb method "OPTIONS"
  then ({| http_status := 200; payload := Empty |}, database, [])
  else if selectError s
  then ({| http_status := 500; payload := Error "Internal server error" |},
        database, [])
  else
    match stale s database with
    | [] => ({| http_status := 200; payload := NothingToUpdate |},
             database, [])
    | items =>
        let st := run s database items in
        let message :=
          "Automatic price update completed: "
          ++ string_of_nat (updatedCount st) ++ "/"
          ++ string_of_nat (length items) ++ " products updated" in
        ({| http_status := 200;
            payload := Summary message (updatedCount st) (length items)
                         (match errors st with
                          | [] => None
                          | es => Some es
                          end) |},
         db st, outbox st)
    end.
End Handler.
End UpdatePrices.

(** ** track-product: the handler of a first tracking request *)

Fixpoint string_drop (n : nat) (s : string) : string :=
  match n, s with
  | O, _ => s
  | S n', String _ rest => string_drop n' rest
  | S _, EmptyString => EmptyString
  end.

(** [s.replace(needle, '')] for a string [needle]: the first occurrence
    is removed. *)
Fixpoint remove_first (needle s : string) : string :=
  if String.prefix needle s then string_drop (String.length needle) s
  else
    match s with
    | EmptyString => EmptyString
    | String c rest => String c (remove_first needle rest)
    end.

Module TrackProduct.
Import TrackProduct_scraper.

Record Request := {
  method : string;
  (* the url property of the parsed body; Throw when req.json() rejects *)
  json_url : result (option string);
  (* the Authorization header *)
  authorization : option string
}.

(** The message of the successful answer. *)
Definition started : string :=
  "Product tracking started successfully! "
  ++ "Set up price alerts to receive email notifications.".

(** What the handler did: its response, the database afterwards and
    the URLs it passed to [fetch]. *)
Record Outcome := {
  response_of : Response;
  database_of : Database;
  fetches : list string
}.

Definition reply (st : Z) (error : string) (database : Database) : Outcome :=
  {| response_of := {| http_status := st; payload := Error error |};
     database_of := database;
     fetches := [] |}.

(** The select of the duplicate check, before [.single()]. *)
Definition tracked_by (user url : string) (database : Database)
  : list Product.t :=
  filter (fun p => String.eqb (Product.user_id p) user
                   && String.eqb (Product.url p) url)
         (products database).

(** The row stored by the insert; [id], [created_at] and [updated_at]
    are the defaults of the table. *)
Definition inserted (w : World) (user url : string)
                    (scrapedData : ScrapedData) : Product.t :=
  {| Product.id := generated_id w;
     Product.user_id := user;
     Product.url := url;
     Product.title := title scrapedData;
     Product.mrp := mrp scrapedData;
     Product.sale_price := sale_price scrapedData;
     Product.discount := discount scrapedData;
     Product.condition := condition scrapedData;
     Product.storage := storage scrapedData;
     Product.ram := match ram scrapedData with Some r => r | None => "" end;
     Product.color := match color scrapedData with Some c => c | None => "" end;
     Product.image_url := image_url scrapedData;
     Product.last_checked := now_last_checked w;
     Product.price_history :=
       [{| price := sale_price scrapedData;
           checked_at := now_checked_at w |}];
     Product.created_at := now_updated_at w;
     Product.updated_at := now_updated_at w;
     Product.is_out_of_stock := Some (is_out_of_stock scrapedData) |}.

Section Handler.
Context {RT : Runtime}.

(** The steps after authentication: duplicate check, scrape, insert. *)
Definition track (w : World) (user url : string) (database : Database)
  : Outcome :=
  match single (tracked_by user url database) with
  | Some existingProduct =>
      reply 400 "Product is already being tracked" database
  | None =>
      match scrapeProduct (fetch w) url with
      | Throw error =>
          (* the outer catch of the handler *)
          {| response_of :=
               {| http_status := 500;
                  payload := Error "Internal server error" |};
             database_of := database;
             fetches := [url] |}
      | Ok scrapedData =>
          match storeError w with
          | Some dbError =>
              {| response_of :=
                   {| http_status := 500;
                      payload := Error "Failed to save product data" |};
                 database_of := database;
                 fetches := [url] |}
          | None =>
              let product := inserted w user url scrapedData in
              {| response_of :=
                   {| http_status := 200;
                      payload := Tracking product started |};
                 database_of :=
                   {| products := (products database ++ [product])%list;
                      price_alerts := price_alerts database |};
                 fetches := [url] |}
          end
      end
  end.

(** The checks made before the database is read: the early response,
    or the user and the URL of a request that passes them. *)
Definition screen (w : World) (req : Request) : Response + (string * string) :=
  let refuse st error := inl {| http_status := st; payload := Error error |} in
  if String.eqb (method req) "OPTIONS"
  then inl {| http_status := 200; payload := Empty |}
  else
    match json_url req with
    | Throw _ => refuse 500 "Internal server error"
    | Ok None => refuse 400 "URL is required"
    | Ok (Some url) =>
        if is_empty url then refuse 400 "URL is required"
        else if negb (includes "cashify.in" url)
        then refuse 400 "Only Cashify URLs are supported"
        else
          match authorization req with
          | None => refuse 401 "Authorization header required"
          | Some authHeader =>
              if is_empty authHeader
              then refuse 401 "Authorization header required"
              else
                let token := remove_first "Bearer " authHeader in
                match getUser w token with
                | None => refuse 401 "Invalid authorization token"
                | Some user => inr (user, url)
                end
          end
    end.

(** The handler passed to [Deno.serve]. *)
Definition handler (w : World) (req : Request) (database : Database)
  : Outcome :=
  match screen w req with
  | inl response =>
      {| response_of := response; database_of := database; fetches := [] |}
  | inr (user, url) => track w user url database
  end.
End Handler.
End TrackProduct.

(** ** The product form: what the page sends to track-product *)

Module ProductForm.
Section Form.
Context {RT : Runtime}.

Definition validateCashifyUrl (url : string) : bool :=
  match url_hostname url with
  | Some hostname =>
      String.eqb hostname "www.cashify.in" && includes "buy-refurbished" url
  | None => false
  end.

(** [handleSubmit]: the request posted to the function, [None] when
    the form stops with an error message instead. *)
Definition handleSubmit (url : string) (access_token : option string)
  : option TrackProduct.Request :=
  if is_empty (trim url) then None
  else if negb (validateCashifyUrl url) then None
  else
    match access_token with
    | None => None
    | Some token =>
        if is_empty token then None
        else Some {| TrackProduct.method := "POST";
                     TrackProduct.json_url := Ok (Some url);
                     TrackProduct.authorization := Some ("Bearer " ++ token) |}
    end.
End Form.
End ProductForm.

(** ** The alert dialog: what the signed-in user does to an alert

    The dialog writes with the user's own session, so the policy of the
    [price_alerts] table restricts each write to the rows of that user.
    [error] tells whether storage returned an error; the table is then
    left as it is. *)

Module PriceAlertDialog.
Definition toggled (isActive : bool) (now : timestamp) (alert : PriceAlert.t)
  : PriceAlert.t :=
  {| PriceAlert.id := PriceAlert.id alert;
     PriceAlert.product_id := PriceAlert.product_id alert;
     PriceAlert.user_id := PriceAlert.user_id alert;
     PriceAlert.target_price := PriceAlert.target_price alert;
     PriceAlert.is_active := negb isActive;
     PriceAlert.created_at := PriceAlert.created_at alert;
     PriceAlert.updated_at := now |}.

Definition own (user alertId : string) (alert : PriceAlert.t) : bool :=
  String.eqb (PriceAlert.id alert) alertId
  && String.eqb (PriceAlert.user_id alert) user.

Definition handleToggleAlert (user : string) (error : bool) (now : timestamp)
                             (alerts : list PriceAlert.t)
                             (alertId : string) (isActive : bool)
  : list PriceAlert.t :=
  if error then alerts
  else map (fun alert => if own user alertId alert
                         then toggled isActive now alert else alert)
           alerts.

Definition handleDeleteAlert (user : string) (error : bool)
                             (alerts : list PriceAlert.t) (alertId : string)
  : list PriceAlert.t :=
  if error then alerts
  else filter (fun alert => negb (own user alertId alert)) alerts.
End PriceAlertDialog.

(** ** Sample pages and worlds for the examples *)

Fixpoint until_slash (s : string) : string :=
  match s with
  | EmptyString => EmptyString
  | String c rest =>
      if Ascii.eqb c "/"%char then EmptyString else String c (until_slash rest)
  end.

Fixpoint after_scheme (s : string) : option string :=
  if String.prefix "://" s then Some (string_drop 3 s)
  else
    match s with
    | EmptyString => None
    | String _ rest => after_scheme rest
    end.

(** The host name of the plain addresses used below: what stands between
    the scheme and the next slash. An address without a scheme is not a
    URL. *)
Definition sample_hostname (u : string) : option string :=
  match after_scheme u with
  | Some rest => Some (toLowerCase (until_slash rest))
  | None => None
  end.

(** A runtime given by what each expression finds on the page at hand:
    [found p] is the first match of [p] (only its groups are read by the
    scraper), [found_all p] the list of all its matches. *)
Definition page_runtime (found : pattern -> option (list string))
                        (found_all : pattern -> list string) : Runtime :=
  {| regexp_exec := fun p _ => found p;
     regexp_all := fun p _ => found_all p;
     regexp_cut := fun _ s => s;
     url_href := fun rel base =>
       match sample_hostname base with
       | Some host =>
           if startsWith "/" rel then Some ("https://" ++ host ++ rel)
           else None
       | None => None
       end;
     url_hostname := sample_hostname |}.

(** A page on which no expression of the scraper finds anything, such as
    an empty document. *)
Definition blank_page : Runtime := page_runtime (fun _ => None) (fun _ => []).

(** A page that shows the out-of-stock banner and no price. *)
Definition sold_out_page : Runtime :=
  page_runtime (fun p => match p with
                         | outOfStockPattern => Some ["Out of Stock"]
                         | _ => None
                         end)
               (fun _ => []).

(** A page headed [Phone X] that shows a struck-through price of 49,999
    and a current price of 44,999. *)
Definition priced_page : Runtime :=
  page_runtime (fun p => match p with
                         | h1Pattern => Some ["Phone X"; "Phone X"]
                         | mrpPattern _ => Some ["49,999"; "49,999"]
                         | salePricePattern _ => Some ["44,999"; "44,999"]
                         | _ => None
                         end)
               (fun _ => []).

(** A page that shows the out-of-stock banner and, once, one of the
    condition words. *)
Definition lone_condition_page : Runtime :=
  page_runtime (fun p => match p with
                         | outOfStockPattern => Some ["Out of Stock"]
                         | _ => None
                         end)
               (fun p => match p with
                         | conditionPatterns_2 => ["Good"]
                         | _ => []
                         end).

Definition served (html : string) : result response :=
  Ok {| ok := true; status := 200; text := Ok html |}.

(** Stands for the text of a sample page; [page_runtime] describes a
    page by what the expressions find on it and does not read the text. *)
Definition sample_html : string := "<!doctype html><title>...</title>".

(** A world in which the page is answered by [fetched], storage works,
    the token [token-1] belongs to user [user-1], who has an email, and
    mail is delivered. *)
Definition sample_world (fetched : result response) : World :=
  {| fetch := fun _ => fetched;
     storeError := None;
     generated_id := "product-9";
     now_checked_at := 7200001;
     now_last_checked := 7200002;
     now_updated_at := 7200003;
     getUser := fun token =>
       if String.eqb token "token-1" then Some "user-1" else None;
     getUserEmail := fun user =>
       if String.eqb user "user-1" then Some "user-1@example.com" else None;
     alertsError := false;
     priceMailDelivered := fun _ => true;
     now_alert := fun _ => 7200004 |}.

(** The request the product form sends for [url] on behalf of the
    holder of [token-1]. *)
Definition sample_request (url : string) : TrackProduct.Request :=
  {| TrackProduct.method := "POST";
     TrackProduct.json_url := Ok (Some url);
     TrackProduct.authorization := Some "Bearer token-1" |}.

Definition sample_url : string :=
  "https://www.cashify.in/buy-refurbished-mobile-phones/phone-x".

Definition empty_database : Database :=
  {| products := []; price_alerts := [] |}.

(** A tracked phone of [user-1], last checked at instant 0, whose last
    recorded price is 46999. *)
Definition sample_product (id : string) : Product.t :=
  {| Product.id := id;
     Product.user_id := "user-1";
     Product.url :=
       "https://www.cashify.in/buy-refurbished-mobile-phones/" ++ id;
     Product.title := "Phone";
     Product.mrp := 49999;
     Product.sale_price := 46999;
     Product.discount := "6%";
     Product.condition := "Good";
     Product.storage := "128GB";
     Product.ram := "";
     Product.color := "";
     Product.image_url := None;
     Product.last_checked := 0;
     Product.price_history := [{| price := 46999; checked_at := 0 |}];
     Product.created_at := 0;
     Product.updated_at := 0;
     Product.is_out_of_stock := Some false |}.

Definition sample_alert (id user : string) (target : Z) (active : bool)
  : PriceAlert.t :=
  {| PriceAlert.id := id;
     PriceAlert.product_id := "product-1";
     PriceAlert.user_id := user;
     PriceAlert.target_price := target;
     PriceAlert.is_active := active;
     PriceAlert.created_at := 0;
     PriceAlert.updated_at := 0 |}.

(** Three stale products; the fetch of the second one is rejected. *)
Definition three_products : Database :=
  {| products := [sample_product "product-1"; sample_product "product-2";
                  sample_product "product-3"];
     price_alerts := [] |}.

Definition sample_sweep : UpdatePrices.Sweep :=
  {| UpdatePrices.select_now := 7200000;
     UpdatePrices.selectError := false;
     UpdatePrices.world_of := fun id =>
       if String.eqb id "product-2"
       then sample_world (Throw (FetchRejected "connection refused"))
       else sample_world (served sample_html) |}.

(** A page headed [Phone X] that shows a struck-through price of 49,999
    and the current price given by [sale]. *)
Definition page_priced_at (sale : string) : Runtime :=
  page_runtime (fun p => match p with
                         | h1Pattern => Some ["Phone X"; "Phone X"]
                         | mrpPattern _ => Some ["49,999"; "49,999"]
                         | salePricePattern _ => Some [sale; sale]
                         | _ => None
                         end)
               (fun _ => []).



(** The state of a sweep that is about to process [product-1], stored
    with a last recorded price of 46999, with the given alerts. *)
Definition watching (alerts : list PriceAlert.t) : UpdatePrices.State :=
  {| UpdatePrices.db := {| products := [sample_product "product-1"];
                           price_alerts := alerts |};
     UpdatePrices.updatedCount := 0;
     UpdatePrices.errors := [];
     UpdatePrices.outbox := [] |}.

(** ** Vocabulary of the sweep properties *)

Section SweepVocabulary.
Context {RT : Runtime}.

(** What the scrape of a product gives during a sweep. *)
Definition attempt (s : UpdatePrices.Sweep) (product : Product.t)
  : result ScrapedData :=
  UpdatePrices_scraper.scrapeProduct
    (fetch (UpdatePrices.world_of s (Product.id product)))
    (Product.url product).

(** The product was scraped and its row was written. *)
Definition updated_ok (s : UpdatePrices.Sweep) (product : Product.t) : bool :=
  match attempt s product with
  | Ok _ =>
      match storeError (UpdatePrices.world_of s (Product.id product)) with
      | None => true
      | Some _ => false
      end
  | Throw _ => false
  end.

(** The entry a product leaves in the error list, if any. *)
Definition failure_entry (s : UpdatePrices.Sweep) (product : Product.t)
  : list string :=
  match attempt s product with
  | Throw e =>
      ["Failed to scrape product " ++ Product.id product ++ ": "
       ++ error_message e]
  | Ok _ =>
      match storeError (UpdatePrices.world_of s (Product.id product)) with
      | Some message =>
          ["Failed to update product " ++ Product.id product ++ ": "
           ++ message]
      | None => []
      end
  end.

(** What the sweep over [items] makes of a stored row: the row of an
    item that was scraped and written is reconciled, any other row is
    left as it is. *)
Definition settle (s : UpdatePrices.Sweep) (items : list Product.t)
                  (row : Product.t) : Product.t :=
  match find (fun p => String.eqb (Product.id p) (Product.id row)) items with
  | Some product =>
      match attempt s product with
      | Ok scrapedData =>
          match storeError (UpdatePrices.world_of s (Product.id product)) with
          | None =>
              UpdatePrices.reconciled
                (UpdatePrices.world_of s (Product.id product))
                product scrapedData row
          | Some _ => row
          end
      | Throw _ => row
      end
  | None => row
  end.
End SweepVocabulary.

(** The requests for delivery that concern one alert. *)
Definition intents_for (alert_id : string) (out : list intent) : list intent :=
  filter (fun i => match i with
                   | PriceTargetReached _ _ a _ => String.eqb a alert_id
                   | BackInStock _ _ => false
                   end) out.

(** ** Vocabulary of the alert properties *)

(** The mail requested for a triggered alert: one when its user has an
    email, none otherwise. *)
Definition mails (w : World) (product : Product.t) (newPrice : Z)
                 (alert : PriceAlert.t) : list intent :=
  match email_of w (PriceAlert.user_id alert) with
  | Some email =>
      [PriceTargetReached email (Product.id product) (PriceAlert.id alert)
         newPrice]
  | None => []
  end.

(** A triggered alert is deactivated unless sending its mail threw. *)
Definition deactivates (w : World) (alert : PriceAlert.t) : bool :=
  match email_of w (PriceAlert.user_id alert) with
  | Some _ => priceMailDelivered w (PriceAlert.id alert)
  | None => true
  end.


(** The stored alert after [checkPriceAlerts]. *)
Definition after_check (w : World) (product : Product.t) (newPrice : Z)
                       (alert : PriceAlert.t) : PriceAlert.t :=
  if UpdatePrices.triggered product newPrice alert && deactivates w alert
  then UpdatePrices.deactivate w alert
  else alert.

(** ** Vocabulary of the intake properties *)

(** No owner tracks a URL in more than one row. *)
Definition unique_tracking (database : Database) : Prop :=
  forall user url,
    (length (TrackProduct.tracked_by user url database) <= 1)%nat.

(** Two rows of [user-1] for the same URL. *)
Definition doubled_database : Database :=
  {| products := [sample_product "product-1"; sample_product "product-1"];
     price_alerts := [] |}.

(** ** The product list: removing a tracked product *)

Module ProductList.
(** The rows that [.delete().eq('id', productId).eq('user_id', user.id)]
    removes. *)
Definition removed (user productId : string) (p : Product.t) : bool :=
  String.eqb (Product.id p) productId && String.eqb (Product.user_id p) user.

(** [handleDelete], as the database sees it. The alerts of a removed
    product go with it: [price_alerts.product_id] references the product
    with [ON DELETE CASCADE]. [error] tells whether storage returned an
    error; nothing changes then. *)
Definition handleDelete (user : string) (error : bool) (database : Database)
                        (productId : string) : Database :=
  if error then database
  else
    let gone := filter (removed user productId) (products database) in
    {| products :=
         filter (fun p => negb (removed user productId p)) (products database);
       price_alerts :=
         filter (fun a =>
                   negb (existsb (fun p => String.eqb (Product.id p)
                                             (PriceAlert.product_id a)) gone))
                (price_alerts database) |}.
End ProductList.

(** ** The product card: what it shows of a stored product *)

Module ProductCard.
Inductive change :=
| down
| up
| same.

(** [getPriceChange]: [None] stands for [null]. The same function is in
    the product details dialog. *)
Definition getPriceChange (product : Product.t) : option (change * Z) :=
  let history := Product.price_history product in
  if Nat.ltb (length history) 2 then None
  else
    let currentPrice := Product.sale_price product in
    let previousPrice :=
      nth (length history - 2) (map price history) 0 in
    if currentPrice <? previousPrice
    then Some (down, previousPrice - currentPrice)
    else if previousPrice <? currentPrice
    then Some (up, currentPrice - previousPrice)
    else Some (same, 0).

(** [isRecentlyChecked], at the instant [now] read by [Date.now()]. *)
Definition isRecentlyChecked (now : timestamp) (product : Product.t) : bool :=
  let oneHourAgo := now - 60 * 60 * 1000 in
  oneHourAgo <? Product.last_checked product.
End ProductCard.

(** ** The price history chart *)

Module PriceHistoryChart.
(** The comparison function of the sort puts an entry before the first
    entry that is not older; the sort of the runtime is stable, which
    this insertion keeps. *)
Fixpoint insert_by_time (entry : PriceEntry) (sorted : list PriceEntry)
  : list PriceEntry :=
  match sorted with
  | [] => [entry]
  | x :: rest =>
      if checked_at entry <=? checked_at x then entry :: sorted
      else x :: insert_by_time entry rest
  end.

Definition sort_by_time (entries : list PriceEntry) : list PriceEntry :=
  fold_right insert_by_time [] entries.

(** [chartData]: the entries after [cutoffDate], oldest first. Each
    point of the source carries the price and the instant of its entry
    (and two display texts made from the instant); [cutoffDate] is what
    the date library computed for the selected range. *)
Definition chartData (cutoffDate : timestamp) (product : Product.t)
  : list PriceEntry :=
  sort_by_time
    (filter (fun entry => cutoffDate <? checked_at entry)
            (Product.price_history product)).

Inductive trend :=
| trend_up
| trend_down
| stable.

(** [priceStats] without [priceChangePercent], a floating-point ratio. *)
Record Stats := {
  currentPrice : Z;
  highestPrice : Z;
  lowestPrice : Z;
  priceChange : Z;
  price_trend : trend
}.

(** [Math.max(...prices)] and [Math.min(...prices)] for a list that is
    not empty. *)
Definition maximum (first : Z) (others : list Z) : Z :=
  fold_left Z.max others first.

Definition minimum (first : Z) (others : list Z) : Z :=
  fold_left Z.min others first.

Definition priceStats (product : Product.t) (data : list PriceEntry)
  : Stats :=
  match map price data with
  | [] =>
      {| currentPrice := Product.sale_price product;
         highestPrice := Product.sale_price product;
         lowestPrice := Product.sale_price product;
         priceChange := 0;
         price_trend := stable |}
  | firstPrice :: others =>
      let currentPrice := last others firstPrice in
      let priceChange := currentPrice - firstPrice in
      {| currentPrice := currentPrice;
         highestPrice := maximum firstPrice others;
         lowestPrice := minimum firstPrice others;
         priceChange := priceChange;
         price_trend :=
           if 0 <? priceChange then trend_up
           else if priceChange <? 0 then trend_down
           else stable |}
  end.
End PriceHistoryChart.

(** ** The alert dialog: creating an alert *)

Module CreateAlert.
(** The row stored by the insert; [id], [is_active] and the two instants
    are the defaults of the table. *)
Definition created (user new_id : string) (now : timestamp)
                   (product : Product.t) (target : Z) : PriceAlert.t :=
  {| PriceAlert.id := new_id;
     PriceAlert.product_id := Product.id product;
     PriceAlert.user_id := user;
     PriceAlert.target_price := target;
     PriceAlert.is_active := true;
     PriceAlert.created_at := now;
     PriceAlert.updated_at := now |}.

(** [handleCreateAlert], as the table sees it. [targetPrice] is the text
    of the input field and [price] what [parseFloat] made of it, a whole
    number of rupees or [NaN] (a target with a fraction, which the
    source would store as well, has no place in [PriceAlert.t] and is
    left out); [user] is the signed-in user, if any;
    [error] tells whether the insert returned an error. The confirmation
    mail that follows does not touch the table, whether it is sent or
    not. *)
Definition handleCreateAlert (user : option string) (targetPrice : string)
                             (price : number) (error : bool)
                             (new_id : string) (now : timestamp)
                             (product : Product.t)
                             (alerts : list PriceAlert.t)
  : list PriceAlert.t :=
  match user with
  | None => alerts
  | Some u =>
      if is_empty targetPrice then alerts
      else
        match price with
        | NaN => alerts
        | Num target =>
            if target <=? 0 then alerts
            else if Product.sale_price product <=? target then alerts
            else if error then alerts
            else (alerts ++ [created u new_id now product target])%list
        end
  end.
End CreateAlert.

(** ** send-price-alert-email: the mail function behind the dialog *)

Module SendPriceAlertEmail.
(** The parsed body; a missing or falsy property is [None]. A product
    and an alert that are present are taken to be rows of the two
    tables, which is what the dialog sends. *)
Record Body := {
  type : option string;
  product : option Product.t;
  alert : option PriceAlert.t;
  userEmail : option string;
  newPrice : option Z
}.

Record Request := {
  method : string;
  (* the parsed body; Throw when req.json() rejects *)
  body : result Body;
  (* the Authorization header *)
  authorization : option string
}.

(** A mail posted to the mail service ([api.resend.com]). *)
Inductive mail :=
| AlertSetup (recipient : string) (product : Product.t) (alert : PriceAlert.t)
| Triggered (recipient : string) (product : Product.t) (alert : PriceAlert.t)
            (newPrice : Z).

(** What the function meets outside: the environment variable
    [RESEND_API_KEY] and, for each mail posted, whether the mail service
    took it ([false] when the post is rejected, is answered with an
    error status or its answer cannot be read). *)
Record Mailer := {
  resendApiKey : option string;
  accepted : mail -> bool
}.

Inductive reply :=
| Preflight                              (* 200, no body *)
| Refused (http_status : Z) (error : string)
| Success.                               (* 200, 'Email sent successfully' *)

Definition present (s : option string) : option string :=
  match s with
  | Some text => if is_empty text then None else Some text
  | None => None
  end.

(** The part the two mail functions share, from the test of the API key
    on: whether the function returned ([true]) or threw ([false]), and
    the mails it posted. Without a key it logs the mail and returns. *)
Definition post (mailer : Mailer) (m : mail) : bool * list mail :=
  match present (resendApiKey mailer) with
  | None => (true, [])
  | Some _ => (accepted mailer m, [m])
  end.

Definition sendPriceAlertSetupEmail (mailer : Mailer) (userEmail : string)
                                    (product : Product.t)
                                    (alert : PriceAlert.t)
  : bool * list mail :=
  post mailer (AlertSetup userEmail product alert).

(** Without a new price the function throws before it posts anything:
    [newPrice.toLocaleString()] raises a [TypeError] in the branch
    without a key and when the mail is composed. *)
Definition sendPriceTriggeredEmail (mailer : Mailer) (userEmail : string)
                                   (product : Product.t)
                                   (alert : PriceAlert.t)
                                   (newPrice : option Z)
  : bool * list mail :=
  match newPrice with
  | None => (false, [])
  | Some price => post mailer (Triggered userEmail product alert price)
  end.

(** The handler passed to [Deno.serve]: its answer and the mails posted
    to the mail service. [getUser token] is the user of a valid
    token. *)
Definition handler (getUser : string -> option string) (mailer : Mailer)
                   (req : Request)
  : reply * list mail :=
  if String.eqb (method req) "OPTIONS" then (Preflight, [])
  else
    match body req with
    | Throw _ => (Refused 500 "Failed to send email", [])
    | Ok b =>
        match present (type b), product b, alert b, present (userEmail b) with
        | Some type, Some product, Some alert, Some userEmail =>
            match present (authorization req) with
            | None => (Refused 401 "Authorization header required", [])
            | Some authHeader =>
                match getUser (remove_first "Bearer " authHeader) with
                | None => (Refused 401 "Invalid authorization token", [])
                | Some _ =>
                    let sending :=
                      if String.eqb type "alert_setup"
                      then sendPriceAlertSetupEmail mailer userEmail product
                             alert
                      else if String.eqb type "price_triggered"
                      then sendPriceTriggeredEmail mailer userEmail product
                             alert (newPrice b)
                      else (true, []) in
                    if fst sending then (Success, snd sending)
                    else (Refused 500 "Failed to send email", snd sending)
                end
            end
        | _, _, _, _ => (Refused 400 "Missing required fields", [])
        end
    end.
End SendPriceAlertEmail.

(** ** The alert dialog: asking for the confirmation mail *)

Module AlertSetupMail.
(** [sendPriceAlertSetupEmail] of the dialog: the request posted to
    send-price-alert-email, [None] when there is no access token.
    [email] is [user?.email]; a property that is [undefined] is left out
    of the body. *)
Definition sendPriceAlertSetupEmail (access_token email : option string)
                                    (product : Product.t)
                                    (alertData : PriceAlert.t)
  : option SendPriceAlertEmail.Request :=
  match access_token with
  | None => None
  | Some token =>
      if is_empty token then None
      else Some {| SendPriceAlertEmail.method := "POST";
                   SendPriceAlertEmail.body :=
                     Ok {| SendPriceAlertEmail.type := Some "alert_setup";
                           SendPriceAlertEmail.product := Some product;
                           SendPriceAlertEmail.alert := Some alertData;
                           SendPriceAlertEmail.userEmail := email;
                           SendPriceAlertEmail.newPrice := None |};
                   SendPriceAlertEmail.authorization :=
                     Some ("Bearer " ++ token) |}
  end.
End AlertSetupMail.

(** A mail function with an API key whose mails the mail service
    takes. *)
Definition sample_mailer : SendPriceAlertEmail.Mailer :=
  {| SendPriceAlertEmail.resendApiKey := Some "re_sample";
     SendPriceAlertEmail.accepted := fun _ => true |}.

(** ** Vocabulary of the further properties *)

(** What identifies a product row and never changes once it is stored. *)
Definition identity_of (p : Product.t) : string * string * string * timestamp :=
  (Product.id p, Product.user_id p, Product.url p, Product.created_at p).

(** A product stored as in stock shows the price of its last history
    entry. *)
Definition price_consistent (p : Product.t) : Prop :=
  Product.is_out_of_stock p = Some false ->
  UpdatePrices.lastPrice (Product.price_history p) = Product.sale_price p.

Definition is_back_in_stock (i : intent) : bool :=
  match i with
  | BackInStock _ _ => true
  | PriceTargetReached _ _ _ _ => false
  end.

(** An alert without the instant of its last write. *)
Definition alert_content (a : PriceAlert.t)
  : string * string * string * Z * bool * timestamp :=
  (PriceAlert.id a, PriceAlert.product_id a, PriceAlert.user_id a,
   PriceAlert.target_price a, PriceAlert.is_active a, PriceAlert.created_at a).

(** A product of [user-1] that is stored as out of stock. *)
Definition sold_out_product (id : string) : Product.t :=
  {| Product.id := id;
     Product.user_id := "user-1";
     Product.url :=
       "https://www.cashify.in/buy-refurbished-mobile-phones/" ++ id;
     Product.title := "Phone";
     Product.mrp := 50000;
     Product.sale_price := 45000;
     Product.discount := "0%";
     Product.condition := "Good";
     Product.storage := "128GB";
     Product.ram := "";
     Product.color := "";
     Product.image_url := None;
     Product.last_checked := 0;
     Product.price_history := [{| price := 46999; checked_at := 0 |}];
     Product.created_at := 0;
     Product.updated_at := 0;
     Product.is_out_of_stock := Some true |}.

Definition fresh_state (database : Database) : UpdatePrices.State :=
  {| UpdatePrices.db := database;
     UpdatePrices.updatedCount := 0;
     UpdatePrices.errors := [];
     UpdatePrices.outbox := [] |}.

(** Every alert refers to a stored product (the foreign key of
    [price_alerts.product_id]). *)
Definition alerts_refer_to_products (database : Database) : Prop :=
  forall a, In a (price_alerts database) ->
            exists p, In p (products database)
                      /\ Product.id p = PriceAlert.product_id a.

(** Both prices of a stored product are strictly positive. *)
Definition positive_prices (p : Product.t) : Prop :=
  0 < Product.mrp p /\ 0 < Product.sale_price p.

(** The order of the chart: by the instant of the check. *)
Definition not_later (a b : PriceEntry) : Prop :=
  checked_at a <= checked_at b.

(** What a sweep may make of a stored alert: the same alert, possibly
    switched off. *)
Definition settled_from (before after : PriceAlert.t) : Prop :=
  PriceAlert.id after = PriceAlert.id before
  /\ PriceAlert.product_id after = PriceAlert.product_id before
  /\ PriceAlert.user_id after = PriceAlert.user_id before
  /\ PriceAlert.target_price after = PriceAlert.target_price before
  /\ PriceAlert.created_at after = PriceAlert.created_at before
  /\ (PriceAlert.is_active after = true -> after = before).

(** The id of an alert and the product it watches. *)
Definition watch_of (a : PriceAlert.t) : string * string :=
  (PriceAlert.id a, PriceAlert.product_id a).

(** * Properties *)

Open Scope list_scope.

(** ** Prices never become negative *)

Lemma parse_digits_nonneg (s : string) :
  forall acc z,
    match acc with Some a => 0 <= a | None => True end ->
    parse_digits s acc = Some z -> 0 <= z.
Proof.
  induction s as [|c rest IH]; intros acc z Hacc H; cbn [parse_digits] in H.
  - subst acc. exact Hacc.
  - destruct (is_digit c).
    + eapply IH; [|exact H].
      unfold digit_value.
      pose proof (Zle_0_nat (nat_of_ascii c - 48)).
      destruct acc as [a|]; cbv beta iota in *; lia.
    + subst acc. exact Hacc.
Qed.

Lemma parseInt_nonneg (s : string) : nonneg (parseInt s).
Proof.
  unfold parseInt.
  destruct (parse_digits s None) eqn:E; simpl; [|exact I].
  eapply parse_digits_nonneg; [|exact E]. exact I.
Qed.

Lemma truthy_nonneg_positive (n : number) :
  nonneg n -> truthy n = true -> exists z, n = Num z /\ 0 < z.
Proof.
  destruct n as [|z]; simpl; intros Hn Ht; [discriminate|].
  exists z. split; [reflexivity|].
  apply negb_true_iff in Ht. apply Z.eqb_neq in Ht. lia.
Qed.

Lemma num_or_positive (n : number) (d : Z) :
  nonneg n -> 0 < d -> 0 < num_or n d.
Proof.
  destruct n as [|z]; simpl; intros Hn Hd; [exact Hd|].
  destruct (z =? 0) eqn:E; [exact Hd|]. apply Z.eqb_neq in E. lia.
Qed.

(** A struck-through price of 49,999 parses to 49999; a list price of
    50000 against a sale price of 40000 is a discount of 20 percent. *)
Lemma parse_and_discount_examples :
  parseInt (remove_commas "49,999") = Num 49999
  /\ parseInt (remove_commas ",") = NaN
  /\ discountPercent (Num 50000) (Num 40000) = 20.
Proof. repeat split. Qed.

Section ExtractorFacts.
Context {RT : Runtime}.

Lemma fallback_price_nonneg (patterns : list pattern) (html : string)
                            (current : number) :
  nonneg current -> nonneg (fallback_price patterns html current).
Proof.
  intros Hc. induction patterns as [|p rest IH]; simpl; [exact Hc|].
  destruct (regexp_exec p html) as [m|]; [|exact IH].
  destruct (in_price_range _) eqn:E; [|exact IH].
  apply parseInt_nonneg.
Qed.

Lemma scrape_mrp_nonneg (f : edge_function) (html : string) :
  nonneg (scrape_mrp f html).
Proof.
  unfold scrape_mrp.
  set (mrp0 := match regexp_exec (mrpPattern f) html with
               | Some m => parseInt (remove_commas (group 1 m))
               | None => Num 0
               end).
  assert (H0 : nonneg mrp0).
  { subst mrp0. destruct (regexp_exec (mrpPattern f) html);
      [apply parseInt_nonneg | simpl; lia]. }
  destruct (truthy mrp0); [exact H0|].
  apply fallback_price_nonneg, H0.
Qed.

Lemma scrape_sale_price_nonneg (f : edge_function) (html : string) :
  nonneg (scrape_sale_price f html).
Proof.
  unfold scrape_sale_price.
  destruct (isOutOfStock html); [simpl; lia|].
  set (sale0 := match regexp_exec (salePricePattern f) html with
                | Some m => parseInt (remove_commas (group 1 m))
                | None => Num 0
                end).
  assert (H0 : nonneg sale0).
  { subst sale0. destruct (regexp_exec (salePricePattern f) html);
      [apply parseInt_nonneg | simpl; lia]. }
  destruct (truthy sale0); [exact H0|].
  apply fallback_price_nonneg, H0.
Qed.

Lemma scrape_sale_price_out_of_stock (f : edge_function) (html : string) :
  isOutOfStock html = true -> scrape_sale_price f html = Num 0.
Proof. intros H. unfold scrape_sale_price. rewrite H. reflexivity. Qed.
End ExtractorFacts.

Lemma backfill_nonneg (oos : bool) (m s : number) :
  nonneg m -> nonneg s ->
  nonneg (fst (backfill oos m s)) /\ nonneg (snd (backfill oos m s)).
Proof.
  intros Hm Hs. unfold backfill.
  destruct oos; [|simpl; auto].
  destruct (truthy m) eqn:Em, (truthy s) eqn:Es; simpl; auto.
  - split; [exact Hm|].
    destruct (truthy_nonneg_positive m Hm Em) as [z [-> Hz]].
    simpl. destruct (z =? 0); lia.
  - destruct (truthy_nonneg_positive s Hs Es) as [z [-> Hz]].
    simpl. split; lia.
  - split; lia.
Qed.

(** ** What [scrape_page] returns and when it throws *)

Section PageFacts.
Context {RT : Runtime}.

Lemma scrape_page_outcome (f : edge_function) (url html : string) :
  scrape_page f url html =
  match scrape_details url html with
  | Throw e => Throw e
  | Ok (condition, image_url) =>
      let ms := scrape_prices f html in
      if negb (truthy (fst ms)) && negb (truthy (snd ms))
      then Throw NoPriceInformation
      else Ok {| title := str_or (clean_title (scrape_title html))
                                 "Cashify Product";
                 mrp := num_or (fst ms) (num_or (snd ms) 50000);
                 sale_price := num_or (snd ms) (num_or (fst ms) 45000);
                 discount := scrape_discount html (scrape_mrp f html)
                                             (scrape_sale_price f html);
                 condition := condition;
                 storage :=
                   str_or (combine_storage
                             (snd (fst (scrape_body html)))
                             (scrape_storage html (scrape_title html)
                                (snd (fst (fst (scrape_body html))))))
                          "128GB";
                 ram := Some (snd (fst (scrape_body html)));
                 color := Some (snd (scrape_body html));
                 image_url := if is_empty image_url then None
                              else Some image_url;
                 is_out_of_stock := isOutOfStock html |}
  end.
Proof.
  unfold scrape_page, scrape_details, scrape_prices.
  destruct (scrape_body html) as [[[c0 st0] rm] col]. cbn [fst snd].
  destruct (scrape_condition html c0) as [c|e]; cbn [bind]; [|reflexivity].
  destruct (scrape_image imagePatterns html url) as [i|e]; cbn [bind];
    [|reflexivity].
  destruct (backfill (isOutOfStock html) (scrape_mrp f html)
                     (scrape_sale_price f html)) as [m s].
  reflexivity.
Qed.

Lemma scrape_prices_nonneg (f : edge_function) (html : string) :
  nonneg (fst (scrape_prices f html)) /\ nonneg (snd (scrape_prices f html)).
Proof.
  apply backfill_nonneg;
    [apply scrape_mrp_nonneg | apply scrape_sale_price_nonneg].
Qed.

Lemma scrape_page_positive (f : edge_function) (url html : string)
                            (r : ScrapedData) :
  scrape_page f url html = Ok r -> 0 < mrp r /\ 0 < sale_price r.
Proof.
  rewrite scrape_page_outcome.
  destruct (scrape_details url html) as [[c i]|e]; [|discriminate].
  destruct (scrape_prices_nonneg f html) as [Hm Hs].
  cbv zeta.
  destruct (negb (truthy (fst (scrape_prices f html)))
            && negb (truthy (snd (scrape_prices f html)))); [discriminate|].
  intros H. injection H as <-. cbn [mrp sale_price].
  split; apply num_or_positive; try assumption;
    apply num_or_positive; try assumption; lia.
Qed.

Lemma update_scraper_unfold (fetch : string -> result response) (url : string) :
  UpdatePrices_scraper.scrapeProduct fetch url =
  (html <- fetch_page (fetch url) ;; scrape_page update_prices url html).
Proof.
  unfold UpdatePrices_scraper.scrapeProduct, try_catch.
  destruct (html <- fetch_page (fetch url) ;;
            scrape_page update_prices url html);
    reflexivity.
Qed.

Lemma track_scraper_total (fetch : string -> result response) (url : string) :
  exists r, TrackProduct_scraper.scrapeProduct fetch url = Ok r.
Proof.
  unfold TrackProduct_scraper.scrapeProduct, try_catch.
  destruct (html <- fetch_page (fetch url) ;;
            scrape_page track_product url html);
    eexists; reflexivity.
Qed.

(** C10. Every result returned by [scrapeProduct], in the update-prices
    function or in the track-product function (where it may be the
    fallback data), has a strictly positive list price and a strictly
    positive sale price. *)
Theorem scraped_prices_positive
    (fetch : string -> result response) (url : string)
    (scrapedData : ScrapedData) :
  UpdatePrices_scraper.scrapeProduct fetch url = Ok scrapedData \/
  TrackProduct_scraper.scrapeProduct fetch url = Ok scrapedData ->
  0 < mrp scrapedData /\ 0 < sale_price scrapedData.
Proof.
  intros [H|H].
  - rewrite update_scraper_unfold in H.
    destruct (fetch_page (fetch url)) as [html|e]; cbn [bind] in H;
      [|discriminate].
    eapply scrape_page_positive; exact H.
  - unfold TrackProduct_scraper.scrapeProduct, try_catch in H.
    destruct (fetch_page (fetch url)) as [html|e]; cbn [bind] in H.
    + destruct (scrape_page track_product url html) as [r|e] eqn:E.
      * injection H as <-. eapply scrape_page_positive; exact E.
      * injection H as <-. cbn. lia.
    + injection H as <-. cbn. lia.
Qed.
End PageFacts.

Lemma scraped_prices_positive_witness :
  exists scrapedData,
    UpdatePrices_scraper.scrapeProduct (RT := priced_page)
      (fun _ => served sample_html) sample_url
    = Ok scrapedData
    /\ mrp scrapedData = 49999 /\ sale_price scrapedData = 44999
    /\ 0 < mrp scrapedData /\ 0 < sale_price scrapedData.
Proof.
  eexists. split; [vm_compute; reflexivity|].
  split; [reflexivity|]. split; [reflexivity|].
  apply (scraped_prices_positive (RT := priced_page) (fun _ => served sample_html)
           sample_url).
  left. vm_compute. reflexivity.
Defined.

(** ** The out-of-stock backfill and the no-price failure *)

Section PriceRules.
Context {RT : Runtime}.

Lemma scrape_prices_out_of_stock (f : edge_function) (html : string) :
  isOutOfStock html = true ->
  scrape_prices f html =
  if truthy (scrape_mrp f html) then (scrape_mrp f html, scrape_mrp f html)
  else (Num 50000, Num 45000).
Proof.
  intros H. unfold scrape_prices.
  rewrite H, (scrape_sale_price_out_of_stock f html H). unfold backfill.
  destruct (scrape_mrp f html) as [|z] eqn:E; cbn; [reflexivity|].
  destruct (z =? 0); reflexivity.
Qed.

Lemma fallback_condition_type_error (patterns : list pattern)
                                    (html current : string) (e : error) :
  fallback_condition patterns html current = Throw e ->
  exists msg, e = TypeError msg.
Proof.
  induction patterns as [|p rest IH]; cbn [fallback_condition];
    [discriminate|].
  destruct (str_match p html) as [m|]; [|exact IH].
  destruct (nth_error m 1); [discriminate|].
  intros H. injection H as <-. eexists; reflexivity.
Qed.

Lemma scrape_image_type_error (patterns : list pattern) (html url : string)
                              (e : error) :
  scrape_image patterns html url = Throw e -> exists msg, e = TypeError msg.
Proof.
  induction patterns as [|p rest IH]; cbn [scrape_image]; [discriminate|].
  destruct (regexp_exec p html); [|exact IH].
  destruct (startsWith "http" _); [discriminate|].
  destruct (url_href _ url); [discriminate|].
  intros H. injection H as <-. eexists; reflexivity.
Qed.

Lemma scrape_details_type_error (url html : string) (e : error) :
  scrape_details url html = Throw e -> exists msg, e = TypeError msg.
Proof.
  unfold scrape_details, scrape_condition.
  destruct (String.eqb _ "Good").
  - destruct (fallback_condition conditionPatterns html _) as [c|e'] eqn:C;
      cbn [bind].
    + destruct (scrape_image imagePatterns html url) as [i|e''] eqn:I;
        cbn [bind]; [discriminate|].
      intros H. injection H as ->.
      eapply scrape_image_type_error; exact I.
    + intros H. injection H as ->.
      eapply fallback_condition_type_error; exact C.
  - cbn [bind].
    destruct (scrape_image imagePatterns html url) as [i|e''] eqn:I;
      cbn [bind]; [discriminate|].
    intros H. injection H as ->.
    eapply scrape_image_type_error; exact I.
Qed.

(** The price rules on markup that carries the out-of-stock marker, in
    either edge function: the sale price is never extracted; when no list price is
    extracted either, the prices become 50000 and 45000; when a list
    price is extracted, the sale price is set from it; the rule sets a
    missing list price to the sale price plus 5000 (a case the marker
    excludes, since the sale price is then skipped). The no-price error
    is never raised, a result is returned unless the condition or image
    step raises its own [TypeError], and every result returned carries
    these prices and the out-of-stock flag. *)
Theorem out_of_stock_backfill (f : edge_function) (url html : string) :
  isOutOfStock html = true ->
  scrape_sale_price f html = Num 0
  /\ (truthy (scrape_mrp f html) = false ->
      scrape_prices f html = (Num 50000, Num 45000))
  /\ (truthy (scrape_mrp f html) = true ->
      scrape_prices f html = (scrape_mrp f html, scrape_mrp f html))
  /\ (forall m z, truthy m = false -> z <> 0 ->
        backfill true m (Num z) = (Num (z + 5000), Num z))
  /\ no_price_data f html = false
  /\ scrape_page f url html <> Throw NoPriceInformation
  /\ (forall d, scrape_details url html = Ok d ->
                exists r, scrape_page f url html = Ok r)
  /\ (forall r, scrape_page f url html = Ok r ->
        is_out_of_stock r = true
        /\ (truthy (scrape_mrp f html) = false ->
            mrp r = 50000 /\ sale_price r = 45000)
        /\ (truthy (scrape_mrp f html) = true ->
            scrape_mrp f html = Num (mrp r) /\ sale_price r = mrp r)).
Proof.
  intros H.
  pose proof (scrape_prices_out_of_stock f html H) as P.
  assert (N : no_price_data f html = false).
  { unfold no_price_data. rewrite P.
    destruct (truthy (scrape_mrp f html)) eqn:T; cbn [fst snd];
      [rewrite T|]; reflexivity. }
  split; [apply scrape_sale_price_out_of_stock, H|].
  split; [intros T; rewrite P, T; reflexivity|].
  split; [intros T; rewrite P, T; reflexivity|].
  split.
  { intros m z Tm Hz. unfold backfill. rewrite Tm. cbn.
    apply Z.eqb_neq in Hz. rewrite Hz. reflexivity. }
  split; [exact N|].
  rewrite scrape_page_outcome. cbv zeta.
  fold (no_price_data f html). rewrite N, P.
  split; [|split].
  - destruct (scrape_details url html) as [[c i]|e] eqn:D; [discriminate|].
    destruct (scrape_details_type_error url html e D) as [msg ->].
    discriminate.
  - intros [c i] ->. eexists; reflexivity.
  - intros r Hr.
    destruct (scrape_details url html) as [[c i]|e]; [|discriminate].
    injection Hr as <-. cbn [is_out_of_stock mrp sale_price].
    split; [exact H|].
    destruct (scrape_mrp f html) as [|z] eqn:M; cbn [truthy fst snd].
    + split; [intros _; split; reflexivity | discriminate].
    + destruct (z =? 0) eqn:Z0; cbn [negb fst snd num_or].
      * split; [intros _; split; reflexivity | discriminate].
      * rewrite Z0. split; [discriminate | intros _; split; reflexivity].
Qed.
End PriceRules.

(** C8. On a page that carries the out-of-stock marker, shows no price
    and names a condition word exactly once, neither price is
    extracted and the backfill rule gives 50000 and 45000, yet no such
    result is produced: the condition step, which comes first, reads
    [match[1]] of an expression with the [g] flag, finds it undefined
    and raises a [TypeError]. [scrapeProduct] of update-prices throws
    that error (the sweep then counts the product as failed);
    [scrapeProduct] of track-product catches it and returns its
    fallback data, which is not marked out of stock. *)
Theorem out_of_stock_page_raises_type_error :
  let page := fun _ : string => served sample_html in
  isOutOfStock (RT := lone_condition_page) sample_html = true
  /\ scrape_mrp (RT := lone_condition_page) update_prices sample_html = Num 0
  /\ scrape_sale_price (RT := lone_condition_page) update_prices sample_html
     = Num 0
  /\ scrape_prices (RT := lone_condition_page) update_prices sample_html
     = (Num 50000, Num 45000)
  /\ scrape_prices (RT := lone_condition_page) track_product sample_html
     = (Num 50000, Num 45000)
  /\ UpdatePrices_scraper.scrapeProduct (RT := lone_condition_page) page
       sample_url
     = Throw (TypeError "Cannot read properties of undefined (reading 'trim')")
  /\ TrackProduct_scraper.scrapeProduct (RT := lone_condition_page) page
       sample_url
     = Ok (fallbackData sample_url)
  /\ is_out_of_stock (fallbackData sample_url) = false.
Proof. cbv zeta. repeat split. Qed.

Lemma out_of_stock_backfill_witness :
  isOutOfStock (RT := sold_out_page) sample_html = true
  /\ exists r, scrape_page (RT := sold_out_page) update_prices sample_url
                 sample_html = Ok r
               /\ mrp r = 50000 /\ sale_price r = 45000
               /\ is_out_of_stock r = true.
Proof.
  split; [reflexivity|].
  destruct (out_of_stock_backfill (RT := sold_out_page) update_prices
              sample_url sample_html eq_refl) as (_ & _ & _ & _ & _ & _ & Hp & Hr).
  destruct (Hp ("Good", "") eq_refl) as [r E].
  exists r. split; [exact E|].
  destruct (Hr r E) as (Ho & H1 & _).
  destruct (H1 eq_refl) as [Hm Hs].
  repeat split; assumption.
Defined.

Section NoPriceData.
Context {RT : Runtime}.

Lemma scrape_page_without_prices (f : edge_function) (url html : string) :
  no_price_data f html = true ->
  scrape_page f url html =
  Throw (match scrape_details url html with
         | Throw e => e
         | Ok _ => NoPriceInformation
         end).
Proof.
  intros H. rewrite scrape_page_outcome.
  destruct (scrape_details url html) as [[c i]|e]; [|reflexivity].
  cbv zeta. unfold no_price_data in H. rewrite H. reflexivity.
Qed.

(** C2 (amended). When, after every rule and the backfill, neither a
    list price nor a sale price is there, [scrapeProduct] of the
    update-prices function throws instead of returning a result, and
    what it throws is the no-price error whenever the condition and
    image steps went through. [scrapeProduct] of the track-product
    function catches the error and returns the fallback data instead. *)
Theorem no_price_data_outcome
    (fetch : string -> result response) (url html : string) :
  fetch_page (fetch url) = Ok html ->
  (no_price_data update_prices html = true ->
   exists e,
     UpdatePrices_scraper.scrapeProduct fetch url = Throw e
     /\ ((exists d, scrape_details url html = Ok d) ->
         e = NoPriceInformation))
  /\ (no_price_data track_product html = true ->
      TrackProduct_scraper.scrapeProduct fetch url = Ok (fallbackData url)).
Proof.
  intros F. split; intros H.
  - rewrite update_scraper_unfold, F. cbn [bind].
    rewrite (scrape_page_without_prices update_prices url html H).
    eexists. split; [reflexivity|].
    intros [d ->]. reflexivity.
  - unfold TrackProduct_scraper.scrapeProduct.
    rewrite F. cbn [bind].
    rewrite (scrape_page_without_prices track_product url html H).
    reflexivity.
Qed.

(** C1 (amended). A first tracking request whose scrape fails inside
    [scrapeProduct], whatever fails there (the fetch is rejected, the
    answer is not ok, its text cannot be read, the page yields no price
    data, or a step of the extraction raises), is not answered with
    that error: the scraper returns the fallback data, the handler
    inserts a product built from it and answers with success. Only a
    storage error of the insert is reported, and then no row is added. *)
Theorem first_tracking_with_failed_extraction
    (w : World) (req : TrackProduct.Request) (database : Database)
    (user url : string) (e : error) :
  TrackProduct.screen w req = inr (user, url) ->
  single (TrackProduct.tracked_by user url database) = None ->
  (html <- fetch_page (fetch w url) ;; scrape_page track_product url html)
    = Throw e ->
  TrackProduct.handler w req database =
  match storeError w with
  | None =>
      {| TrackProduct.response_of :=
           {| http_status := 200;
              payload :=
                Tracking (TrackProduct.inserted w user url (fallbackData url))
                         TrackProduct.started |};
         TrackProduct.database_of :=
           {| products :=
                products database ++
                [TrackProduct.inserted w user url (fallbackData url)];
              price_alerts := price_alerts database |};
         TrackProduct.fetches := [url] |}
  | Some _ =>
      {| TrackProduct.response_of :=
           {| http_status := 500;
              payload := Error "Failed to save product data" |};
         TrackProduct.database_of := database;
         TrackProduct.fetches := [url] |}
  end.
Proof.
  intros S N B.
  unfold TrackProduct.handler. rewrite S.
  unfold TrackProduct.track. rewrite N.
  unfold TrackProduct_scraper.scrapeProduct.
  rewrite B. cbn [try_catch].
  destruct (storeError w); reflexivity.
Qed.
End NoPriceData.

Lemma no_price_data_outcome_witness :
  UpdatePrices_scraper.scrapeProduct (RT := blank_page)
    (fun _ => served "") sample_url = Throw NoPriceInformation
  /\ TrackProduct_scraper.scrapeProduct (RT := blank_page)
       (fun _ => served "") sample_url = Ok (fallbackData sample_url).
Proof.
  destruct (no_price_data_outcome (RT := blank_page) (fun _ => served "")
              sample_url "" eq_refl) as [Hu Ht].
  split; [|exact (Ht eq_refl)].
  destruct (Hu eq_refl) as [e [He Hd]].
  rewrite He. f_equal. apply Hd. eexists. reflexivity.
Defined.

(** On an empty page no rule yields a price, yet [scrapeProduct] of the
    track-product function returns a result. *)
Lemma no_price_data_counterexample :
  fetch_page (served "") = Ok ""
  /\ scrape_prices (RT := blank_page) track_product "" = (Num 0, Num 0)
  /\ TrackProduct_scraper.scrapeProduct (RT := blank_page)
       (fun _ => served "") sample_url
     = Ok {| title := "Cashify Phone x";
             mrp := 50000;
             sale_price := 45000;
             discount := "10%";
             condition := "Good";
             storage := "128GB";
             ram := None;
             color := None;
             image_url := None;
             is_out_of_stock := false |}.
Proof. repeat split. Qed.

Lemma first_tracking_with_failed_extraction_witness :
  let stored w :=
    {| TrackProduct.response_of :=
         {| http_status := 200;
            payload :=
              Tracking (TrackProduct.inserted w "user-1" sample_url
                          (fallbackData sample_url))
                       TrackProduct.started |};
       TrackProduct.database_of :=
         {| products :=
              [TrackProduct.inserted w "user-1" sample_url
                 (fallbackData sample_url)];
            price_alerts := [] |};
       TrackProduct.fetches := [sample_url] |} in
  let unreachable :=
    sample_world (Throw (FetchRejected "connection refused")) in
  let not_found :=
    sample_world (Ok {| ok := false; status := 404; text := Ok "" |}) in
  TrackProduct.handler (RT := blank_page) (sample_world (served ""))
    (sample_request sample_url) empty_database
  = stored (sample_world (served ""))
  /\ TrackProduct.handler (RT := priced_page) unreachable
       (sample_request sample_url) empty_database
     = stored unreachable
  /\ TrackProduct.handler (RT := priced_page) not_found
       (sample_request sample_url) empty_database
     = stored not_found.
Proof.
  cbv zeta. split; [|split].
  - exact (first_tracking_with_failed_extraction (RT := blank_page)
             (sample_world (served "")) (sample_request sample_url)
             empty_database "user-1" sample_url NoPriceInformation
             eq_refl eq_refl eq_refl).
  - exact (first_tracking_with_failed_extraction (RT := priced_page)
             (sample_world (Throw (FetchRejected "connection refused")))
             (sample_request sample_url)
             empty_database "user-1" sample_url
             (FetchRejected "connection refused")
             eq_refl eq_refl eq_refl).
  - exact (first_tracking_with_failed_extraction (RT := priced_page)
             (sample_world (Ok {| ok := false; status := 404;
                                  text := Ok "" |}))
             (sample_request sample_url)
             empty_database "user-1" sample_url (HttpError 404)
             eq_refl eq_refl eq_refl).
Defined.

(** A first tracking request for a page without any price: the scrape
    fails inside with the no-price error, and yet the answer is a
    success and a row with the placeholder prices is stored. *)
Lemma first_tracking_counterexample :
  let outcome :=
    TrackProduct.handler (RT := blank_page) (sample_world (served ""))
      (sample_request sample_url) empty_database in
  TrackProduct.tracked_by "user-1" sample_url empty_database = []
  /\ scrape_page (RT := blank_page) track_product sample_url ""
     = Throw NoPriceInformation
  /\ http_status (TrackProduct.response_of outcome) = 200
  /\ map (fun p => (Product.url p, Product.mrp p, Product.sale_price p))
         (products (TrackProduct.database_of outcome))
     = [(sample_url, 50000, 45000)].
Proof. repeat split. Qed.

(** ** Reconciliation *)

Lemma lastPrice_after_append (history : list PriceEntry) (entry : PriceEntry) :
  UpdatePrices.lastPrice (history ++ [entry]) = price entry.
Proof.
  unfold UpdatePrices.lastPrice. rewrite map_app. cbn [map].
  apply last_last.
Qed.

Lemma append_one_differs {A : Type} (l : list A) (a : A) : l ++ [a] <> l.
Proof.
  intros H. apply (f_equal (@length A)) in H.
  rewrite length_app in H. cbn in H. lia.
Qed.

Lemma lastPrice_newPriceHistory (w : World) (product : Product.t)
                                (scrapedData : ScrapedData) :
  is_out_of_stock scrapedData = false ->
  UpdatePrices.lastPrice (UpdatePrices.newPriceHistory w product scrapedData)
  = sale_price scrapedData.
Proof.
  intros Hin. unfold UpdatePrices.newPriceHistory, UpdatePrices.priceChanged.
  rewrite Hin. cbn [negb andb].
  destruct (_ =? _) eqn:E; cbn [negb].
  - apply Z.eqb_eq in E. exact E.
  - apply lastPrice_after_append.
Qed.

Section Reconciliation.
Context {RT : Runtime}.

(** C7. Reconciling a second time with the same extraction result
    changes nothing in the price history and raises no event: the
    price-changed and stock-status-changed flags are false, and
    processing the reconciled product again sends no notification and
    touches no alert. In general the history grows, by exactly one entry
    holding the new sale price, if and only if the scraped product is in
    stock and its sale price differs from the last recorded price. *)
Theorem reconcile_idempotent
    (w1 w2 : World) (product row : Product.t) (scrapedData : ScrapedData)
    (st : UpdatePrices.State) :
  let after := UpdatePrices.reconciled w1 product scrapedData row in
  UpdatePrices.newPriceHistory w2 after scrapedData
    = Product.price_history after
  /\ UpdatePrices.priceChanged after scrapedData = false
  /\ UpdatePrices.stockStatusChanged after scrapedData = false
  /\ (UpdatePrices_scraper.scrapeProduct (fetch w2) (Product.url after)
        = Ok scrapedData ->
      UpdatePrices.outbox (UpdatePrices.process_product w2 st after)
        = UpdatePrices.outbox st
      /\ price_alerts (UpdatePrices.db (UpdatePrices.process_product w2 st after))
        = price_alerts (UpdatePrices.db st))
  /\ ((exists entry,
         UpdatePrices.newPriceHistory w1 product scrapedData
         = Product.price_history product ++ [entry])
      <-> is_out_of_stock scrapedData = false
          /\ sale_price scrapedData
             <> UpdatePrices.lastPrice (Product.price_history product))
  /\ (UpdatePrices.newPriceHistory w1 product scrapedData
        = Product.price_history product
      \/ UpdatePrices.newPriceHistory w1 product scrapedData
        = Product.price_history product
          ++ [{| price := sale_price scrapedData;
                 checked_at := now_checked_at w1 |}]).
Proof.
  intros after.
  assert (PC : UpdatePrices.priceChanged after scrapedData = false).
  { unfold UpdatePrices.priceChanged.
    destruct (is_out_of_stock scrapedData) eqn:O; [reflexivity|].
    cbn [negb andb]. subst after. cbn [UpdatePrices.reconciled
      Product.price_history].
    rewrite (lastPrice_newPriceHistory w1 product scrapedData O).
    rewrite Z.eqb_refl. reflexivity. }
  assert (SC : UpdatePrices.stockStatusChanged after scrapedData = false).
  { unfold UpdatePrices.stockStatusChanged. subst after.
    cbn [UpdatePrices.reconciled Product.is_out_of_stock].
    rewrite Bool.eqb_reflx. reflexivity. }
  split; [|split; [|split; [|split; [|split]]]].
  - unfold UpdatePrices.newPriceHistory at 1. rewrite PC. reflexivity.
  - exact PC.
  - exact SC.
  - intros F. unfold UpdatePrices.process_product. rewrite F.
    destruct (storeError w2); [split; reflexivity|].
    cbn [UpdatePrices.outbox UpdatePrices.db price_alerts].
    rewrite PC, SC. rewrite andb_false_r. cbn [andb fst snd].
    split; [|reflexivity].
    rewrite app_nil_r. reflexivity.
  - unfold UpdatePrices.newPriceHistory, UpdatePrices.priceChanged.
    destruct (is_out_of_stock scrapedData); cbn [negb andb].
    + split; [|intros [H _]; discriminate].
      intros [entry H]. symmetry in H.
      exfalso. exact (append_one_differs _ _ H).
    + destruct (_ =? _) eqn:E; cbn [negb].
      * apply Z.eqb_eq in E. split.
        -- intros [entry H]. symmetry in H.
           exfalso. exact (append_one_differs _ _ H).
        -- intros [_ H]. exfalso. apply H. symmetry. exact E.
      * apply Z.eqb_neq in E. split.
        -- intros _. split; [reflexivity|]. intros H. apply E.
           symmetry. exact H.
        -- intros _. eexists. reflexivity.
  - unfold UpdatePrices.newPriceHistory.
    destruct (UpdatePrices.priceChanged product scrapedData);
      [right|left]; reflexivity.
Qed.

(** C6 (amended). A reconciliation that succeeds (the page was scraped
    and the row was written) sets [last_checked] of the product to the
    current instant; one that fails, in the scrape or in the write,
    leaves the whole database as it was, [last_checked] included. *)
Theorem last_checked_only_on_success
    (w : World) (st : UpdatePrices.State) (product : Product.t) :
  match UpdatePrices_scraper.scrapeProduct (fetch w) (Product.url product),
        storeError w with
  | Ok scrapedData, None =>
      products (UpdatePrices.db (UpdatePrices.process_product w st product))
      = update_where Product.id (Product.id product)
          (UpdatePrices.reconciled w product scrapedData)
          (products (UpdatePrices.db st))
      /\ forall row,
           In row (products (UpdatePrices.db
                               (UpdatePrices.process_product w st product))) ->
           Product.id row = Product.id product ->
           Product.last_checked row = now_last_checked w
  | _, _ =>
      UpdatePrices.db (UpdatePrices.process_product w st product)
      = UpdatePrices.db st
  end.
Proof.
  unfold UpdatePrices.process_product.
  destruct (UpdatePrices_scraper.scrapeProduct _ _) as [scrapedData|e];
    [|reflexivity].
  destruct (storeError w); [reflexivity|].
  cbn [UpdatePrices.db products]. split; [reflexivity|].
  intros row Hin Hid. unfold update_where in Hin.
  apply in_map_iff in Hin. destruct Hin as [old [Hrow _]].
  destruct (String.eqb (Product.id old) (Product.id product)) eqn:E.
  - subst row. reflexivity.
  - subst row. apply String.eqb_neq in E. contradiction.
Qed.
End Reconciliation.

Lemma reconcile_idempotent_witness :
  let after :=
    UpdatePrices.reconciled (sample_world (served sample_html))
      (sample_product "product-1")
      {| title := "Phone X"; mrp := 49999; sale_price := 44999;
         discount := "10%"; condition := "Good"; storage := "128GB";
         ram := Some ""; color := Some ""; image_url := None;
         is_out_of_stock := false |}
      (sample_product "product-1") in
  map price (Product.price_history after) = [46999; 44999]
  /\ UpdatePrices.outbox
       (UpdatePrices.process_product (RT := priced_page)
          (sample_world (served sample_html))
          {| UpdatePrices.db := three_products;
             UpdatePrices.updatedCount := 0;
             UpdatePrices.errors := [];
             UpdatePrices.outbox := [] |}
          after)
     = [].
Proof.
  split; [reflexivity|].
  refine (proj1 (proj1 (proj2 (proj2 (proj2
    (reconcile_idempotent (RT := priced_page)
       (sample_world (served sample_html)) (sample_world (served sample_html))
       (sample_product "product-1") (sample_product "product-1")
       _ _)))) _)).
  vm_compute. reflexivity.
Defined.

(** The fetch of a stale product is rejected during a sweep: its row,
    [last_checked] included, is what it was, although the clock of the
    failed reconciliation reads 7200002. *)
Lemma last_checked_counterexample :
  let database := {| products := [sample_product "product-2"];
                     price_alerts := [] |} in
  let after := snd (fst (UpdatePrices.handler (RT := priced_page)
                           sample_sweep "POST" database)) in
  UpdatePrices.stale sample_sweep database = [sample_product "product-2"]
  /\ attempt (RT := priced_page) sample_sweep (sample_product "product-2")
     = Throw (FetchRejected "connection refused")
  /\ map Product.last_checked (products after) = [0]
  /\ now_last_checked (UpdatePrices.world_of sample_sweep "product-2")
     = 7200002.
Proof. repeat split. Qed.

(** ** The sweep *)

Section SweepFacts.
Context {RT : Runtime}.

Lemma run_counts (s : UpdatePrices.Sweep) (items : list Product.t) :
  forall st,
    let final :=
      fold_left (fun st product =>
                   UpdatePrices.process_product
                     (UpdatePrices.world_of s (Product.id product)) st product)
                items st in
    UpdatePrices.updatedCount final
    = (UpdatePrices.updatedCount st + length (filter (updated_ok s) items))%nat
    /\ UpdatePrices.errors final
       = UpdatePrices.errors st ++ flat_map (failure_entry s) items.
Proof.
  induction items as [|p rest IH]; intros st; cbn [fold_left filter flat_map].
  - cbn. rewrite Nat.add_0_r, app_nil_r. split; reflexivity.
  - cbv zeta in IH |- *.
    destruct (IH (UpdatePrices.process_product
                    (UpdatePrices.world_of s (Product.id p)) st p))
      as [Hc He].
    rewrite Hc, He. clear IH Hc He.
    unfold UpdatePrices.process_product, updated_ok, failure_entry, attempt.
    destruct (UpdatePrices_scraper.scrapeProduct _ _) as [sd|e].
    + destruct (storeError _) as [msg|].
      * cbn [UpdatePrices.updatedCount UpdatePrices.errors].
        rewrite <- app_assoc. split; reflexivity.
      * cbn [UpdatePrices.updatedCount UpdatePrices.errors length app].
        split; [lia|reflexivity].
    + cbn [UpdatePrices.updatedCount UpdatePrices.errors].
      rewrite <- app_assoc. split; reflexivity.
Qed.

Lemma find_absent (items : list Product.t) (key : string) :
  ~ In key (map Product.id items) ->
  find (fun p => String.eqb (Product.id p) key) items = None.
Proof.
  induction items as [|p rest IH]; cbn [find map In]; intros H;
    [reflexivity|].
  destruct (String.eqb (Product.id p) key) eqn:E.
  - apply String.eqb_eq in E. exfalso. apply H. left. exact E.
  - apply IH. intros K. apply H. right. exact K.
Qed.

Lemma reconciled_id (w : World) (product : Product.t) (sd : ScrapedData)
                    (row : Product.t) :
  Product.id (UpdatePrices.reconciled w product sd row) = Product.id row.
Proof. reflexivity. Qed.

Lemma settle_cons (s : UpdatePrices.Sweep) (p : Product.t)
                  (rest : list Product.t) (row : Product.t) :
  ~ In (Product.id p) (map Product.id rest) ->
  settle s (p :: rest) row =
  if String.eqb (Product.id row) (Product.id p)
  then match attempt s p with
       | Ok sd =>
           match storeError (UpdatePrices.world_of s (Product.id p)) with
           | None => UpdatePrices.reconciled
                       (UpdatePrices.world_of s (Product.id p)) p sd row
           | Some _ => row
           end
       | Throw _ => row
       end
  else settle s rest row.
Proof.
  intros Hn. unfold settle at 1. cbn [find].
  rewrite (String.eqb_sym (Product.id p) (Product.id row)).
  destruct (String.eqb (Product.id row) (Product.id p)); reflexivity.
Qed.

Lemma settle_absent (s : UpdatePrices.Sweep) (items : list Product.t)
                    (row : Product.t) :
  ~ In (Product.id row) (map Product.id items) -> settle s items row = row.
Proof.
  intros H. unfold settle. rewrite (find_absent items _ H). reflexivity.
Qed.

Lemma run_products (s : UpdatePrices.Sweep) (items : list Product.t) :
  NoDup (map Product.id items) ->
  forall st,
    products (UpdatePrices.db
      (fold_left (fun st product =>
                    UpdatePrices.process_product
                      (UpdatePrices.world_of s (Product.id product)) st product)
                 items st))
    = map (settle s items) (products (UpdatePrices.db st)).
Proof.
  induction items as [|p rest IH]; intros Hnd st; cbn [fold_left].
  - unfold settle. cbn [find]. rewrite map_id. reflexivity.
  - cbn [map] in Hnd. inversion Hnd as [|x l Hnotin Hrest]; subst.
    rewrite (IH Hrest). clear IH.
    assert (Hsame : forall row,
              String.eqb (Product.id row) (Product.id p) = true ->
              settle s rest row = row).
    { intros row E. apply String.eqb_eq in E. apply settle_absent.
      rewrite E. exact Hnotin. }
    unfold UpdatePrices.process_product.
    fold (attempt s p).
    destruct (attempt s p) as [sd|e] eqn:A.
    + destruct (storeError (UpdatePrices.world_of s (Product.id p)))
        as [msg|] eqn:SE; cbn [UpdatePrices.db products].
      * apply map_ext. intros row.
        rewrite (settle_cons s p rest row Hnotin), A, SE.
        destruct (String.eqb (Product.id row) (Product.id p)) eqn:E;
          [apply Hsame, E | reflexivity].
      * unfold update_where. rewrite map_map. apply map_ext. intros row.
        rewrite (settle_cons s p rest row Hnotin), A, SE.
        destruct (String.eqb (Product.id row) (Product.id p)) eqn:E;
          [|reflexivity].
        apply Hsame. rewrite reconciled_id. exact E.
    + cbn [UpdatePrices.db]. apply map_ext. intros row.
      rewrite (settle_cons s p rest row Hnotin), A.
      destruct (String.eqb (Product.id row) (Product.id p)) eqn:E;
        [apply Hsame, E | reflexivity].
Qed.

Lemma prefix_append (s t : string) : String.prefix s (s ++ t)%string = true.
Proof.
  induction s as [|c s IH]; cbn; [destruct t; reflexivity|].
  destruct (ascii_dec c c) as [_|n]; [exact IH|].
  exfalso. apply n. reflexivity.
Qed.

Lemma includes_inside (before needle rest : string) :
  includes needle (before ++ needle ++ rest)%string = true.
Proof.
  induction before as [|c before IH]; cbn [String.append].
  - destruct (needle ++ rest)%string eqn:E; cbn [includes];
      rewrite <- E, prefix_append; reflexivity.
  - cbn [includes]. rewrite IH. apply orb_true_r.
Qed.

Lemma failure_entry_names_product (s : UpdatePrices.Sweep) (p : Product.t) :
  length (failure_entry s p) = (if updated_ok s p then 0 else 1)%nat
  /\ forall entry, In entry (failure_entry s p) ->
                   includes (Product.id p) entry = true.
Proof.
  unfold failure_entry, updated_ok.
  destruct (attempt s p) as [sd|e].
  - destruct (storeError _) as [msg|]; cbn [length In]; split;
      try reflexivity; try tauto.
    intros entry [<-|[]].
    apply (includes_inside "Failed to update product " (Product.id p)).
  - cbn [length In]. split; [reflexivity|].
    intros entry [<-|[]].
    apply (includes_inside "Failed to scrape product " (Product.id p)).
Qed.

End SweepFacts.


(** ** Alerts *)

Lemma deactivate_twice (w : World) (alert : PriceAlert.t) :
  UpdatePrices.deactivate w (UpdatePrices.deactivate w alert)
  = UpdatePrices.deactivate w alert.
Proof. reflexivity. Qed.

Lemma notify_loop (w : World) (product : Product.t) (newPrice : Z)
                  (turns : list PriceAlert.t) :
  forall table out,
    fold_left (UpdatePrices.notify_alert w product newPrice) turns (table, out)
    = (map (fun a =>
              if existsb (fun b => String.eqb (PriceAlert.id a) (PriceAlert.id b)
                                   && deactivates w b) turns
              then UpdatePrices.deactivate w a else a) table,
       out ++ flat_map (mails w product newPrice) turns).
Proof.
  induction turns as [|t rest IH]; intros table out;
    cbn [fold_left existsb flat_map].
  - rewrite map_id, app_nil_r. reflexivity.
  - assert (Step : UpdatePrices.notify_alert w product newPrice (table, out) t
                   = (map (fun a =>
                             if String.eqb (PriceAlert.id a) (PriceAlert.id t)
                                && deactivates w t
                             then UpdatePrices.deactivate w a else a) table,
                      out ++ mails w product newPrice t)).
    { unfold UpdatePrices.notify_alert, deactivates, mails, update_where.
      cbn [fst snd].
      destruct (email_of w (PriceAlert.user_id t)) as [email|].
      - destruct (priceMailDelivered w (PriceAlert.id t)).
        + f_equal. apply map_ext. intros a. rewrite andb_true_r. reflexivity.
        + f_equal. rewrite <- (map_id table) at 1. apply map_ext. intros a.
          rewrite andb_false_r. reflexivity.
      - rewrite app_nil_r. f_equal. apply map_ext. intros a.
        rewrite andb_true_r. reflexivity. }
    rewrite Step, IH, map_map, <- app_assoc. f_equal.
    apply map_ext. intros a.
    destruct (String.eqb (PriceAlert.id a) (PriceAlert.id t) && deactivates w t)
      eqn:E; cbn [orb]; [|reflexivity].
    destruct (existsb _ rest); reflexivity.
Qed.

Lemma existsb_filter {A : Type} (f g : A -> bool) (l : list A) :
  existsb f (filter g l) = existsb (fun a => g a && f a) l.
Proof.
  induction l as [|a l IH]; cbn [filter existsb]; [reflexivity|].
  destruct (g a); cbn [existsb andb orb]; rewrite IH; reflexivity.
Qed.

Lemma existsb_pointwise {A : Type} (f g : A -> bool) (l : list A) :
  (forall a, f a = g a) -> existsb f l = existsb g l.
Proof.
  intros H. induction l as [|a l IH]; cbn [existsb]; [reflexivity|].
  rewrite H, IH. reflexivity.
Qed.

Lemma existsb_by_id (P : PriceAlert.t -> bool) (alerts : list PriceAlert.t)
                    (alert : PriceAlert.t) :
  NoDup (map PriceAlert.id alerts) -> In alert alerts ->
  existsb (fun b => String.eqb (PriceAlert.id alert) (PriceAlert.id b) && P b)
          alerts
  = P alert.
Proof.
  induction alerts as [|a rest IH]; cbn [map existsb In]; intros Hnd Hin;
    [contradiction|].
  inversion Hnd as [|x l Hnotin Hrest]; subst.
  destruct Hin as [->|Hin].
  - rewrite String.eqb_refl. cbn [andb].
    destruct (P alert); [reflexivity|]. cbn [orb].
    apply not_true_is_false. intros H. apply existsb_exists in H.
    destruct H as [b [Hb Hc]]. apply andb_true_iff in Hc.
    destruct Hc as [Hid _]. apply String.eqb_eq in Hid.
    apply Hnotin. rewrite Hid. apply in_map. exact Hb.
  - rewrite (IH Hrest Hin).
    destruct (String.eqb (PriceAlert.id alert) (PriceAlert.id a)) eqn:E;
      [|reflexivity].
    apply String.eqb_eq in E. exfalso. apply Hnotin.
    rewrite <- E. apply in_map. exact Hin.
Qed.

Lemma mails_own (w : World) (product : Product.t) (newPrice : Z)
                (alert : PriceAlert.t) :
  intents_for (PriceAlert.id alert) (mails w product newPrice alert)
  = mails w product newPrice alert.
Proof.
  unfold intents_for, mails.
  destruct (email_of w (PriceAlert.user_id alert)); [|reflexivity].
  cbn [filter]. rewrite String.eqb_refl. reflexivity.
Qed.

Lemma mails_foreign (w : World) (product : Product.t) (newPrice : Z)
                    (other : PriceAlert.t) (key : string) :
  PriceAlert.id other <> key ->
  intents_for key (mails w product newPrice other) = [].
Proof.
  intros Hne. apply String.eqb_neq in Hne. unfold intents_for, mails.
  destruct (email_of w (PriceAlert.user_id other)); [|reflexivity].
  cbn [filter]. rewrite Hne. reflexivity.
Qed.

Lemma intents_for_app (key : string) (l1 l2 : list intent) :
  intents_for key (l1 ++ l2) = intents_for key l1 ++ intents_for key l2.
Proof. unfold intents_for. apply filter_app. Qed.

Lemma intents_for_absent (w : World) (product : Product.t) (newPrice : Z)
                         (g : PriceAlert.t -> bool)
                         (alerts : list PriceAlert.t) (key : string) :
  ~ In key (map PriceAlert.id alerts) ->
  intents_for key (flat_map (mails w product newPrice) (filter g alerts)) = [].
Proof.
  induction alerts as [|a rest IH]; cbn [map In filter flat_map]; intros Hn;
    [reflexivity|].
  assert (Hrest : ~ In key (map PriceAlert.id rest)) by tauto.
  destruct (g a); cbn [flat_map]; [|exact (IH Hrest)].
  rewrite intents_for_app, (IH Hrest), app_nil_r.
  apply mails_foreign. tauto.
Qed.

Lemma intents_for_mails (w : World) (product : Product.t) (newPrice : Z)
                        (g : PriceAlert.t -> bool)
                        (alerts : list PriceAlert.t) (alert : PriceAlert.t) :
  NoDup (map PriceAlert.id alerts) -> In alert alerts ->
  intents_for (PriceAlert.id alert)
              (flat_map (mails w product newPrice) (filter g alerts))
  = if g alert then mails w product newPrice alert else [].
Proof.
  induction alerts as [|a rest IH]; cbn [map filter In]; intros Hnd Hin;
    [contradiction|].
  inversion Hnd as [|x l Hnotin Hrest]; subst.
  destruct Hin as [->|Hin].
  - destruct (g alert); cbn [flat_map].
    + rewrite intents_for_app, mails_own.
      rewrite (intents_for_absent w product newPrice g rest _ Hnotin).
      apply app_nil_r.
    + apply intents_for_absent. exact Hnotin.
  - assert (Hne : PriceAlert.id a <> PriceAlert.id alert).
    { intros E. apply Hnotin. rewrite E. apply in_map. exact Hin. }
    destruct (g a); cbn [flat_map]; [|exact (IH Hrest Hin)].
    rewrite intents_for_app, (mails_foreign w product newPrice a _ Hne).
    exact (IH Hrest Hin).
Qed.

Lemma checkPriceAlerts_outcome (w : World) (alerts : list PriceAlert.t)
                               (product : Product.t) (newPrice : Z) :
  alertsError w = false ->
  NoDup (map PriceAlert.id alerts) ->
  fst (UpdatePrices.checkPriceAlerts w alerts product newPrice)
  = map (after_check w product newPrice) alerts
  /\ snd (UpdatePrices.checkPriceAlerts w alerts product newPrice)
     = flat_map (mails w product newPrice)
                (filter (UpdatePrices.triggered product newPrice) alerts).
Proof.
  intros He Hnd. unfold UpdatePrices.checkPriceAlerts. rewrite He.
  rewrite notify_loop. cbn [fst snd app]. split; [|reflexivity].
  apply map_ext_in. intros a Hin. unfold after_check.
  rewrite existsb_filter.
  rewrite (existsb_pointwise _
             (fun b => String.eqb (PriceAlert.id a) (PriceAlert.id b)
                       && (UpdatePrices.triggered product newPrice b
                           && deactivates w b))).
  - rewrite (existsb_by_id
               (fun b => UpdatePrices.triggered product newPrice b
                         && deactivates w b) alerts a Hnd Hin).
    reflexivity.
  - intros b.
    destruct (UpdatePrices.triggered product newPrice b),
             (String.eqb (PriceAlert.id a) (PriceAlert.id b)); reflexivity.
Qed.

Lemma intents_for_stock (key : string) (w : World) (product : Product.t) :
  intents_for key (UpdatePrices.sendStockAlert w product) = [].
Proof.
  unfold UpdatePrices.sendStockAlert.
  destruct (email_of w (Product.user_id product)); reflexivity.
Qed.

(** The guard in front of the call of [checkPriceAlerts]: the product
    is in stock and its new price is below the last recorded one. *)
Lemma price_drop_guard (product : Product.t) (scrapedData : ScrapedData) :
  negb (is_out_of_stock scrapedData)
  && UpdatePrices.priceChanged product scrapedData
  && (sale_price scrapedData
      <? UpdatePrices.lastPrice (Product.price_history product))
  = negb (is_out_of_stock scrapedData)
    && (sale_price scrapedData
        <? UpdatePrices.lastPrice (Product.price_history product)).
Proof.
  unfold UpdatePrices.priceChanged.
  destruct (is_out_of_stock scrapedData); cbn [negb andb]; [reflexivity|].
  destruct (sale_price scrapedData
            <? UpdatePrices.lastPrice (Product.price_history product)) eqn:L;
    [|apply andb_false_r].
  apply Z.ltb_lt in L.
  assert (E : (UpdatePrices.lastPrice (Product.price_history product)
               =? sale_price scrapedData) = false)
    by (apply Z.eqb_neq; lia).
  rewrite E. reflexivity.
Qed.



(** The alerts are looked at only after a write that recorded a price
    drop of a product in stock. *)
Lemma no_alert_check_without_price_drop
    {RT : Runtime} (w : World) (st : UpdatePrices.State)
    (product : Product.t) (scrapedData : ScrapedData) :
  UpdatePrices_scraper.scrapeProduct (fetch w) (Product.url product)
    = Ok scrapedData ->
  UpdatePrices.lastPrice (Product.price_history product)
    <= sale_price scrapedData ->
  price_alerts (UpdatePrices.db (UpdatePrices.process_product w st product))
  = price_alerts (UpdatePrices.db st).
Proof.
  intros F Hle. unfold UpdatePrices.process_product. rewrite F.
  destruct (storeError w); [reflexivity|].
  cbn [UpdatePrices.db price_alerts].
  assert (E : (sale_price scrapedData
               <? UpdatePrices.lastPrice (Product.price_history product))
              = false) by (apply Z.ltb_ge; exact Hle).
  rewrite E, andb_false_r. reflexivity.
Qed.



Lemma checkPriceAlerts_rows (w : World) (alerts : list PriceAlert.t)
                            (product : Product.t) (newPrice : Z) :
  exists f,
    fst (UpdatePrices.checkPriceAlerts w alerts product newPrice)
    = map f alerts
    /\ forall a, f a = a \/ f a = UpdatePrices.deactivate w a.
Proof.
  unfold UpdatePrices.checkPriceAlerts.
  destruct (alertsError w).
  - exists (fun a => a). cbn [fst]. rewrite map_id.
    split; [reflexivity|]. intros a. left. reflexivity.
  - rewrite notify_loop. cbn [fst].
    eexists. split; [reflexivity|].
    intros a. cbv beta. destruct (existsb _ _); [right|left]; reflexivity.
Qed.

Lemma Forall2_map_right {A B : Type} (R : A -> B -> Prop) (f : A -> B)
                        (l : list A) :
  (forall a, In a l -> R a (f a)) -> Forall2 R l (map f l).
Proof.
  induction l as [|a l IH]; intros H; cbn [map]; constructor.
  - apply H. left. reflexivity.
  - apply IH. intros b Hb. apply H. right. exact Hb.
Qed.

Lemma Forall2_same {A : Type} (R : A -> A -> Prop) (l : list A) :
  (forall a, In a l -> R a a) -> Forall2 R l l.
Proof.
  intros H. rewrite <- (map_id l) at 2. apply Forall2_map_right. exact H.
Qed.

(** What processing a product can make of a stored alert. *)
Lemma process_product_alert_rows
    {RT : Runtime} (w : World) (st : UpdatePrices.State)
    (product : Product.t) :
  NoDup (map PriceAlert.id (price_alerts (UpdatePrices.db st))) ->
  exists f,
    price_alerts (UpdatePrices.db (UpdatePrices.process_product w st product))
    = map f (price_alerts (UpdatePrices.db st))
    /\ forall a,
         f a = a
         \/ (f a = UpdatePrices.deactivate w a
             /\ PriceAlert.is_active a = true
             /\ PriceAlert.product_id a = Product.id product
             /\ exists scrapedData,
                  UpdatePrices_scraper.scrapeProduct (fetch w)
                    (Product.url product) = Ok scrapedData
                  /\ storeError w = None
                  /\ is_out_of_stock scrapedData = false
                  /\ sale_price scrapedData
                     < UpdatePrices.lastPrice (Product.price_history product)
                  /\ sale_price scrapedData <= PriceAlert.target_price a).
Proof.
  intros Hnd.
  assert (Same : exists f : PriceAlert.t -> PriceAlert.t,
            price_alerts (UpdatePrices.db st)
            = map f (price_alerts (UpdatePrices.db st))
            /\ forall a,
                 f a = a
                 \/ (f a = UpdatePrices.deactivate w a
                     /\ PriceAlert.is_active a = true
                     /\ PriceAlert.product_id a = Product.id product
                     /\ exists scrapedData,
                          UpdatePrices_scraper.scrapeProduct (fetch w)
                            (Product.url product) = Ok scrapedData
                          /\ storeError w = None
                          /\ is_out_of_stock scrapedData = false
                          /\ sale_price scrapedData
                             < UpdatePrices.lastPrice
                                 (Product.price_history product)
                          /\ sale_price scrapedData
                             <= PriceAlert.target_price a)).
  { exists (fun a => a). split; [symmetry; apply map_id|].
    intros a. left. reflexivity. }
  unfold UpdatePrices.process_product.
  destruct (UpdatePrices_scraper.scrapeProduct (fetch w) (Product.url product))
    as [sd|e] eqn:F; [|exact Same].
  destruct (storeError w) as [msg|] eqn:SE; [exact Same|].
  cbn [UpdatePrices.db price_alerts]. rewrite price_drop_guard.
  destruct (is_out_of_stock sd) eqn:O; cbn [negb andb]; [exact Same|].
  destruct (sale_price sd
            <? UpdatePrices.lastPrice (Product.price_history product)) eqn:L;
    [|exact Same].
  apply Z.ltb_lt in L.
  destruct (alertsError w) eqn:AE.
  { unfold UpdatePrices.checkPriceAlerts. rewrite AE. exact Same. }
  destruct (checkPriceAlerts_outcome w (price_alerts (UpdatePrices.db st))
              product (sale_price sd) AE Hnd) as [-> _].
  exists (after_check w product (sale_price sd)).
  split; [reflexivity|].
  intros a. unfold after_check.
  destruct (UpdatePrices.triggered product (sale_price sd) a) eqn:T;
    cbn [andb]; [|left; reflexivity].
  destruct (deactivates w a); [|left; reflexivity].
  right. unfold UpdatePrices.triggered in T.
  apply andb_true_iff in T. destruct T as [T T3].
  apply andb_true_iff in T. destruct T as [T1 T2].
  apply String.eqb_eq in T1. apply Z.leb_le in T3.
  split; [reflexivity|]. split; [exact T2|]. split; [exact T1|].
  exists sd. repeat (split; [reflexivity || assumption|]). exact T3.
Qed.

(** C4 (amended). The sweep deactivates an alert only on a price-target
    match: when it processes a product, it switches off only alerts that
    are active, are on that product and have a target at or above the
    new price, and only after it has written the product as in stock at
    a price below the last recorded one. It does nothing else to an
    alert: it never deletes one and never turns an inactive alert
    active. The alert dialog, however, lets the owner switch an alert in
    both directions ([handleToggleAlert] stores the negation of the flag
    it is given, so a triggered alert can be made active again) and
    delete it ([handleDeleteAlert]). *)
Theorem alert_transitions
    {RT : Runtime} (w : World) (st : UpdatePrices.State)
    (product : Product.t) (alerts : list PriceAlert.t)
    (user alertId : string) (now : timestamp)
    (isActive : bool) (alert : PriceAlert.t) :
  NoDup (map PriceAlert.id (price_alerts (UpdatePrices.db st))) ->
  In alert alerts ->
  PriceAlertDialog.own user alertId alert = true ->
  (let before := price_alerts (UpdatePrices.db st) in
   let after :=
     price_alerts
       (UpdatePrices.db (UpdatePrices.process_product w st product)) in
   map PriceAlert.id after = map PriceAlert.id before
   /\ Forall2
        (fun a a' =>
           a' = a
           \/ (a' = UpdatePrices.deactivate w a
               /\ PriceAlert.is_active a = true
               /\ PriceAlert.product_id a = Product.id product
               /\ exists scrapedData,
                    UpdatePrices_scraper.scrapeProduct (fetch w)
                      (Product.url product) = Ok scrapedData
                    /\ storeError w = None
                    /\ is_out_of_stock scrapedData = false
                    /\ sale_price scrapedData
                       < UpdatePrices.lastPrice
                           (Product.price_history product)
                    /\ sale_price scrapedData
                       <= PriceAlert.target_price a))
        before after
   /\ Forall2 (fun a a' => PriceAlert.is_active a' = true -> a' = a)
              before after)
  /\ In (PriceAlertDialog.toggled isActive now alert)
        (PriceAlertDialog.handleToggleAlert user false now alerts alertId
           isActive)
  /\ PriceAlert.is_active (PriceAlertDialog.toggled isActive now alert)
     = negb isActive
  /\ ~ In alert (PriceAlertDialog.handleDeleteAlert user false alerts alertId).
Proof.
  intros Hnd Hin Hown. split; [|split; [|split]].
  - cbv zeta.
    destruct (process_product_alert_rows w st product Hnd) as [f [-> Hf]].
    split; [|split].
    + rewrite map_map. apply map_ext. intros a.
      destruct (Hf a) as [->|[-> _]]; reflexivity.
    + apply Forall2_map_right. intros a _. exact (Hf a).
    + apply Forall2_map_right. intros a _.
      destruct (Hf a) as [->|[-> _]]; [tauto|]. cbn. discriminate.
  - unfold PriceAlertDialog.handleToggleAlert.
    apply in_map_iff. exists alert. rewrite Hown. split; [reflexivity|exact Hin].
  - reflexivity.
  - unfold PriceAlertDialog.handleDeleteAlert. intros H.
    apply filter_In in H. destruct H as [_ H]. rewrite Hown in H.
    discriminate.
Qed.

(** A sweep that finds [product-1] at 29,000 switches off the active
    alert with target 30000 on it and leaves the triggered one alone;
    the owner then switches the triggered one back on in the dialog, or
    deletes it. *)
Lemma alert_transitions_witness :
  let triggered_alert := sample_alert "alert-1" "user-1" 30000 false in
  let waiting_alert := sample_alert "alert-2" "user-1" 30000 true in
  let w := sample_world (served sample_html) in
  map PriceAlert.is_active
      (price_alerts
         (UpdatePrices.db
            (UpdatePrices.process_product (RT := page_priced_at "29,000") w
               (watching [triggered_alert; waiting_alert])
               (sample_product "product-1"))))
  = [false; false]
  /\ In (PriceAlertDialog.toggled false 7200005 triggered_alert)
        (PriceAlertDialog.handleToggleAlert "user-1" false 7200005
           [triggered_alert] "alert-1" false)
  /\ ~ In triggered_alert
          (PriceAlertDialog.handleDeleteAlert "user-1" false
             [triggered_alert] "alert-1").
Proof.
  cbv zeta.
  assert (Hnd : NoDup (map PriceAlert.id
                         [sample_alert "alert-1" "user-1" 30000 false;
                          sample_alert "alert-2" "user-1" 30000 true])).
  { cbn. repeat constructor; cbn; intuition discriminate. }
  destruct (alert_transitions (RT := page_priced_at "29,000")
              (sample_world (served sample_html))
              (watching [sample_alert "alert-1" "user-1" 30000 false;
                         sample_alert "alert-2" "user-1" 30000 true])
              (sample_product "product-1")
              [sample_alert "alert-1" "user-1" 30000 false]
              "user-1" "alert-1" 7200005
              false (sample_alert "alert-1" "user-1" 30000 false)
              Hnd (or_introl eq_refl) eq_refl) as (_ & Ht & _ & Hd).
  split; [reflexivity|]. split; [exact Ht | exact Hd].
Defined.

(** An alert that was triggered (inactive) is switched back on by its
    owner in the dialog, and can be deleted there. *)
Lemma alert_transitions_counterexample :
  let triggered_alert := sample_alert "alert-1" "user-1" 30000 false in
  map PriceAlert.is_active
      (PriceAlertDialog.handleToggleAlert "user-1" false 7200005
         [triggered_alert] "alert-1" false)
  = [true]
  /\ PriceAlertDialog.handleDeleteAlert "user-1" false [triggered_alert]
       "alert-1"
     = [].
Proof. split; reflexivity. Qed.

(** ** Intake of a tracking request *)

Section Intake.
Context {RT : Runtime}.

Lemma screen_accepts (w : World) (req : TrackProduct.Request)
                     (user url : string) :
  TrackProduct.screen w req = inr (user, url) ->
  TrackProduct.json_url req = Ok (Some url)
  /\ includes "cashify.in" url = true
  /\ exists authHeader,
       TrackProduct.authorization req = Some authHeader
       /\ getUser w (remove_first "Bearer " authHeader) = Some user.
Proof.
  unfold TrackProduct.screen.
  destruct (String.eqb (TrackProduct.method req) "OPTIONS"); [discriminate|].
  destruct (TrackProduct.json_url req) as [[u|]|e]; try discriminate.
  destruct (is_empty u); [discriminate|].
  destruct (includes "cashify.in" u) eqn:I; cbn [negb]; [|discriminate].
  destruct (TrackProduct.authorization req) as [h|]; [|discriminate].
  destruct (is_empty h); [discriminate|].
  destruct (getUser w (remove_first "Bearer " h)) as [usr|] eqn:G;
    [|discriminate].
  intros H. injection H as <- <-.
  split; [reflexivity|]. split; [exact I|].
  exists h. split; [reflexivity|exact G].
Qed.

Lemma track_outcome (w : World) (user url : string) (database : Database) :
  match single (TrackProduct.tracked_by user url database) with
  | Some _ =>
      TrackProduct.track w user url database
      = TrackProduct.reply 400 "Product is already being tracked" database
  | None =>
      TrackProduct.fetches (TrackProduct.track w user url database) = [url]
      /\ forall product message,
           payload (TrackProduct.response_of
                      (TrackProduct.track w user url database))
           = Tracking product message ->
           Product.url product = url /\ Product.user_id product = user
           /\ TrackProduct.database_of (TrackProduct.track w user url database)
              = {| products := products database ++ [product];
                   price_alerts := price_alerts database |}
  end.
Proof.
  unfold TrackProduct.track.
  destruct (single (TrackProduct.tracked_by user url database));
    [reflexivity|].
  destruct (TrackProduct_scraper.scrapeProduct (fetch w) url) as [sd|e].
  - destruct (storeError w).
    + split; [reflexivity|]. intros p m H. discriminate.
    + split; [reflexivity|]. intros p m H. cbn in H.
      injection H as <- _. repeat split.
  - split; [reflexivity|]. intros p m H. discriminate.
Qed.

(** What the intake does check. The handler tracks a URL only if the
    URL contains [cashify.in]; the product form sends a URL only if its
    host name is [www.cashify.in] and it contains [buy-refurbished]. A
    URL that the authenticated owner already tracks in one row is
    refused with status 400, without any fetch and without any change
    of the database; the page is fetched only when the duplicate check
    found no single row. *)
Theorem intake_checks
    (w : World) (req : TrackProduct.Request) (database : Database) :
  (forall product message,
     payload (TrackProduct.response_of (TrackProduct.handler w req database))
     = Tracking product message ->
     TrackProduct.json_url req = Ok (Some (Product.url product))
     /\ includes "cashify.in" (Product.url product) = true)
  /\ (forall url token request,
        ProductForm.handleSubmit url token = Some request ->
        url_hostname url = Some "www.cashify.in"
        /\ includes "buy-refurbished" url = true
        /\ TrackProduct.json_url request = Ok (Some url))
  /\ (forall user url existing,
        TrackProduct.screen w req = inr (user, url) ->
        TrackProduct.tracked_by user url database = [existing] ->
        TrackProduct.handler w req database
        = {| TrackProduct.response_of :=
               {| http_status := 400;
                  payload := Error "Product is already being tracked" |};
             TrackProduct.database_of := database;
             TrackProduct.fetches := [] |})
  /\ (forall url,
        In url (TrackProduct.fetches (TrackProduct.handler w req database)) ->
        exists user,
          TrackProduct.screen w req = inr (user, url)
          /\ single (TrackProduct.tracked_by user url database) = None).
Proof.
  split; [|split; [|split]].
  - intros product message H. unfold TrackProduct.handler in H.
    destruct (TrackProduct.screen w req) as [r|[user url]] eqn:S.
    + exfalso. revert S H. unfold TrackProduct.screen.
      destruct (String.eqb _ "OPTIONS");
        [intros S; injection S as <-; discriminate|].
      destruct (TrackProduct.json_url req) as [[u|]|e];
        try (intros S; injection S as <-; discriminate).
      destruct (is_empty u); [intros S; injection S as <-; discriminate|].
      destruct (negb _); [intros S; injection S as <-; discriminate|].
      destruct (TrackProduct.authorization req) as [h|];
        [|intros S; injection S as <-; discriminate].
      destruct (is_empty h); [intros S; injection S as <-; discriminate|].
      destruct (getUser w _); [discriminate|].
      intros S; injection S as <-; discriminate.
    + destruct (screen_accepts w req user url S) as (J & I & _).
      pose proof (track_outcome w user url database) as T.
      destruct (single (TrackProduct.tracked_by user url database)).
      * rewrite T in H. discriminate.
      * destruct T as [_ T]. destruct (T product message H) as (U & _).
        rewrite U. split; assumption.
  - intros url token request H. unfold ProductForm.handleSubmit in H.
    destruct (is_empty (trim url)); [discriminate|].
    destruct (ProductForm.validateCashifyUrl url) eqn:V; cbn [negb] in H;
      [|discriminate].
    destruct token as [t|]; [|discriminate].
    destruct (is_empty t); [discriminate|].
    injection H as <-. unfold ProductForm.validateCashifyUrl in V.
    destruct (url_hostname url) as [h|]; [|discriminate].
    apply andb_true_iff in V. destruct V as [Hh Hp].
    apply String.eqb_eq in Hh. subst h. repeat split. exact Hp.
  - intros user url existing S T. unfold TrackProduct.handler. rewrite S.
    pose proof (track_outcome w user url database) as O.
    rewrite T in O. exact O.
  - intros url H. unfold TrackProduct.handler in H.
    destruct (TrackProduct.screen w req) as [r|[user u]] eqn:S;
      [contradiction|].
    pose proof (track_outcome w user u database) as O.
    destruct (single (TrackProduct.tracked_by user u database)) eqn:D.
    + rewrite O in H. contradiction.
    + destruct O as [O _]. rewrite O in H. destruct H as [<-|[]].
      exists user. split; [reflexivity|exact D].
Qed.

(** The handler keeps [unique_tracking]: it adds a row only for a pair
    of owner and URL that has none. *)
Lemma handler_keeps_unique_tracking
    (w : World) (req : TrackProduct.Request) (database : Database) :
  unique_tracking database ->
  unique_tracking (TrackProduct.database_of
                     (TrackProduct.handler w req database)).
Proof.
  intros U. unfold TrackProduct.handler.
  destruct (TrackProduct.screen w req) as [r|[user url]]; [exact U|].
  pose proof (track_outcome w user url database) as O.
  destruct (single (TrackProduct.tracked_by user url database)) eqn:D.
  - rewrite O. exact U.
  - destruct O as [_ O].
    destruct (payload (TrackProduct.response_of
                         (TrackProduct.track w user url database)))
      as [| | | |product message] eqn:P;
      try (unfold TrackProduct.track in *; rewrite D in *;
           destruct (TrackProduct_scraper.scrapeProduct (fetch w) url);
           [destruct (storeError w)|]; cbn in P |- *;
           (exact U || discriminate)).
    destruct (O product message eq_refl) as (Hu & Hw & Hd).
    rewrite Hd. intros user' url'.
    unfold TrackProduct.tracked_by. cbn [products].
    rewrite filter_app, length_app. cbn [filter].
    fold (TrackProduct.tracked_by user' url' database).
    destruct (String.eqb (Product.user_id product) user'
              && String.eqb (Product.url product) url') eqn:E.
    + apply andb_true_iff in E. destruct E as [E1 E2].
      apply String.eqb_eq in E1, E2. subst user' url'.
      rewrite Hw, Hu.
      pose proof (U user url) as L.
      destruct (TrackProduct.tracked_by user url database) as [|x [|y l]];
        cbn in *; try lia. discriminate.
    + cbn [length]. pose proof (U user' url'). lia.
Qed.
End Intake.

Lemma intake_checks_witness :
  let database := {| products := [sample_product "product-1"];
                     price_alerts := [] |} in
  let url := Product.url (sample_product "product-1") in
  TrackProduct.handler (RT := blank_page) (sample_world (served ""))
    (sample_request url) database
  = {| TrackProduct.response_of :=
         {| http_status := 400;
            payload := Error "Product is already being tracked" |};
       TrackProduct.database_of := database;
       TrackProduct.fetches := [] |}.
Proof.
  cbv zeta.
  exact (proj1 (proj2 (proj2
    (intake_checks (RT := blank_page) (sample_world (served ""))
       (sample_request (Product.url (sample_product "product-1")))
       {| products := [sample_product "product-1"]; price_alerts := [] |})))
    "user-1" (Product.url (sample_product "product-1"))
    (sample_product "product-1") eq_refl eq_refl).
Defined.

(** C9. A URL on another host, without the product path, whose path
    merely contains [cashify.in]: the product form refuses it, as its
    host name is not [www.cashify.in] and [buy-refurbished] is missing,
    but the handler, whose check is meant to admit Cashify URLs only,
    lets it pass, fetches it, stores a row for it and answers with
    success. *)
Theorem handler_tracks_foreign_url :
  let url := "https://example.com/cashify.in" in
  let outcome :=
    TrackProduct.handler (RT := blank_page) (sample_world (served ""))
      (sample_request url) empty_database in
  url_hostname (Runtime := blank_page) url = Some "example.com"
  /\ includes "buy-refurbished" url = false
  /\ ProductForm.validateCashifyUrl (RT := blank_page) url = false
  /\ ProductForm.handleSubmit (RT := blank_page) url (Some "token-1") = None
  /\ TrackProduct.screen (sample_world (served "")) (sample_request url)
     = inr ("user-1", url)
  /\ http_status (TrackProduct.response_of outcome) = 200
  /\ map Product.url (products (TrackProduct.database_of outcome)) = [url]
  /\ TrackProduct.fetches outcome = [url].
Proof. cbv zeta. repeat split. Qed.

(** When the owner already has two rows for a URL, [.single()] yields no
    row: the duplicate check passes, the page is fetched and a third row
    is stored. *)
Lemma duplicate_rows_are_not_detected :
  let url := Product.url (sample_product "product-1") in
  let outcome :=
    TrackProduct.handler (RT := blank_page) (sample_world (served ""))
      (sample_request url) doubled_database in
  length (TrackProduct.tracked_by "user-1" url doubled_database) = 2%nat
  /\ http_status (TrackProduct.response_of outcome) = 200
  /\ length (products (TrackProduct.database_of outcome)) = 3%nat
  /\ TrackProduct.fetches outcome = [url].
Proof. repeat split. Qed.

(** A product whose page was scraped and whose row was written: its
    row, and no other, carries the instant of this reconciliation. *)
Lemma last_checked_only_on_success_witness :
  let st := {| UpdatePrices.db := three_products;
               UpdatePrices.updatedCount := 0;
               UpdatePrices.errors := [];
               UpdatePrices.outbox := [] |} in
  let after :=
    UpdatePrices.process_product (RT := priced_page)
      (sample_world (served sample_html)) st (sample_product "product-1") in
  map Product.last_checked (products (UpdatePrices.db after))
    = [7200002; 0; 0]
  /\ Forall (fun row => Product.id row = "product-1" ->
                        Product.last_checked row = 7200002)
            (products (UpdatePrices.db after)).
Proof.
  cbv zeta. split; [reflexivity|].
  apply Forall_forall.
  exact (proj2 (last_checked_only_on_success (RT := priced_page)
                  (sample_world (served sample_html))
                  {| UpdatePrices.db := three_products;
                     UpdatePrices.updatedCount := 0;
                     UpdatePrices.errors := [];
                     UpdatePrices.outbox := [] |}
                  (sample_product "product-1"))).
Defined.

(** * Further properties of the code *)

(** ** What a sweep does to the stored products *)

Lemma map_pointwise_in {A B : Type} (f g : A -> B) (l : list A) :
  (forall a, In a l -> f a = g a) -> map f l = map g l.
Proof. apply map_ext_in. Qed.

Lemma same_id_same_row (table : list Product.t) (a b : Product.t) :
  NoDup (map Product.id table) -> In a table -> In b table ->
  Product.id a = Product.id b -> a = b.
Proof.
  induction table as [|x rest IH]; cbn [map In]; intros Hnd Ha Hb E;
    [contradiction|].
  inversion Hnd as [|y l Hnotin Hrest]; subst.
  destruct Ha as [->|Ha], Hb as [->|Hb].
  - reflexivity.
  - exfalso. apply Hnotin. rewrite E. apply in_map. exact Hb.
  - exfalso. apply Hnotin. rewrite <- E. apply in_map. exact Ha.
  - apply IH; assumption.
Qed.

Lemma NoDup_ids_filter (g : Product.t -> bool) (table : list Product.t) :
  NoDup (map Product.id table) -> NoDup (map Product.id (filter g table)).
Proof.
  induction table as [|x rest IH]; cbn [map filter]; intros Hnd;
    [constructor|].
  inversion Hnd as [|y l Hnotin Hrest]; subst.
  destruct (g x); cbn [map]; [|apply IH, Hrest].
  constructor; [|apply IH, Hrest].
  intros H. apply Hnotin. apply in_map_iff in H.
  destruct H as [p [E Hp]]. apply filter_In in Hp.
  rewrite <- E. apply in_map. tauto.
Qed.

Lemma find_own_row (items : list Product.t) (row : Product.t) :
  NoDup (map Product.id items) -> In row items ->
  find (fun p => String.eqb (Product.id p) (Product.id row)) items = Some row.
Proof.
  induction items as [|x rest IH]; cbn [map find In]; intros Hnd Hin;
    [contradiction|].
  inversion Hnd as [|y l Hnotin Hrest]; subst.
  destruct Hin as [->|Hin].
  - rewrite String.eqb_refl. reflexivity.
  - destruct (String.eqb (Product.id x) (Product.id row)) eqn:E.
    + apply String.eqb_eq in E. exfalso. apply Hnotin.
      rewrite E. apply in_map. exact Hin.
    + apply IH; assumption.
Qed.

Section SweepRows.
Context {RT : Runtime}.

(** What the sweep makes of a row of a table without repeated ids. *)
Lemma settle_own_row (s : UpdatePrices.Sweep) (database : Database)
                     (row : Product.t) :
  NoDup (map Product.id (products database)) ->
  In row (products database) ->
  settle s (UpdatePrices.stale s database) row =
  if Product.last_checked row <? UpdatePrices.select_now s - 60 * 60 * 1000
  then match attempt s row with
       | Ok sd =>
           match storeError (UpdatePrices.world_of s (Product.id row)) with
           | None => UpdatePrices.reconciled
                       (UpdatePrices.world_of s (Product.id row)) row sd row
           | Some _ => row
           end
       | Throw _ => row
       end
  else row.
Proof.
  intros Hnd Hin. unfold UpdatePrices.stale. cbv zeta.
  set (g := fun p => Product.last_checked p
                     <? UpdatePrices.select_now s - 60 * 60 * 1000).
  change (Product.last_checked row
          <? UpdatePrices.select_now s - 60 * 60 * 1000) with (g row).
  destruct (g row) eqn:G.
  - unfold settle.
    rewrite (find_own_row (filter g (products database)) row).
    + reflexivity.
    + apply NoDup_ids_filter, Hnd.
    + apply filter_In. split; assumption.
  - apply settle_absent. intros H. apply in_map_iff in H.
    destruct H as [p [E Hp]]. apply filter_In in Hp. destruct Hp as [Hp Gp].
    assert (p = row) by (apply (same_id_same_row (products database));
                         assumption).
    subst p. rewrite G in Gp. discriminate.
Qed.

(** The products after the handler, in every case. *)
Lemma handler_products (s : UpdatePrices.Sweep) (method : string)
                       (database : Database) :
  NoDup (map Product.id (products database)) ->
  products (snd (fst (UpdatePrices.handler s method database)))
  = products database
  \/ products (snd (fst (UpdatePrices.handler s method database)))
     = map (settle s (UpdatePrices.stale s database)) (products database).
Proof.
  intros Hnd. unfold UpdatePrices.handler.
  destruct (String.eqb method "OPTIONS"); [left; reflexivity|].
  destruct (UpdatePrices.selectError s); [left; reflexivity|].
  destruct (UpdatePrices.stale s database) as [|p rest] eqn:I;
    [left; reflexivity|].
  right. cbn [fst snd]. unfold UpdatePrices.run.
  rewrite run_products; [reflexivity|].
  rewrite <- I. apply NoDup_ids_filter, Hnd.
Qed.

Lemma process_product_rows (w : World) (st : UpdatePrices.State)
                           (product : Product.t) :
  map identity_of
      (products (UpdatePrices.db (UpdatePrices.process_product w st product)))
  = map identity_of (products (UpdatePrices.db st)).
Proof.
  unfold UpdatePrices.process_product.
  destruct (UpdatePrices_scraper.scrapeProduct _ _) as [sd|e];
    [|reflexivity].
  destruct (storeError w); [reflexivity|].
  cbn [UpdatePrices.db products]. unfold update_where.
  rewrite map_map. apply map_ext. intros row.
  destruct (String.eqb (Product.id row) (Product.id product)); reflexivity.
Qed.

Lemma run_rows (s : UpdatePrices.Sweep) (items : list Product.t) :
  forall st,
    map identity_of
        (products (UpdatePrices.db
           (fold_left (fun st product =>
                         UpdatePrices.process_product
                           (UpdatePrices.world_of s (Product.id product))
                           st product) items st)))
    = map identity_of (products (UpdatePrices.db st)).
Proof.
  induction items as [|p rest IH]; intros st; cbn [fold_left];
    [reflexivity|].
  rewrite IH. apply process_product_rows.
Qed.

(** X1. A sweep never adds or removes a product row and never changes
    the id, the owner, the URL or the creation instant of a row,
    whatever the pages answer and whatever fails, and whether or not
    ids repeat. *)
Theorem sweep_keeps_rows
    (s : UpdatePrices.Sweep) (method : string) (database : Database) :
  map identity_of
      (products (snd (fst (UpdatePrices.handler s method database))))
  = map identity_of (products database).
Proof.
  unfold UpdatePrices.handler.
  destruct (String.eqb method "OPTIONS"); [reflexivity|].
  destruct (UpdatePrices.selectError s); [reflexivity|].
  destruct (UpdatePrices.stale s database) as [|p rest]; [reflexivity|].
  cbn [fst snd]. unfold UpdatePrices.run. apply run_rows.
Qed.

(** X2. In a table without repeated ids, a sweep leaves every product
    that was checked within the last hour exactly as it is: only stale
    rows are ever written. *)
Theorem sweep_leaves_fresh_rows
    (s : UpdatePrices.Sweep) (method : string) (database : Database) :
  NoDup (map Product.id (products database)) ->
  Forall2 (fun before after =>
             UpdatePrices.select_now s - 60 * 60 * 1000
               <= Product.last_checked before ->
             after = before)
          (products database)
          (products (snd (fst (UpdatePrices.handler s method database)))).
Proof.
  intros Hnd.
  destruct (handler_products s method database Hnd) as [-> | ->].
  - apply Forall2_same. intros; reflexivity.
  - apply Forall2_map_right. intros row Hin Hfresh.
    rewrite (settle_own_row s database row Hnd Hin).
    apply Z.ltb_ge in Hfresh. rewrite Hfresh. reflexivity.
Qed.

(** X3. In a table without repeated ids, a sweep never rewrites or
    drops a recorded price: the history of each product afterwards is
    its history before, or that history followed by one entry; in the
    second case the entry holds the sale price now stored and the
    product is stored as in stock. *)
Theorem sweep_history_append_only
    (s : UpdatePrices.Sweep) (method : string) (database : Database) :
  NoDup (map Product.id (products database)) ->
  Forall2 (fun before after =>
             Product.price_history after = Product.price_history before
             \/ exists entry,
                  Product.price_history after
                  = Product.price_history before ++ [entry]
                  /\ price entry = Product.sale_price after
                  /\ Product.is_out_of_stock after = Some false)
          (products database)
          (products (snd (fst (UpdatePrices.handler s method database)))).
Proof.
  intros Hnd.
  destruct (handler_products s method database Hnd) as [-> | ->].
  - apply Forall2_same. intros; left; reflexivity.
  - apply Forall2_map_right. intros row Hin.
    rewrite (settle_own_row s database row Hnd Hin).
    destruct (_ <? _); [|left; reflexivity].
    destruct (attempt s row) as [sd|e]; [|left; reflexivity].
    destruct (storeError _); [left; reflexivity|].
    cbn [UpdatePrices.reconciled Product.price_history Product.sale_price
         Product.is_out_of_stock].
    unfold UpdatePrices.newPriceHistory.
    destruct (UpdatePrices.priceChanged row sd) eqn:PC; [|left; reflexivity].
    right. eexists. split; [reflexivity|]. split; [reflexivity|].
    unfold UpdatePrices.priceChanged in PC.
    apply andb_true_iff in PC. destruct PC as [PC _].
    apply negb_true_iff in PC. rewrite PC. reflexivity.
Qed.
End SweepRows.

Lemma sweep_leaves_fresh_rows_witness :
  let database :=
    {| products := [sample_product "product-1";
                    {| Product.id := "product-4";
                       Product.user_id := "user-1";
                       Product.url := sample_url;
                       Product.title := "Phone";
                       Product.mrp := 49999;
                       Product.sale_price := 46999;
                       Product.discount := "6%";
                       Product.condition := "Good";
                       Product.storage := "128GB";
                       Product.ram := "";
                       Product.color := "";
                       Product.image_url := None;
                       Product.last_checked := 7000000;
                       Product.price_history := [];
                       Product.created_at := 0;
                       Product.updated_at := 0;
                       Product.is_out_of_stock := Some false |}];
       price_alerts := [] |} in
  map (fun p => (Product.id p, Product.last_checked p))
      (products (snd (fst (UpdatePrices.handler (RT := priced_page)
                             sample_sweep "POST" database))))
  = [("product-1", 7200002); ("product-4", 7000000)]
  /\ Forall2 (fun before after =>
                UpdatePrices.select_now sample_sweep - 60 * 60 * 1000
                  <= Product.last_checked before ->
                after = before)
             (products database)
             (products (snd (fst (UpdatePrices.handler (RT := priced_page)
                                    sample_sweep "POST" database)))).
Proof.
  cbv zeta. split; [reflexivity|].
  apply (sweep_leaves_fresh_rows (RT := priced_page) sample_sweep "POST").
  cbn. repeat constructor; cbn; intuition discriminate.
Defined.

Lemma sweep_history_append_only_witness :
  map (fun p => map price (Product.price_history p))
      (products (snd (fst (UpdatePrices.handler (RT := priced_page)
                             sample_sweep "POST" three_products))))
  = [[46999; 44999]; [46999]; [46999; 44999]]
  /\ Forall2 (fun before after =>
                Product.price_history after = Product.price_history before
                \/ exists entry,
                     Product.price_history after
                     = Product.price_history before ++ [entry]
                     /\ price entry = Product.sale_price after
                     /\ Product.is_out_of_stock after = Some false)
             (products three_products)
             (products (snd (fst (UpdatePrices.handler (RT := priced_page)
                                    sample_sweep "POST" three_products)))).
Proof.
  split; [reflexivity|].
  apply (sweep_history_append_only (RT := priced_page) sample_sweep "POST").
  cbn. repeat constructor; cbn; intuition discriminate.
Defined.

(** ** What a sweep sends and reports *)

Lemma mails_are_price_mails (w : World) (product : Product.t) (newPrice : Z)
                            (alerts : list PriceAlert.t) :
  filter is_back_in_stock (flat_map (mails w product newPrice) alerts) = [].
Proof.
  induction alerts as [|a rest IH]; cbn [flat_map]; [reflexivity|].
  rewrite filter_app, IH, app_nil_r. unfold mails.
  destruct (email_of w (PriceAlert.user_id a)); reflexivity.
Qed.

Lemma checkPriceAlerts_sends_price_mails
    (w : World) (alerts : list PriceAlert.t) (product : Product.t)
    (newPrice : Z) :
  filter is_back_in_stock
         (snd (UpdatePrices.checkPriceAlerts w alerts product newPrice)) = [].
Proof.
  unfold UpdatePrices.checkPriceAlerts.
  destruct (alertsError w); [reflexivity|].
  rewrite notify_loop. cbn [snd app]. apply mails_are_price_mails.
Qed.

Lemma sendStockAlert_sends_stock_mails (w : World) (product : Product.t) :
  filter (fun i => negb (is_back_in_stock i))
         (UpdatePrices.sendStockAlert w product) = [].
Proof.
  unfold UpdatePrices.sendStockAlert.
  destruct (email_of w (Product.user_id product)); reflexivity.
Qed.

Lemma failures_and_updates (RT : Runtime) (s : UpdatePrices.Sweep)
                           (items : list Product.t) :
  (length (filter (updated_ok s) items)
   + length (flat_map (failure_entry s) items))%nat
  = length items.
Proof.
  induction items as [|p rest IH]; cbn [filter flat_map length];
    [reflexivity|].
  rewrite length_app.
  destruct (failure_entry_names_product s p) as [L _].
  destruct (updated_ok s p); cbn [length]; lia.
Qed.

Section SweepMail.
Context {RT : Runtime}.

(** X4. Unless the scrape gave a product in stock at a price below the
    last recorded one (and the row was written), processing a product
    leaves every alert as it is and adds no price mail to the outgoing
    requests. *)
Theorem price_mail_needs_price_drop
    (w : World) (st : UpdatePrices.State) (product : Product.t) :
  (forall scrapedData,
     UpdatePrices_scraper.scrapeProduct (fetch w) (Product.url product)
       = Ok scrapedData ->
     is_out_of_stock scrapedData = true
     \/ UpdatePrices.lastPrice (Product.price_history product)
        <= sale_price scrapedData
     \/ storeError w <> None) ->
  price_alerts (UpdatePrices.db (UpdatePrices.process_product w st product))
    = price_alerts (UpdatePrices.db st)
  /\ filter (fun i => negb (is_back_in_stock i))
            (UpdatePrices.outbox (UpdatePrices.process_product w st product))
     = filter (fun i => negb (is_back_in_stock i)) (UpdatePrices.outbox st).
Proof.
  intros H. unfold UpdatePrices.process_product.
  destruct (UpdatePrices_scraper.scrapeProduct _ _) as [sd|e];
    [|split; reflexivity].
  destruct (storeError w) as [msg|] eqn:SE; [split; reflexivity|].
  cbn [UpdatePrices.db price_alerts UpdatePrices.outbox].
  assert (G : negb (is_out_of_stock sd)
              && UpdatePrices.priceChanged product sd
              && (sale_price sd
                  <? UpdatePrices.lastPrice (Product.price_history product))
              = false).
  { destruct (H sd eq_refl) as [O|[L|N]].
    - rewrite O. reflexivity.
    - apply Z.ltb_ge in L. rewrite L. apply andb_false_r.
    - exfalso. apply N. reflexivity. }
  rewrite G. cbn [fst snd app]. split; [reflexivity|].
  rewrite filter_app.
  assert (Q : filter (fun i => negb (is_back_in_stock i))
                (if UpdatePrices.stockStatusChanged product sd
                    && negb (is_out_of_stock sd)
                    && match Product.is_out_of_stock product with
                       | Some b => b
                       | None => false
                       end
                 then UpdatePrices.sendStockAlert w product
                 else []) = []).
  { match goal with
    | |- context [if ?c then _ else _] => destruct c
    end; [apply sendStockAlert_sends_stock_mails | reflexivity]. }
  rewrite Q. apply app_nil_r.
Qed.

(** X5. Processing a product asks for a back-in-stock mail exactly when
    the row was written, the product was stored as out of stock, the
    scrape found it in stock and its owner has an email; the mail then
    goes to that email and names the product. No other case adds one. *)
Theorem back_in_stock_mail
    (w : World) (st : UpdatePrices.State) (product : Product.t) :
  filter is_back_in_stock
         (UpdatePrices.outbox (UpdatePrices.process_product w st product))
  = filter is_back_in_stock (UpdatePrices.outbox st)
    ++ match UpdatePrices_scraper.scrapeProduct (fetch w) (Product.url product),
             storeError w,
             Product.is_out_of_stock product,
             email_of w (Product.user_id product) with
       | Ok scrapedData, None, Some true, Some email =>
           if is_out_of_stock scrapedData then []
           else [BackInStock email (Product.id product)]
       | _, _, _, _ => []
       end.
Proof.
  unfold UpdatePrices.process_product.
  destruct (UpdatePrices_scraper.scrapeProduct _ _) as [sd|e];
    [|cbn [UpdatePrices.outbox]; rewrite app_nil_r; reflexivity].
  destruct (storeError w) as [msg|];
    [cbn [UpdatePrices.outbox]; rewrite app_nil_r; reflexivity|].
  cbn [UpdatePrices.outbox]. rewrite !filter_app. f_equal.
  assert (P : filter is_back_in_stock
                (snd (if negb (is_out_of_stock sd)
                         && UpdatePrices.priceChanged product sd
                         && (sale_price sd <? UpdatePrices.lastPrice
                                                (Product.price_history product))
                      then UpdatePrices.checkPriceAlerts w
                             (price_alerts (UpdatePrices.db st)) product
                             (sale_price sd)
                      else (price_alerts (UpdatePrices.db st), []))) = []).
  { match goal with
    | |- context [if ?c then _ else _] => destruct c
    end; [apply checkPriceAlerts_sends_price_mails | reflexivity]. }
  rewrite P. cbn [app].
  unfold UpdatePrices.stockStatusChanged, UpdatePrices.sendStockAlert.
  destruct (Product.is_out_of_stock product) as [[|]|];
    destruct (is_out_of_stock sd); cbn;
    destruct (email_of w (Product.user_id product)); reflexivity.
Qed.

(** X6. Whenever the sweep answers with a summary, every product of the
    sweep is accounted for once: the number reported as updated plus
    the number of entries in the error list equals the total, the total
    is the number of stale products, and the message spells the same
    two numbers. *)
Theorem sweep_accounts_for_every_product
    (s : UpdatePrices.Sweep) (method : string) (database : Database)
    (message : string) (updated total : nat) (errors : option (list string)) :
  payload (fst (fst (UpdatePrices.handler s method database)))
    = Summary message updated total errors ->
  total = length (UpdatePrices.stale s database)
  /\ (updated + length (match errors with Some es => es | None => [] end))%nat
     = total
  /\ errors <> Some []
  /\ message = ("Automatic price update completed: " ++ string_of_nat updated
                ++ "/" ++ string_of_nat total ++ " products updated")%string.
Proof.
  unfold UpdatePrices.handler.
  destruct (String.eqb method "OPTIONS"); [discriminate|].
  destruct (UpdatePrices.selectError s); [discriminate|].
  destruct (UpdatePrices.stale s database) as [|p rest] eqn:I;
    [discriminate|].
  rewrite <- I. cbn [fst snd payload]. unfold UpdatePrices.run.
  destruct (run_counts s (UpdatePrices.stale s database)
              {| UpdatePrices.db := database;
                 UpdatePrices.updatedCount := 0;
                 UpdatePrices.errors := [];
                 UpdatePrices.outbox := [] |}) as [Hc He].
  cbv zeta in Hc, He.
  cbn [UpdatePrices.updatedCount UpdatePrices.errors app Nat.add] in Hc, He.
  rewrite Hc, He. intros H. injection H as <- <- <- <-.
  split; [reflexivity|].
  pose proof (failures_and_updates RT s (UpdatePrices.stale s database)) as F.
  split; [|split; [|reflexivity]].
  - destruct (flat_map (failure_entry s) (UpdatePrices.stale s database));
      cbn [length] in *; lia.
  - destruct (flat_map (failure_entry s) (UpdatePrices.stale s database));
      discriminate.
Qed.
End SweepMail.

Lemma price_mail_needs_price_drop_witness :
  let w := sample_world (served sample_html) in
  let st :=
    fresh_state
      {| products := [sample_product "product-1"];
         price_alerts := [sample_alert "alert-1" "user-1" 50000 true] |} in
  let after :=
    UpdatePrices.process_product (RT := sold_out_page) w st
      (sample_product "product-1") in
  price_alerts (UpdatePrices.db after)
    = [sample_alert "alert-1" "user-1" 50000 true]
  /\ filter (fun i => negb (is_back_in_stock i)) (UpdatePrices.outbox after)
     = [].
Proof.
  cbv zeta.
  apply (price_mail_needs_price_drop (RT := sold_out_page)
           (sample_world (served sample_html))
           (fresh_state
              {| products := [sample_product "product-1"];
                 price_alerts := [sample_alert "alert-1" "user-1" 50000 true] |})
           (sample_product "product-1")).
  intros scrapedData E. left. vm_compute in E.
  injection E as <-. reflexivity.
Defined.

Lemma sweep_accounts_for_every_product_witness :
  3%nat = length (UpdatePrices.stale sample_sweep three_products)
  /\ (2 + length ["Failed to scrape product product-2: connection refused"])%nat
     = 3%nat
  /\ Some ["Failed to scrape product product-2: connection refused"]
     <> Some []
  /\ "Automatic price update completed: 2/3 products updated"
     = ("Automatic price update completed: " ++ string_of_nat 2
        ++ "/" ++ string_of_nat 3 ++ " products updated")%string.
Proof.
  exact (sweep_accounts_for_every_product (RT := priced_page)
           sample_sweep "POST" three_products
           "Automatic price update completed: 2/3 products updated" 2 3
           (Some ["Failed to scrape product product-2: connection refused"])
           eq_refl).
Defined.

(** ** The stored price and the price history *)

Lemma reconciled_price_consistent (w : World) (product : Product.t)
                                  (scrapedData : ScrapedData)
                                  (row : Product.t) :
  price_consistent (UpdatePrices.reconciled w product scrapedData row).
Proof.
  unfold price_consistent. cbn. intros H. injection H as H.
  apply lastPrice_newPriceHistory. exact H.
Qed.

Lemma inserted_price_consistent (w : World) (user url : string)
                                (scrapedData : ScrapedData) :
  price_consistent (TrackProduct.inserted w user url scrapedData).
Proof. intros _. reflexivity. Qed.

Section PriceInvariant.
Context {RT : Runtime}.

Lemma process_product_consistent
    (w : World) (st : UpdatePrices.State) (product : Product.t) :
  Forall price_consistent (products (UpdatePrices.db st)) ->
  Forall price_consistent
         (products (UpdatePrices.db (UpdatePrices.process_product w st product))).
Proof.
  intros H. unfold UpdatePrices.process_product.
  destruct (UpdatePrices_scraper.scrapeProduct _ _) as [sd|e]; [|exact H].
  destruct (storeError w); [exact H|].
  cbn [UpdatePrices.db products]. unfold update_where.
  apply Forall_forall. intros row Hin.
  apply in_map_iff in Hin. destruct Hin as [old [<- Hold]].
  destruct (String.eqb (Product.id old) (Product.id product)).
  - apply reconciled_price_consistent.
  - rewrite Forall_forall in H. apply H, Hold.
Qed.

Lemma run_consistent (s : UpdatePrices.Sweep) (items : list Product.t) :
  forall st,
    Forall price_consistent (products (UpdatePrices.db st)) ->
    Forall price_consistent
      (products (UpdatePrices.db
         (fold_left (fun st product =>
                       UpdatePrices.process_product
                         (UpdatePrices.world_of s (Product.id product))
                         st product)
                    items st))).
Proof.
  induction items as [|p rest IH]; intros st H; cbn [fold_left];
    [exact H|].
  apply IH, process_product_consistent, H.
Qed.

(** X7. If every product stored as in stock shows the price of its last
    history entry, this is still so after a sweep of update-prices and
    after a request to track-product, whatever the pages returned. *)
Theorem stored_price_matches_history
    (s : UpdatePrices.Sweep) (method : string) (w : World)
    (req : TrackProduct.Request) (database : Database) :
  Forall price_consistent (products database) ->
  Forall price_consistent
         (products (snd (fst (UpdatePrices.handler s method database))))
  /\ Forall price_consistent
            (products (TrackProduct.database_of
                         (TrackProduct.handler w req database))).
Proof.
  intros H. split.
  - unfold UpdatePrices.handler.
    destruct (String.eqb method "OPTIONS"); [exact H|].
    destruct (UpdatePrices.selectError s); [exact H|].
    destruct (UpdatePrices.stale s database) as [|p rest] eqn:I; [exact H|].
    cbn [fst snd]. unfold UpdatePrices.run. apply run_consistent. exact H.
  - unfold TrackProduct.handler.
    destruct (TrackProduct.screen w req) as [r|[user url]]; [exact H|].
    unfold TrackProduct.track.
    destruct (single _); [exact H|].
    destruct (TrackProduct_scraper.scrapeProduct (fetch w) url) as [sd|e];
      [|exact H].
    destruct (storeError w); [exact H|].
    cbn [TrackProduct.database_of products].
    apply Forall_app. split; [exact H|].
    constructor; [apply inserted_price_consistent|constructor].
Qed.
End PriceInvariant.

Lemma stored_price_matches_history_witness :
  Forall price_consistent
         (products (snd (fst (UpdatePrices.handler (RT := priced_page)
                                sample_sweep "POST" three_products))))
  /\ Forall price_consistent
            (products (TrackProduct.database_of
                         (TrackProduct.handler (RT := priced_page)
                            (sample_world (served sample_html))
                            (sample_request sample_url) three_products))).
Proof.
  apply (stored_price_matches_history (RT := priced_page)).
  repeat constructor.
Defined.

(** ** What a tracking request does to the database *)

Section Tracking.
Context {RT : Runtime}.

Lemma track_scraper_positive (fetch : string -> result response)
                             (url : string) (r : ScrapedData) :
  TrackProduct_scraper.scrapeProduct fetch url = Ok r ->
  0 < mrp r /\ 0 < sale_price r.
Proof.
  unfold TrackProduct_scraper.scrapeProduct, try_catch.
  destruct (fetch_page (fetch url)) as [html|e]; cbn [bind].
  - destruct (scrape_page track_product url html) as [r'|e] eqn:E;
      intros H; injection H as <-.
    + eapply scrape_page_positive; exact E.
    + cbn. lia.
  - intros H. injection H as <-. cbn. lia.
Qed.

Lemma screen_never_tracks (w : World) (req : TrackProduct.Request)
                          (r : Response) :
  TrackProduct.screen w req = inl r ->
  match payload r with
  | Tracking _ _ => False
  | _ => True
  end.
Proof.
  unfold TrackProduct.screen.
  destruct (String.eqb _ "OPTIONS"); [intros S; injection S as <-; exact I|].
  destruct (TrackProduct.json_url req) as [[u|]|e];
    try (intros S; injection S as <-; exact I).
  destruct (is_empty u); [intros S; injection S as <-; exact I|].
  destruct (negb _); [intros S; injection S as <-; exact I|].
  destruct (TrackProduct.authorization req) as [h|];
    [|intros S; injection S as <-; exact I].
  destruct (is_empty h); [intros S; injection S as <-; exact I|].
  destruct (getUser w _); [discriminate|].
  intros S; injection S as <-; exact I.
Qed.

(** X8. A request to track-product never changes or removes what is
    stored. When it answers that tracking started, exactly one product
    row was added after the existing ones: the row carries the generated
    id, belongs to the user of the bearer token, has strictly positive
    prices and a history of one entry holding its sale price; the
    alerts are as before. With any other answer the database is
    unchanged. *)
Theorem tracking_only_adds
    (w : World) (req : TrackProduct.Request) (database : Database) :
  match payload (TrackProduct.response_of
                   (TrackProduct.handler w req database)) with
  | Tracking product message =>
      http_status (TrackProduct.response_of
                     (TrackProduct.handler w req database)) = 200
      /\ TrackProduct.database_of (TrackProduct.handler w req database)
         = {| products := products database ++ [product];
              price_alerts := price_alerts database |}
      /\ Product.id product = generated_id w
      /\ Product.price_history product
         = [{| price := Product.sale_price product;
               checked_at := now_checked_at w |}]
      /\ 0 < Product.sale_price product
      /\ 0 < Product.mrp product
      /\ exists authHeader,
           TrackProduct.authorization req = Some authHeader
           /\ getUser w (remove_first "Bearer " authHeader)
              = Some (Product.user_id product)
  | _ =>
      TrackProduct.database_of (TrackProduct.handler w req database)
      = database
  end.
Proof.
  unfold TrackProduct.handler.
  destruct (TrackProduct.screen w req) as [r|[user url]] eqn:S.
  - cbn [TrackProduct.response_of TrackProduct.database_of].
    pose proof (screen_never_tracks w req r S) as N.
    destruct (payload r); (reflexivity || contradiction).
  - destruct (screen_accepts w req user url S) as (_ & _ & A).
    unfold TrackProduct.track.
    destruct (single _); [reflexivity|].
    destruct (TrackProduct_scraper.scrapeProduct (fetch w) url) as [sd|e]
      eqn:E; [|reflexivity].
    destruct (storeError w); [reflexivity|].
    cbn [TrackProduct.response_of TrackProduct.database_of payload
         http_status].
    destruct (track_scraper_positive _ _ _ E) as [Hm Hs].
    repeat (split; [first [reflexivity | assumption]|]).
    exact A.
Qed.
End Tracking.

(** ** Removing a tracked product *)

Lemma filter_none {A : Type} (f : A -> bool) (l : list A) :
  (forall x, In x l -> f x = false) -> filter f l = [].
Proof.
  induction l as [|a rest IH]; intros H; cbn [filter]; [reflexivity|].
  rewrite (H a (or_introl eq_refl)). apply IH.
  intros x Hx. apply H. right. exact Hx.
Qed.

Lemma filter_all {A : Type} (f : A -> bool) (l : list A) :
  (forall x, In x l -> f x = true) -> filter f l = l.
Proof.
  induction l as [|a rest IH]; intros H; cbn [filter]; [reflexivity|].
  rewrite (H a (or_introl eq_refl)). f_equal. apply IH.
  intros x Hx. apply H. right. exact Hx.
Qed.

Section Removal.
Context {RT : Runtime}.

(** X9. Tracking a product and then deleting it from the product list
    gives back the database as it was, provided the generated id was
    not in use and the alerts referred to stored products. *)
Theorem track_then_delete
    (w : World) (req : TrackProduct.Request) (database : Database)
    (product : Product.t) (message : string) :
  payload (TrackProduct.response_of (TrackProduct.handler w req database))
    = Tracking product message ->
  ~ In (generated_id w) (map Product.id (products database)) ->
  alerts_refer_to_products database ->
  ProductList.handleDelete (Product.user_id product) false
    (TrackProduct.database_of (TrackProduct.handler w req database))
    (Product.id product)
  = database.
Proof.
  intros P Fresh Ref.
  assert (T : TrackProduct.database_of (TrackProduct.handler w req database)
              = {| products := products database ++ [product];
                   price_alerts := price_alerts database |}
              /\ Product.id product = generated_id w).
  { revert P. unfold TrackProduct.handler.
    destruct (TrackProduct.screen w req) as [r|[user url]] eqn:S.
    - cbn [TrackProduct.response_of]. intros P.
      pose proof (screen_never_tracks w req r S) as N.
      rewrite P in N. contradiction.
    - unfold TrackProduct.track.
      destruct (single _); [discriminate|].
      destruct (TrackProduct_scraper.scrapeProduct (fetch w) url);
        [|discriminate].
      destruct (storeError w); [discriminate|].
      cbn. intros P. injection P as <- _. split; reflexivity. }
  destruct T as (Hd & Hid).
  rewrite Hd. unfold ProductList.handleDelete. cbv zeta. cbn [products price_alerts].
  assert (Old : forall p, In p (products database) ->
                          ProductList.removed (Product.user_id product)
                            (Product.id product) p = false).
  { intros p Hp. unfold ProductList.removed.
    destruct (String.eqb (Product.id p) (Product.id product)) eqn:E;
      [|reflexivity].
    apply String.eqb_eq in E. exfalso. apply Fresh.
    rewrite <- Hid, <- E. apply in_map. exact Hp. }
  assert (New : ProductList.removed (Product.user_id product)
                  (Product.id product) product = true).
  { unfold ProductList.removed. rewrite !String.eqb_refl. reflexivity. }
  rewrite !filter_app. cbn [filter]. rewrite New. cbn [negb].
  rewrite (filter_none _ _ Old), app_nil_r. cbn [app].
  rewrite (filter_all (fun p => negb (ProductList.removed _ _ p))
             (products database)).
  2:{ intros p Hp. rewrite (Old p Hp). reflexivity. }
  rewrite (filter_all _ (price_alerts database)).
  2:{ intros a Ha. cbn [existsb]. rewrite orb_false_r.
      destruct (String.eqb (Product.id product) (PriceAlert.product_id a))
        eqn:E; [|reflexivity].
      apply String.eqb_eq in E. exfalso.
      destruct (Ref a Ha) as [p [Hp Hpid]]. apply Fresh.
      rewrite <- Hid, E, <- Hpid. apply in_map. exact Hp. }
  destruct database; reflexivity.
Qed.

(** X10. Deleting from the product list removes only rows of the
    signed-in user: every product of another user and every alert on a
    product that stays is kept. The alerts of a removed product go with
    it, so that alerts still refer to stored products afterwards. *)
Theorem delete_is_confined
    (user : string) (error : bool) (database : Database)
    (productId : string) :
  alerts_refer_to_products database ->
  let after := ProductList.handleDelete user error database productId in
  (forall p, In p (products database) -> Product.user_id p <> user ->
             In p (products after))
  /\ (forall p, In p (products after) -> In p (products database))
  /\ (forall a, In a (price_alerts database) ->
                PriceAlert.product_id a <> productId ->
                In a (price_alerts after))
  /\ (forall a, In a (price_alerts after) -> In a (price_alerts database))
  /\ alerts_refer_to_products after.
Proof.
  intros Ref after. subst after. unfold ProductList.handleDelete.
  destruct error.
  { repeat split; auto. }
  cbv zeta. cbn [products price_alerts].
  split; [|split; [|split; [|split]]].
  - intros p Hp Hu. apply filter_In. split; [exact Hp|].
    unfold ProductList.removed.
    apply String.eqb_neq in Hu. rewrite Hu, andb_false_r. reflexivity.
  - intros p Hp. apply filter_In in Hp. tauto.
  - intros a Ha Hn. apply filter_In. split; [exact Ha|].
    apply negb_true_iff.
    destruct (existsb _ _) eqn:E; [|reflexivity].
    apply existsb_exists in E. destruct E as [p [Hp Hid]].
    apply filter_In in Hp. destruct Hp as [_ Hr].
    unfold ProductList.removed in Hr. apply andb_true_iff in Hr.
    destruct Hr as [Hr _]. apply String.eqb_eq in Hr, Hid.
    exfalso. apply Hn. rewrite <- Hid. exact Hr.
  - intros a Ha. apply filter_In in Ha. tauto.
  - intros a Ha. cbn [products price_alerts] in *.
    apply filter_In in Ha. destruct Ha as [Ha Hk].
    destruct (Ref a Ha) as [p [Hp Hid]].
    exists p. split; [|exact Hid].
    apply filter_In. split; [exact Hp|].
    destruct (ProductList.removed user productId p) eqn:R; [|reflexivity].
    exfalso. apply negb_true_iff in Hk.
    assert (X : existsb (fun q => String.eqb (Product.id q)
                                    (PriceAlert.product_id a))
                  (filter (ProductList.removed user productId)
                          (products database)) = true).
    { apply existsb_exists. exists p. split.
      - apply filter_In. split; assumption.
      - apply String.eqb_eq. exact Hid. }
    rewrite X in Hk. discriminate.
Qed.
End Removal.

Lemma track_then_delete_witness :
  let database :=
    {| products := [sample_product "product-1"];
       price_alerts := [sample_alert "alert-1" "user-1" 40000 true] |} in
  ProductList.handleDelete "user-1" false
    (TrackProduct.database_of
       (TrackProduct.handler (RT := priced_page)
          (sample_world (served sample_html)) (sample_request sample_url)
          database))
    "product-9"
  = database.
Proof.
  cbv zeta.
  refine (track_then_delete (RT := priced_page)
            (sample_world (served sample_html)) (sample_request sample_url)
            {| products := [sample_product "product-1"];
               price_alerts := [sample_alert "alert-1" "user-1" 40000 true] |}
            (TrackProduct.inserted (sample_world (served sample_html))
               "user-1" sample_url
               {| title := "Phone X"; mrp := 49999; sale_price := 44999;
                  discount := "10%"; condition := "Good"; storage := "128GB";
                  ram := Some ""; color := Some ""; image_url := None;
                  is_out_of_stock := false |})
            TrackProduct.started _ _ _).
  - vm_compute. reflexivity.
  - cbn. intros [H|[]]. discriminate.
  - intros a [<-|[]]. exists (sample_product "product-1").
    split; [left; reflexivity|reflexivity].
Defined.

Lemma delete_is_confined_witness :
  let database :=
    {| products := [sample_product "product-1"; sample_product "product-2"];
       price_alerts := [sample_alert "alert-1" "user-1" 40000 true] |} in
  let after := ProductList.handleDelete "user-1" false database "product-2" in
  (forall p, In p (products database) -> Product.user_id p <> "user-1" ->
             In p (products after))
  /\ (forall p, In p (products after) -> In p (products database))
  /\ (forall a, In a (price_alerts database) ->
                PriceAlert.product_id a <> "product-2" ->
                In a (price_alerts after))
  /\ (forall a, In a (price_alerts after) -> In a (price_alerts database))
  /\ alerts_refer_to_products after.
Proof.
  cbv zeta.
  apply (delete_is_confined "user-1" false
           {| products := [sample_product "product-1";
                           sample_product "product-2"];
              price_alerts := [sample_alert "alert-1" "user-1" 40000 true] |}
           "product-2").
  intros a [<-|[]]. exists (sample_product "product-1").
  split; [left; reflexivity|reflexivity].
Defined.

(** ** Prices stay positive *)

Section PositivePrices.
Context {RT : Runtime}.

Lemma update_scraper_positive (fetch : string -> result response)
                              (url : string) (r : ScrapedData) :
  UpdatePrices_scraper.scrapeProduct fetch url = Ok r ->
  0 < mrp r /\ 0 < sale_price r.
Proof.
  rewrite update_scraper_unfold.
  destruct (fetch_page (fetch url)) as [html|e]; cbn [bind]; [|discriminate].
  apply scrape_page_positive.
Qed.

Lemma run_positive (s : UpdatePrices.Sweep) (items : list Product.t) :
  forall st,
    Forall positive_prices (products (UpdatePrices.db st)) ->
    Forall positive_prices
      (products (UpdatePrices.db
         (fold_left (fun st product =>
                       UpdatePrices.process_product
                         (UpdatePrices.world_of s (Product.id product))
                         st product)
                    items st))).
Proof.
  induction items as [|p rest IH]; intros st H; cbn [fold_left];
    [exact H|].
  apply IH. unfold UpdatePrices.process_product.
  destruct (UpdatePrices_scraper.scrapeProduct _ _) as [sd|e] eqn:E;
    [|exact H].
  destruct (storeError _); [exact H|].
  cbn [UpdatePrices.db products]. unfold update_where.
  apply Forall_forall. intros row Hin.
  apply in_map_iff in Hin. destruct Hin as [old [<- Hold]].
  destruct (String.eqb (Product.id old) (Product.id p)).
  - apply update_scraper_positive in E. exact E.
  - rewrite Forall_forall in H. apply H, Hold.
Qed.

(** X11. If every stored product has a strictly positive list price and
    a strictly positive sale price, this is still so after a sweep of
    update-prices and after a request to track-product: no page, and no
    failure to read one, makes either function store a price of zero or
    below. *)
Theorem stored_prices_stay_positive
    (s : UpdatePrices.Sweep) (method : string) (w : World)
    (req : TrackProduct.Request) (database : Database) :
  Forall positive_prices (products database) ->
  Forall positive_prices
         (products (snd (fst (UpdatePrices.handler s method database))))
  /\ Forall positive_prices
            (products (TrackProduct.database_of
                         (TrackProduct.handler w req database))).
Proof.
  intros H. split.
  - unfold UpdatePrices.handler.
    destruct (String.eqb method "OPTIONS"); [exact H|].
    destruct (UpdatePrices.selectError s); [exact H|].
    destruct (UpdatePrices.stale s database) as [|p rest] eqn:I; [exact H|].
    cbn [fst snd]. unfold UpdatePrices.run. apply run_positive. exact H.
  - unfold TrackProduct.handler.
    destruct (TrackProduct.screen w req) as [r|[user url]]; [exact H|].
    unfold TrackProduct.track.
    destruct (single _); [exact H|].
    destruct (TrackProduct_scraper.scrapeProduct (fetch w) url) as [sd|e]
      eqn:E; [|exact H].
    destruct (storeError w); [exact H|].
    cbn [TrackProduct.database_of products].
    apply Forall_app. split; [exact H|].
    constructor; [|constructor].
    apply track_scraper_positive in E. exact E.
Qed.
End PositivePrices.

Lemma stored_prices_stay_positive_witness :
  Forall positive_prices
         (products (snd (fst (UpdatePrices.handler (RT := blank_page)
                                sample_sweep "POST" three_products))))
  /\ Forall positive_prices
            (products (TrackProduct.database_of
                         (TrackProduct.handler (RT := blank_page)
                            (sample_world (served sample_html))
                            (sample_request sample_url) three_products))).
Proof.
  apply (stored_prices_stay_positive (RT := blank_page)).
  repeat constructor.
Defined.

(** ** The shape of a scraped result *)

Lemma length_append (a b : string) :
  String.length (a ++ b)%string = (String.length a + String.length b)%nat.
Proof.
  induction a as [|c a IH]; cbn; [reflexivity|]. rewrite IH. reflexivity.
Qed.

Lemma length_substring_le (n : nat) (s : string) :
  (String.length (String.substring 0 n s) <= n)%nat.
Proof.
  revert s. induction n as [|n IH]; intros s; destruct s as [|c s]; cbn;
    try lia.
  specialize (IH s). lia.
Qed.

Lemma str_or_filled (s d : string) : d <> "" -> str_or s d <> "".
Proof. destruct s; cbn; [auto|discriminate]. Qed.

Section ResultShape.
Context {RT : Runtime}.

Lemma clean_title_short (t : string) :
  (String.length (clean_title t) <= 103)%nat.
Proof.
  unfold clean_title. cbv zeta.
  destruct (Nat.ltb 100 (String.length _)) eqn:L.
  - rewrite length_append.
    pose proof (length_substring_le 100
                  (trim (collapse_spaces
                           (regexp_cut cashifySuffixPattern t)))) as B.
    cbn [String.length]. lia.
  - apply Nat.ltb_ge in L. lia.
Qed.

(** X12. Every result that the body of [scrapeProduct] returns, in
    either edge function, is fit for display: the title is not empty and
    has at most 103 characters, the storage text is not empty, the image
    address is absent rather than empty, RAM and colour are set, and a
    product that is out of stock carries the discount [0%]. *)
Theorem scraped_result_shape
    (f : edge_function) (url html : string) (r : ScrapedData) :
  scrape_page f url html = Ok r ->
  title r <> ""
  /\ (String.length (title r) <= 103)%nat
  /\ storage r <> ""
  /\ image_url r <> Some ""
  /\ ram r <> None
  /\ color r <> None
  /\ (is_out_of_stock r = true -> discount r = "0%").
Proof.
  rewrite scrape_page_outcome.
  destruct (scrape_details url html) as [[c i]|e]; [|discriminate].
  cbv zeta. destruct (_ && _); [discriminate|].
  intros H. injection H as <-.
  cbn [title storage image_url ram color is_out_of_stock discount].
  split; [apply str_or_filled; discriminate|].
  split.
  { pose proof (clean_title_short (scrape_title html)) as B.
    destruct (clean_title (scrape_title html)); cbn in *; lia. }
  split; [apply str_or_filled; discriminate|].
  split; [destruct i; cbn; discriminate|].
  split; [discriminate|]. split; [discriminate|].
  intros O. unfold scrape_discount. rewrite O. reflexivity.
Qed.
End ResultShape.

Lemma scraped_result_shape_witness :
  let r :=
    {| title := "Phone X"; mrp := 49999; sale_price := 44999;
       discount := "10%"; condition := "Good"; storage := "128GB";
       ram := Some ""; color := Some ""; image_url := None;
       is_out_of_stock := false |} in
  title r <> ""
  /\ (String.length (title r) <= 103)%nat
  /\ storage r <> ""
  /\ image_url r <> Some ""
  /\ ram r <> None
  /\ color r <> None
  /\ (is_out_of_stock r = true -> discount r = "0%").
Proof.
  cbv zeta.
  apply (scraped_result_shape (RT := priced_page) update_prices sample_url
           sample_html).
  vm_compute. reflexivity.
Defined.

(** ** The alert dialog *)

Lemma same_alert (alerts : list PriceAlert.t) (a b : PriceAlert.t) :
  NoDup (map PriceAlert.id alerts) -> In a alerts -> In b alerts ->
  PriceAlert.id a = PriceAlert.id b -> a = b.
Proof.
  induction alerts as [|x rest IH]; cbn [map In]; intros Hnd Ha Hb E;
    [contradiction|].
  inversion Hnd as [|y l Hnotin Hrest]; subst.
  destruct Ha as [->|Ha], Hb as [->|Hb].
  - reflexivity.
  - exfalso. apply Hnotin. rewrite E. apply in_map. exact Hb.
  - exfalso. apply Hnotin. rewrite <- E. apply in_map. exact Ha.
  - apply IH; assumption.
Qed.



(** X14. Switching an alert off and on again (or on and off again) in
    the dialog restores every alert of the table, the instant of the
    last write apart. *)
Theorem toggle_twice_restores
    (user : string) (now1 now2 : timestamp) (alerts : list PriceAlert.t)
    (alert : PriceAlert.t) :
  NoDup (map PriceAlert.id alerts) ->
  In alert alerts ->
  map alert_content
      (PriceAlertDialog.handleToggleAlert user false now2
         (PriceAlertDialog.handleToggleAlert user false now1 alerts
            (PriceAlert.id alert) (PriceAlert.is_active alert))
         (PriceAlert.id alert) (negb (PriceAlert.is_active alert)))
  = map alert_content alerts.
Proof.
  intros Hnd Hin. unfold PriceAlertDialog.handleToggleAlert.
  rewrite !map_map. apply map_ext_in. intros a Ha.
  destruct (PriceAlertDialog.own user (PriceAlert.id alert) a) eqn:O.
  - assert (E : a = alert).
    { apply (same_alert alerts); try assumption.
      unfold PriceAlertDialog.own in O. apply andb_true_iff in O.
      destruct O as [O _]. apply String.eqb_eq. exact O. }
    subst a.
    assert (O' : PriceAlertDialog.own user (PriceAlert.id alert)
                   (PriceAlertDialog.toggled (PriceAlert.is_active alert)
                      now1 alert) = true) by exact O.
    rewrite O'. unfold alert_content. cbn.
    rewrite negb_involutive. reflexivity.
  - rewrite O. reflexivity.
Qed.

Lemma toggle_twice_restores_witness :
  let alerts := [sample_alert "alert-1" "user-1" 40000 true;
                 sample_alert "alert-2" "user-1" 42000 false] in
  map alert_content
      (PriceAlertDialog.handleToggleAlert "user-1" false 9000
         (PriceAlertDialog.handleToggleAlert "user-1" false 8000 alerts
            "alert-1" true)
         "alert-1" false)
  = map alert_content alerts.
Proof.
  cbv zeta.
  refine (toggle_twice_restores "user-1" 8000 9000
            [sample_alert "alert-1" "user-1" 40000 true;
             sample_alert "alert-2" "user-1" 42000 false]
            (sample_alert "alert-1" "user-1" 40000 true) _ _).
  - cbn. repeat constructor; cbn; intuition discriminate.
  - left. reflexivity.
Defined.

(** X15. Nothing the signed-in user does in the dialog (switching,
    deleting or creating an alert) touches an alert of another user:
    the alerts of the other users are the same, in the same order,
    before and after. *)
Theorem dialog_leaves_other_users_alerts
    (user alertId targetPrice new_id : string) (price : number)
    (error isActive : bool) (now : timestamp) (product : Product.t)
    (alerts : list PriceAlert.t) :
  let foreign :=
    filter (fun a => negb (String.eqb (PriceAlert.user_id a) user)) in
  foreign (PriceAlertDialog.handleToggleAlert user error now alerts alertId
             isActive) = foreign alerts
  /\ foreign (PriceAlertDialog.handleDeleteAlert user error alerts alertId)
     = foreign alerts
  /\ foreign (CreateAlert.handleCreateAlert (Some user) targetPrice price
                error new_id now product alerts)
     = foreign alerts.
Proof.
  cbv zeta. split; [|split].
  - unfold PriceAlertDialog.handleToggleAlert.
    destruct error; [reflexivity|].
    induction alerts as [|a rest IH]; cbn [map filter]; [reflexivity|].
    rewrite IH. unfold PriceAlertDialog.own.
    destruct (String.eqb (PriceAlert.user_id a) user) eqn:U.
    + destruct (String.eqb (PriceAlert.id a) alertId); cbn;
        rewrite U; reflexivity.
    + rewrite andb_false_r, U. reflexivity.
  - unfold PriceAlertDialog.handleDeleteAlert.
    destruct error; [reflexivity|].
    induction alerts as [|a rest IH]; cbn [filter]; [reflexivity|].
    unfold PriceAlertDialog.own.
    destruct (String.eqb (PriceAlert.user_id a) user) eqn:U.
    + destruct (String.eqb (PriceAlert.id a) alertId); cbn [andb negb filter];
        rewrite ?U; cbn [negb]; exact IH.
    + rewrite andb_false_r. cbn [negb filter]. rewrite U. cbn [negb].
      f_equal. exact IH.
  - unfold CreateAlert.handleCreateAlert.
    destruct (is_empty targetPrice); [reflexivity|].
    destruct price as [|target]; [reflexivity|].
    destruct (target <=? 0); [reflexivity|].
    destruct (Product.sale_price product <=? target); [reflexivity|].
    destruct error; [reflexivity|].
    rewrite filter_app. cbn. rewrite String.eqb_refl. cbn.
    apply app_nil_r.
Qed.

(** ** What the product card shows after a sweep *)

Lemma nth_before_last {A : Type} (l : list A) (a d : A) :
  l <> [] -> nth (length (l ++ [a]) - 2) (l ++ [a]) d = last l d.
Proof.
  intros Hne. rewrite length_app. cbn [length].
  replace (length l + 1 - 2)%nat with (length l - 1)%nat by lia.
  rewrite app_nth1 by (destruct l; [contradiction|cbn; lia]).
  clear a Hne. induction l as [|x rest IH]; [reflexivity|].
  destruct rest as [|y rest']; [reflexivity|].
  change (last (x :: y :: rest') d) with (last (y :: rest') d).
  rewrite <- IH. cbn [length].
  replace (S (S (length rest')) - 1)%nat with (S (length rest')) by lia.
  replace (S (length rest') - 1)%nat with (length rest') by lia.
  reflexivity.
Qed.

(** X16. After a sweep has recorded a new price for a product with a
    history, the card shows the move against the price recorded before:
    down by the difference when the new price is lower, up by the
    difference when it is higher. A product that was just tracked shows
    no move. *)
Theorem price_change_shown_after_sweep
    (w : World) (product row : Product.t) (scrapedData : ScrapedData)
    (user url : string) :
  UpdatePrices.priceChanged product scrapedData = true ->
  Product.price_history product <> [] ->
  let previous := UpdatePrices.lastPrice (Product.price_history product) in
  ProductCard.getPriceChange
    (UpdatePrices.reconciled w product scrapedData row)
  = Some (if sale_price scrapedData <? previous
          then (ProductCard.down, previous - sale_price scrapedData)
          else (ProductCard.up, sale_price scrapedData - previous))
  /\ ProductCard.getPriceChange
       (TrackProduct.inserted w user url scrapedData) = None.
Proof.
  intros C Hne previous. split; [|reflexivity].
  unfold ProductCard.getPriceChange. cbv zeta.
  cbn [Product.price_history Product.sale_price UpdatePrices.reconciled].
  unfold UpdatePrices.newPriceHistory. rewrite C.
  assert (L : Nat.ltb (length (Product.price_history product ++
                                 [{| price := sale_price scrapedData;
                                     checked_at := now_checked_at w |}])) 2
              = false).
  { apply Nat.ltb_ge. rewrite length_app. cbn [length].
    destruct (Product.price_history product); [contradiction|cbn; lia]. }
  rewrite L. rewrite map_app. cbn [map].
  rewrite <- (length_map price (Product.price_history product ++ _)).
  rewrite map_app. cbn [map].
  rewrite nth_before_last.
  2:{ destruct (Product.price_history product); [contradiction|discriminate]. }
  fold (UpdatePrices.lastPrice (Product.price_history product)).
  fold previous.
  unfold UpdatePrices.priceChanged in C. apply andb_true_iff in C.
  destruct C as [_ C]. apply negb_true_iff, Z.eqb_neq in C.
  fold previous in C.
  destruct (sale_price scrapedData <? previous) eqn:D; [reflexivity|].
  apply Z.ltb_ge in D.
  assert (U : (previous <? sale_price scrapedData) = true)
    by (apply Z.ltb_lt; lia).
  rewrite U. reflexivity.
Qed.

Lemma price_change_shown_after_sweep_witness :
  let scrapedData :=
    {| title := "Phone X"; mrp := 49999; sale_price := 44999;
       discount := "10%"; condition := "Good"; storage := "128GB";
       ram := Some ""; color := Some ""; image_url := None;
       is_out_of_stock := false |} in
  ProductCard.getPriceChange
    (UpdatePrices.reconciled (sample_world (served sample_html))
       (sample_product "product-1") scrapedData (sample_product "product-1"))
  = Some (ProductCard.down, 2000)
  /\ ProductCard.getPriceChange
       (TrackProduct.inserted (sample_world (served sample_html))
          "user-1" sample_url scrapedData) = None.
Proof.
  cbv zeta.
  refine (price_change_shown_after_sweep (sample_world (served sample_html))
            (sample_product "product-1") (sample_product "product-1")
            {| title := "Phone X"; mrp := 49999; sale_price := 44999;
               discount := "10%"; condition := "Good"; storage := "128GB";
               ram := Some ""; color := Some ""; image_url := None;
               is_out_of_stock := false |}
            "user-1" sample_url _ _).
  - reflexivity.
  - discriminate.
Defined.

(** ** The price history chart *)

Lemma insert_by_time_permutation (entry : PriceEntry)
                                 (sorted : list PriceEntry) :
  Permutation (PriceHistoryChart.insert_by_time entry sorted)
              (entry :: sorted).
Proof.
  induction sorted as [|x rest IH]; cbn [PriceHistoryChart.insert_by_time];
    [reflexivity|].
  destruct (checked_at entry <=? checked_at x); [reflexivity|].
  rewrite IH. apply perm_swap.
Qed.

Lemma sort_by_time_permutation (entries : list PriceEntry) :
  Permutation (PriceHistoryChart.sort_by_time entries) entries.
Proof.
  unfold PriceHistoryChart.sort_by_time.
  induction entries as [|x rest IH]; cbn [fold_right]; [reflexivity|].
  rewrite insert_by_time_permutation. constructor. exact IH.
Qed.

Lemma insert_by_time_sorted (entry : PriceEntry) (sorted : list PriceEntry) :
  StronglySorted not_later sorted ->
  StronglySorted not_later (PriceHistoryChart.insert_by_time entry sorted).
Proof.
  induction sorted as [|x rest IH]; intros S;
    cbn [PriceHistoryChart.insert_by_time].
  - constructor; constructor.
  - inversion S as [|y l Srest Hx]; subst.
    destruct (checked_at entry <=? checked_at x) eqn:E.
    + apply Z.leb_le in E. constructor; [exact S|].
      constructor; [exact E|].
      apply Forall_forall. intros z Hz.
      rewrite Forall_forall in Hx. specialize (Hx z Hz).
      unfold not_later in *. lia.
    + apply Z.leb_gt in E. constructor; [apply IH, Srest|].
      apply (Permutation_Forall
               (Permutation_sym (insert_by_time_permutation entry rest))).
      constructor; [unfold not_later; lia|exact Hx].
Qed.

Lemma sort_by_time_sorted (entries : list PriceEntry) :
  StronglySorted not_later (PriceHistoryChart.sort_by_time entries).
Proof.
  unfold PriceHistoryChart.sort_by_time.
  induction entries as [|x rest IH]; cbn [fold_right]; [constructor|].
  apply insert_by_time_sorted, IH.
Qed.

Lemma sort_by_time_of_sorted (entries : list PriceEntry) :
  StronglySorted not_later entries ->
  PriceHistoryChart.sort_by_time entries = entries.
Proof.
  unfold PriceHistoryChart.sort_by_time.
  induction entries as [|x rest IH]; intros S; cbn [fold_right];
    [reflexivity|].
  inversion S as [|y l Srest Hx]; subst.
  rewrite (IH Srest).
  destruct rest as [|y rest']; [reflexivity|].
  cbn [PriceHistoryChart.insert_by_time].
  inversion Hx as [|z l Hxy _]; subst. unfold not_later in Hxy.
  apply Z.leb_le in Hxy. rewrite Hxy. reflexivity.
Qed.

Lemma filter_sorted (f : PriceEntry -> bool) (entries : list PriceEntry) :
  StronglySorted not_later entries ->
  StronglySorted not_later (filter f entries).
Proof.
  induction entries as [|x rest IH]; intros S; cbn [filter]; [constructor|].
  inversion S as [|y l Srest Hx]; subst.
  destruct (f x); [|apply IH, Srest].
  constructor; [apply IH, Srest|].
  apply Forall_forall. intros z Hz. apply filter_In in Hz.
  rewrite Forall_forall in Hx. apply Hx. tauto.
Qed.

(** X17. The points of the chart are exactly the history entries after
    the cut-off, each as often as it is in the history, in the order of
    their instants. When the history is already in that order (entries
    are only ever appended), the chart shows the entries after the
    cut-off as stored. *)
Theorem chart_shows_recent_history_in_order
    (cutoffDate : timestamp) (product : Product.t) :
  let recent :=
    filter (fun entry => cutoffDate <? checked_at entry)
           (Product.price_history product) in
  Permutation (PriceHistoryChart.chartData cutoffDate product) recent
  /\ StronglySorted not_later (PriceHistoryChart.chartData cutoffDate product)
  /\ (forall entry,
        In entry (PriceHistoryChart.chartData cutoffDate product)
        <-> In entry (Product.price_history product)
            /\ cutoffDate < checked_at entry)
  /\ (StronglySorted not_later (Product.price_history product) ->
      PriceHistoryChart.chartData cutoffDate product = recent).
Proof.
  cbv zeta. unfold PriceHistoryChart.chartData.
  split; [apply sort_by_time_permutation|].
  split; [apply sort_by_time_sorted|].
  split.
  - intros entry. split.
    + intros H.
      apply (Permutation_in _ (sort_by_time_permutation _)) in H.
      apply filter_In in H. destruct H as [H L].
      apply Z.ltb_lt in L. tauto.
    + intros [H L].
      apply (Permutation_in _ (Permutation_sym (sort_by_time_permutation _))).
      apply filter_In. split; [exact H|]. apply Z.ltb_lt. exact L.
  - intros S. apply sort_by_time_of_sorted, filter_sorted, S.
Qed.

Lemma maximum_bounds (others : list Z) :
  forall first,
    first <= PriceHistoryChart.maximum first others
    /\ (forall x, In x others -> x <= PriceHistoryChart.maximum first others)
    /\ In (PriceHistoryChart.maximum first others) (first :: others).
Proof.
  unfold PriceHistoryChart.maximum.
  induction others as [|a rest IH]; intros first; cbn [fold_left].
  - split; [lia|]. split; [intros x []|left; reflexivity].
  - destruct (IH (Z.max first a)) as (H1 & H2 & H3).
    split; [lia|]. split.
    + intros x [<-|Hx]; [lia|apply H2, Hx].
    + destruct H3 as [H3|H3]; [|right; right; exact H3].
      rewrite <- H3.
      destruct (Z.max_spec first a) as [[_ ->]|[_ ->]];
        [right; left|left]; reflexivity.
Qed.

Lemma minimum_bounds (others : list Z) :
  forall first,
    PriceHistoryChart.minimum first others <= first
    /\ (forall x, In x others -> PriceHistoryChart.minimum first others <= x)
    /\ In (PriceHistoryChart.minimum first others) (first :: others).
Proof.
  unfold PriceHistoryChart.minimum.
  induction others as [|a rest IH]; intros first; cbn [fold_left].
  - split; [lia|]. split; [intros x []|left; reflexivity].
  - destruct (IH (Z.min first a)) as (H1 & H2 & H3).
    split; [lia|]. split.
    + intros x [<-|Hx]; [lia|apply H2, Hx].
    + destruct H3 as [H3|H3]; [|right; right; exact H3].
      rewrite <- H3.
      destruct (Z.min_spec first a) as [[_ ->]|[_ ->]];
        [left|right; left]; reflexivity.
Qed.

(** X18. The figures under the chart are consistent with its points:
    every point lies between the lowest and the highest price shown,
    both are prices of points, the current price is the price of the
    last point, the change is the difference between the last and the
    first point, and the trend is its sign. Without points all three
    prices are the sale price of the product and the trend is stable. *)
Theorem price_stats_describe_the_chart
    (product : Product.t) (data : list PriceEntry) :
  let stats := PriceHistoryChart.priceStats product data in
  (forall entry, In entry data ->
     PriceHistoryChart.lowestPrice stats <= price entry
     <= PriceHistoryChart.highestPrice stats)
  /\ (data <> [] ->
      In (PriceHistoryChart.lowestPrice stats) (map price data)
      /\ In (PriceHistoryChart.highestPrice stats) (map price data)
      /\ PriceHistoryChart.currentPrice stats = last (map price data) 0
      /\ PriceHistoryChart.priceChange stats
         = last (map price data) 0 - hd 0 (map price data))
  /\ (data = [] ->
      PriceHistoryChart.currentPrice stats = Product.sale_price product
      /\ PriceHistoryChart.lowestPrice stats = Product.sale_price product
      /\ PriceHistoryChart.highestPrice stats = Product.sale_price product)
  /\ PriceHistoryChart.lowestPrice stats
     <= PriceHistoryChart.currentPrice stats
     <= PriceHistoryChart.highestPrice stats
  /\ PriceHistoryChart.price_trend stats
     = match PriceHistoryChart.priceChange stats ?= 0 with
       | Gt => PriceHistoryChart.trend_up
       | Lt => PriceHistoryChart.trend_down
       | Eq => PriceHistoryChart.stable
       end.
Proof.
  cbv zeta. unfold PriceHistoryChart.priceStats.
  destruct data as [|e rest]; cbn [map].
  - cbn. repeat split; try lia; try contradiction.
  - cbn [PriceHistoryChart.lowestPrice PriceHistoryChart.highestPrice
         PriceHistoryChart.currentPrice PriceHistoryChart.priceChange
         PriceHistoryChart.price_trend hd].
    destruct (maximum_bounds (map price rest) (price e)) as (M1 & M2 & M3).
    destruct (minimum_bounds (map price rest) (price e)) as (N1 & N2 & N3).
    assert (Hlast : In (last (map price rest) (price e))
                       (price e :: map price rest)).
    { destruct (map price rest) as [|y l] eqn:R; [left; reflexivity|].
      right. rewrite <- R.
      assert (Hne : map price rest <> []) by (rewrite R; discriminate).
      destruct (exists_last Hne) as [l' [a ->]].
      rewrite last_last. apply in_or_app. right. left. reflexivity. }
    assert (Hsame : last (price e :: map price rest) 0
                    = last (map price rest) (price e)).
    { destruct (map price rest) as [|y l] eqn:R; [reflexivity|].
      assert (Hne : y :: l <> []) by discriminate.
      destruct (exists_last Hne) as [l' [a ->]].
      rewrite app_comm_cons, !last_last. reflexivity. }
    split.
    { intros entry [<-|Hin]; [lia|].
      pose proof (in_map price _ _ Hin) as P.
      specialize (M2 _ P). specialize (N2 _ P). lia. }
    split.
    { intros _. rewrite Hsame. repeat split; assumption || reflexivity. }
    split; [discriminate|].
    split.
    { destruct Hlast as [<-|Hl]; [lia|].
      specialize (M2 _ Hl). specialize (N2 _ Hl). lia. }
    destruct (last (map price rest) (price e) - price e ?= 0) eqn:C.
    + apply Z.compare_eq in C. rewrite C. reflexivity.
    + rewrite Z.compare_lt_iff in C.
      assert (A : (0 <? last (map price rest) (price e) - price e) = false)
        by (apply Z.ltb_ge; lia).
      assert (B : (last (map price rest) (price e) - price e <? 0) = true)
        by (apply Z.ltb_lt; lia).
      rewrite A, B. reflexivity.
    + rewrite Z.compare_gt_iff in C.
      assert (A : (0 <? last (map price rest) (price e) - price e) = true)
        by (apply Z.ltb_lt; lia).
      rewrite A. reflexivity.
Qed.

(** ** What a sweep does to the alerts *)

Lemma settled_from_refl (a : PriceAlert.t) : settled_from a a.
Proof. unfold settled_from. tauto. Qed.

Lemma settled_from_trans (a b c : PriceAlert.t) :
  settled_from a b -> settled_from b c -> settled_from a c.
Proof.
  unfold settled_from.
  intros (A1 & A2 & A3 & A4 & A5 & A6) (B1 & B2 & B3 & B4 & B5 & B6).
  repeat (split; [congruence|]).
  intros H. specialize (B6 H). subst c. apply A6, H.
Qed.

Lemma settled_from_deactivate (w : World) (a : PriceAlert.t) :
  settled_from a (UpdatePrices.deactivate w a).
Proof.
  unfold settled_from. cbn. repeat (split; [reflexivity|]). discriminate.
Qed.

Lemma Forall2_chain {A : Type} (R : A -> A -> Prop) :
  (forall a b c, R a b -> R b c -> R a c) ->
  forall l1 l2 l3, Forall2 R l1 l2 -> Forall2 R l2 l3 -> Forall2 R l1 l3.
Proof.
  intros T l1 l2 l3 H. revert l3.
  induction H as [|a b l1 l2 Hab H IH]; intros l3 H3;
    inversion H3; subst; constructor.
  - eapply T; eassumption.
  - apply IH. assumption.
Qed.

Lemma Forall2_watch (l1 l2 : list PriceAlert.t) :
  Forall2 settled_from l1 l2 -> map watch_of l2 = map watch_of l1.
Proof.
  induction 1 as [|a b l1 l2 (H1 & H2 & _) H IH]; cbn [map]; [reflexivity|].
  rewrite IH. unfold watch_of. rewrite H1, H2. reflexivity.
Qed.

Section SweepAlerts.
Context {RT : Runtime}.

Lemma process_product_alerts
    (w : World) (st : UpdatePrices.State) (product : Product.t) :
  Forall2 settled_from
          (price_alerts (UpdatePrices.db st))
          (price_alerts
             (UpdatePrices.db (UpdatePrices.process_product w st product))).
Proof.
  unfold UpdatePrices.process_product.
  destruct (UpdatePrices_scraper.scrapeProduct _ _) as [sd|e];
    [|apply Forall2_same; intros; apply settled_from_refl].
  destruct (storeError w);
    [apply Forall2_same; intros; apply settled_from_refl|].
  cbn [UpdatePrices.db price_alerts].
  match goal with
  | |- context [if ?c then _ else _] => destruct c
  end; [|apply Forall2_same; intros; apply settled_from_refl].
  destruct (checkPriceAlerts_rows w (price_alerts (UpdatePrices.db st))
              product (sale_price sd)) as [f [-> Hf]].
  apply Forall2_map_right. intros a _.
  destruct (Hf a) as [->| ->];
    [apply settled_from_refl|apply settled_from_deactivate].
Qed.

Lemma run_alerts (s : UpdatePrices.Sweep) (items : list Product.t) :
  forall st,
    Forall2 settled_from
      (price_alerts (UpdatePrices.db st))
      (price_alerts (UpdatePrices.db
         (fold_left (fun st product =>
                       UpdatePrices.process_product
                         (UpdatePrices.world_of s (Product.id product))
                         st product)
                    items st))).
Proof.
  induction items as [|p rest IH]; intros st; cbn [fold_left].
  - apply Forall2_same. intros. apply settled_from_refl.
  - eapply (Forall2_chain settled_from settled_from_trans).
    + apply (process_product_alerts
               (UpdatePrices.world_of s (Product.id p)) st p).
    + apply IH.
Qed.

(** X19. A sweep never adds, deletes or re-activates an alert and never
    changes its target: after the sweep the table holds the same alerts
    in the same order, each one either exactly as before or switched
    off. *)
Theorem sweep_only_switches_alerts_off
    (s : UpdatePrices.Sweep) (method : string) (database : Database) :
  Forall2 settled_from
          (price_alerts database)
          (price_alerts (snd (fst (UpdatePrices.handler s method database)))).
Proof.
  unfold UpdatePrices.handler.
  destruct (String.eqb method "OPTIONS");
    [apply Forall2_same; intros; apply settled_from_refl|].
  destruct (UpdatePrices.selectError s);
    [apply Forall2_same; intros; apply settled_from_refl|].
  destruct (UpdatePrices.stale s database) as [|p rest] eqn:I;
    [apply Forall2_same; intros; apply settled_from_refl|].
  cbn [fst snd]. unfold UpdatePrices.run.
  apply (run_alerts s (p :: rest)
           {| UpdatePrices.db := database;
              UpdatePrices.updatedCount := 0;
              UpdatePrices.errors := [];
              UpdatePrices.outbox := [] |}).
Qed.

Lemma mails_at_most_one (w : World) (product : Product.t) (newPrice : Z)
                        (a : PriceAlert.t) :
  (length (mails w product newPrice a) <= 1)%nat.
Proof.
  unfold mails. destruct (email_of w (PriceAlert.user_id a)); cbn; lia.
Qed.

Lemma watched_alert (alerts : list PriceAlert.t) (key watched : string) :
  In (key, watched) (map watch_of alerts) ->
  exists a, In a alerts /\ PriceAlert.id a = key
            /\ PriceAlert.product_id a = watched.
Proof.
  intros H. apply in_map_iff in H. destruct H as [a [E Ha]].
  unfold watch_of in E. injection E as E1 E2. exists a. tauto.
Qed.

Lemma NoDup_watch (alerts : list PriceAlert.t) :
  NoDup (map fst (map watch_of alerts)) -> NoDup (map PriceAlert.id alerts).
Proof. rewrite map_map. exact (fun H => H). Qed.

(** The price mails that processing one product asks for on behalf of
    one alert: at most one, and none unless the alert watches the
    product. *)
Lemma process_product_mails
    (w : World) (st : UpdatePrices.State) (product : Product.t)
    (key watched : string) :
  NoDup (map fst (map watch_of (price_alerts (UpdatePrices.db st)))) ->
  In (key, watched) (map watch_of (price_alerts (UpdatePrices.db st))) ->
  exists added,
    intents_for key
      (UpdatePrices.outbox (UpdatePrices.process_product w st product))
    = intents_for key (UpdatePrices.outbox st) ++ added
    /\ (length added <= 1)%nat
    /\ (Product.id product <> watched -> added = []).
Proof.
  intros Hnd Hin. apply NoDup_watch in Hnd.
  destruct (watched_alert _ _ _ Hin) as [a (Ha & Hk & Hw)].
  unfold UpdatePrices.process_product.
  destruct (UpdatePrices_scraper.scrapeProduct _ _) as [sd|e].
  2:{ exists []. rewrite app_nil_r. cbn. split; [reflexivity|]. split; [lia|auto]. }
  destruct (storeError w).
  { exists []. rewrite app_nil_r. cbn. split; [reflexivity|]. split; [lia|auto]. }
  cbn [UpdatePrices.outbox]. rewrite !intents_for_app.
  assert (Q : intents_for key
                (if UpdatePrices.stockStatusChanged product sd
                    && negb (is_out_of_stock sd)
                    && match Product.is_out_of_stock product with
                       | Some b => b
                       | None => false
                       end
                 then UpdatePrices.sendStockAlert w product
                 else []) = []).
  { match goal with
    | |- context [if ?c then _ else _] => destruct c
    end; [apply intents_for_stock|reflexivity]. }
  rewrite Q, app_nil_r. eexists. split; [reflexivity|].
  match goal with
  | |- context [if ?c then _ else _] => destruct c
  end.
  2:{ cbn. split; [lia|auto]. }
  unfold UpdatePrices.checkPriceAlerts.
  destruct (alertsError w) eqn:AE.
  { cbn. split; [lia|auto]. }
  rewrite notify_loop. cbn [snd app]. rewrite <- Hk.
  rewrite (intents_for_mails w product (sale_price sd) _ _ a Hnd Ha).
  destruct (UpdatePrices.triggered product (sale_price sd) a) eqn:T.
  - split; [apply mails_at_most_one|].
    intros Hne. exfalso. apply Hne.
    unfold UpdatePrices.triggered in T.
    apply andb_true_iff in T. destruct T as [T _].
    apply andb_true_iff in T. destruct T as [T _].
    apply String.eqb_eq in T. rewrite <- Hw. symmetry. exact T.
  - cbn. split; [lia|auto].
Qed.

Lemma process_product_watch
    (w : World) (st : UpdatePrices.State) (product : Product.t) :
  map watch_of
      (price_alerts
         (UpdatePrices.db (UpdatePrices.process_product w st product)))
  = map watch_of (price_alerts (UpdatePrices.db st)).
Proof. apply Forall2_watch, process_product_alerts. Qed.

Lemma run_mails_elsewhere
    (s : UpdatePrices.Sweep) (key watched : string)
    (items : list Product.t) :
  ~ In watched (map Product.id items) ->
  forall st,
    NoDup (map fst (map watch_of (price_alerts (UpdatePrices.db st)))) ->
    In (key, watched) (map watch_of (price_alerts (UpdatePrices.db st))) ->
    intents_for key
      (UpdatePrices.outbox
         (fold_left (fun st product =>
                       UpdatePrices.process_product
                         (UpdatePrices.world_of s (Product.id product))
                         st product)
                    items st))
    = intents_for key (UpdatePrices.outbox st).
Proof.
  induction items as [|p rest IH]; intros Hnot st Hnd Hin; cbn [fold_left];
    [reflexivity|].
  cbn [map In] in Hnot.
  rewrite IH; [| tauto | rewrite process_product_watch; exact Hnd
                 | rewrite process_product_watch; exact Hin].
  destruct (process_product_mails
              (UpdatePrices.world_of s (Product.id p)) st p key watched
              Hnd Hin) as [added (E & _ & Hn)].
  rewrite E, Hn by tauto. apply app_nil_r.
Qed.

Lemma run_mails
    (s : UpdatePrices.Sweep) (key watched : string)
    (items : list Product.t) :
  NoDup (map Product.id items) ->
  forall st,
    NoDup (map fst (map watch_of (price_alerts (UpdatePrices.db st)))) ->
    In (key, watched) (map watch_of (price_alerts (UpdatePrices.db st))) ->
    (length (intents_for key
       (UpdatePrices.outbox
          (fold_left (fun st product =>
                        UpdatePrices.process_product
                          (UpdatePrices.world_of s (Product.id product))
                          st product)
                     items st)))
     <= length (intents_for key (UpdatePrices.outbox st)) + 1)%nat.
Proof.
  induction items as [|p rest IH]; intros Hitems st Hnd Hin;
    cbn [fold_left]; [lia|].
  cbn [map] in Hitems. inversion Hitems as [|x l Hnotin Hrest]; subst.
  destruct (process_product_mails
              (UpdatePrices.world_of s (Product.id p)) st p key watched
              Hnd Hin) as [added (E & L & Hn)].
  destruct (string_dec (Product.id p) watched) as [Hp|Hp].
  - rewrite (run_mails_elsewhere s key watched rest);
      [| rewrite <- Hp; exact Hnotin
       | rewrite process_product_watch; exact Hnd
       | rewrite process_product_watch; exact Hin].
    rewrite E, length_app. lia.
  - specialize (IH Hrest
                  (UpdatePrices.process_product
                     (UpdatePrices.world_of s (Product.id p)) st p)).
    rewrite process_product_watch in IH. specialize (IH Hnd Hin).
    rewrite E, (Hn Hp), app_nil_r in IH. exact IH.
Qed.

(** X20. In one sweep no alert gets more than one price mail, whatever
    the pages show and however many products are processed. *)
Theorem one_price_mail_per_alert
    (s : UpdatePrices.Sweep) (method : string) (database : Database)
    (alert : PriceAlert.t) :
  NoDup (map Product.id (products database)) ->
  NoDup (map PriceAlert.id (price_alerts database)) ->
  In alert (price_alerts database) ->
  (length (intents_for (PriceAlert.id alert)
                       (snd (UpdatePrices.handler s method database)))
   <= 1)%nat.
Proof.
  intros Hp Ha Hin. unfold UpdatePrices.handler.
  destruct (String.eqb method "OPTIONS"); [cbn; lia|].
  destruct (UpdatePrices.selectError s); [cbn; lia|].
  destruct (UpdatePrices.stale s database) as [|p rest] eqn:I; [cbn; lia|].
  rewrite <- I. cbn [snd]. unfold UpdatePrices.run.
  pose proof (run_mails s (PriceAlert.id alert) (PriceAlert.product_id alert)
                (UpdatePrices.stale s database)) as R.
  specialize (R (NoDup_ids_filter _ _ Hp)
                {| UpdatePrices.db := database;
                   UpdatePrices.updatedCount := 0;
                   UpdatePrices.errors := [];
                   UpdatePrices.outbox := [] |}).
  cbn [UpdatePrices.db UpdatePrices.outbox] in R.
  apply R.
  - rewrite map_map. exact Ha.
  - apply (in_map watch_of) in Hin. exact Hin.
Qed.
End SweepAlerts.

Lemma one_price_mail_per_alert_witness :
  let database :=
    {| products := products three_products;
       price_alerts := [sample_alert "alert-1" "user-1" 45000 true] |} in
  (length (intents_for "alert-1"
             (snd (UpdatePrices.handler (RT := priced_page) sample_sweep
                     "POST" database)))
   <= 1)%nat.
Proof.
  cbv zeta.
  refine (one_price_mail_per_alert (RT := priced_page) sample_sweep "POST"
            {| products := products three_products;
               price_alerts := [sample_alert "alert-1" "user-1" 45000 true] |}
            (sample_alert "alert-1" "user-1" 45000 true) _ _ _).
  - cbn. repeat constructor; cbn; intuition discriminate.
  - cbn. repeat constructor; cbn; intuition.
  - left. reflexivity.
Defined.

(** ** send-price-alert-email *)


(** X22. Who the bearer token belongs to plays no part in what the mail
    function does, as long as the token belongs to someone: the address
    the mail goes to is taken from the request and is not compared with
    the user of the token. *)
Theorem mail_recipient_is_not_checked
    (getUser1 getUser2 : string -> option string)
    (mailer : SendPriceAlertEmail.Mailer)
    (req : SendPriceAlertEmail.Request) :
  (forall token, getUser1 token = None <-> getUser2 token = None) ->
  SendPriceAlertEmail.handler getUser1 mailer req
  = SendPriceAlertEmail.handler getUser2 mailer req.
Proof.
  intros Same. unfold SendPriceAlertEmail.handler.
  destruct (String.eqb (SendPriceAlertEmail.method req) "OPTIONS");
    [reflexivity|].
  destruct (SendPriceAlertEmail.body req) as [b|err]; [|reflexivity].
  destruct (SendPriceAlertEmail.present (SendPriceAlertEmail.type b));
    [|reflexivity].
  destruct (SendPriceAlertEmail.product b); [|reflexivity].
  destruct (SendPriceAlertEmail.alert b); [|reflexivity].
  destruct (SendPriceAlertEmail.present (SendPriceAlertEmail.userEmail b));
    [|reflexivity].
  destruct (SendPriceAlertEmail.present
              (SendPriceAlertEmail.authorization req)) as [h|];
    [|reflexivity].
  specialize (Same (remove_first "Bearer " h)).
  destruct Same as [S1 S2].
  destruct (getUser1 (remove_first "Bearer " h)),
           (getUser2 (remove_first "Bearer " h));
    try reflexivity.
  - specialize (S2 eq_refl). discriminate.
  - specialize (S1 eq_refl). discriminate.
Qed.

Lemma mail_recipient_is_not_checked_witness :
  let req :=
    {| SendPriceAlertEmail.method := "POST";
       SendPriceAlertEmail.body :=
         Ok {| SendPriceAlertEmail.type := Some "alert_setup";
               SendPriceAlertEmail.product := Some (sample_product "product-1");
               SendPriceAlertEmail.alert :=
                 Some (sample_alert "alert-1" "user-1" 40000 true);
               SendPriceAlertEmail.userEmail := Some "someone@example.com";
               SendPriceAlertEmail.newPrice := None |};
       SendPriceAlertEmail.authorization := Some "Bearer token-1" |} in
  SendPriceAlertEmail.handler (fun _ => Some "user-1") sample_mailer req
  = SendPriceAlertEmail.handler (fun _ => Some "user-2") sample_mailer req.
Proof.
  cbv zeta.
  apply (mail_recipient_is_not_checked
           (fun _ => Some "user-1") (fun _ => Some "user-2")).
  intros token. split; discriminate.
Defined.

(** ** Which products the next sweep takes up *)

Section Schedule.
Context {RT : Runtime}.

(** X23. A product of a sweep that could not be scraped or written is
    still stale afterwards, so every later sweep takes it up again. A
    product that was updated is left out by every sweep that selects
    its products within the hour after the update. *)
Theorem failed_products_are_retried
    (s s' : UpdatePrices.Sweep) (method : string) (database : Database)
    (product : Product.t) :
  NoDup (map Product.id (products database)) ->
  String.eqb method "OPTIONS" = false ->
  UpdatePrices.selectError s = false ->
  In product (UpdatePrices.stale s database) ->
  let after := snd (fst (UpdatePrices.handler s method database)) in
  (updated_ok s product = false ->
   UpdatePrices.select_now s <= UpdatePrices.select_now s' ->
   In product (UpdatePrices.stale s' after))
  /\ (updated_ok s product = true ->
      UpdatePrices.select_now s'
        <= now_last_checked (UpdatePrices.world_of s (Product.id product))
           + 60 * 60 * 1000 ->
      forall row, In row (UpdatePrices.stale s' after) ->
                  Product.id row <> Product.id product).
Proof.
  intros Hnd Hm Hs Hin after. subst after.
  pose proof Hin as Hstale. unfold UpdatePrices.stale in Hstale.
  apply filter_In in Hstale. destruct Hstale as [Hprod Hold].
  pose proof (settle_own_row s database product Hnd Hprod) as Own.
  rewrite Hold in Own.
  unfold UpdatePrices.handler. rewrite Hm, Hs.
  destruct (UpdatePrices.stale s database) as [|p0 rest] eqn:I;
    [contradiction|].
  rewrite <- I in *. cbn [fst snd]. unfold UpdatePrices.run.
  set (items := UpdatePrices.stale s database) in *.
  assert (Hitems : NoDup (map Product.id items))
    by (apply NoDup_ids_filter, Hnd).
  unfold UpdatePrices.stale.
  rewrite (run_products s items Hitems).
  cbn [UpdatePrices.db products].
  split.
  - intros Hfail Hlater.
    apply filter_In. split.
    + apply in_map_iff. exists product. split; [|exact Hprod].
      rewrite Own. unfold updated_ok in Hfail.
      destruct (attempt s product); [|reflexivity].
      destruct (storeError (UpdatePrices.world_of s (Product.id product)));
        [reflexivity|discriminate].
    + apply Z.ltb_lt in Hold. apply Z.ltb_lt. lia.
  - intros Hok Hsoon row Hrow Hid.
    apply filter_In in Hrow.
    destruct Hrow as [Hrow Hlt]. apply in_map_iff in Hrow.
    destruct Hrow as [row0 [Hset Hrow0]].
    assert (Hid0 : Product.id row0 = Product.id product).
    { rewrite <- Hid, <- Hset. unfold settle.
      destruct (find _ _) as [q|]; [|reflexivity].
      destruct (attempt s q); [|reflexivity].
      destruct (storeError (UpdatePrices.world_of s (Product.id q)));
        reflexivity. }
    assert (E : row0 = product)
      by (apply (same_id_same_row (products database)); assumption).
    subst row0. rewrite Own in Hset. unfold updated_ok in Hok.
    destruct (attempt s product); [|discriminate].
    destruct (storeError (UpdatePrices.world_of s (Product.id product)));
      [discriminate|].
    subst row. cbn [Product.last_checked UpdatePrices.reconciled] in Hlt.
    apply Z.ltb_lt in Hlt. lia.
Qed.
End Schedule.

Lemma failed_products_are_retried_witness :
  let after :=
    snd (fst (UpdatePrices.handler (RT := priced_page) sample_sweep "POST"
                three_products)) in
  (updated_ok (RT := priced_page) sample_sweep (sample_product "product-2")
     = false ->
   UpdatePrices.select_now sample_sweep <= UpdatePrices.select_now sample_sweep ->
   In (sample_product "product-2") (UpdatePrices.stale sample_sweep after))
  /\ (updated_ok (RT := priced_page) sample_sweep (sample_product "product-2")
        = true ->
      UpdatePrices.select_now sample_sweep
        <= now_last_checked
             (UpdatePrices.world_of sample_sweep
                (Product.id (sample_product "product-2")))
           + 60 * 60 * 1000 ->
      forall row, In row (UpdatePrices.stale sample_sweep after) ->
                  Product.id row <> Product.id (sample_product "product-2")).
Proof.
  cbv zeta.
  refine (failed_products_are_retried (RT := priced_page) sample_sweep
            sample_sweep "POST" three_products (sample_product "product-2")
            _ _ _ _).
  - cbn. repeat constructor; cbn; intuition discriminate.
  - reflexivity.
  - reflexivity.
  - right. left. reflexivity.
Defined.

(** ** The confirmation mail of a new alert *)

(** X24. The request that the dialog sends after creating an alert,
    when the access token belongs to a user and the session has an
    address: with an API key configured, the mail function posts exactly
    one confirmation mail, for that product and alert and to that
    address, and answers with success exactly when the mail service
    took it; without a key it posts nothing and answers with success
    all the same. Without an address on the session the request is
    refused with status 400 and nothing is posted. *)
Theorem setup_mail_goes_to_the_user
    (getUser : string -> option string)
    (mailer : SendPriceAlertEmail.Mailer)
    (token user : string) (email : option string)
    (product : Product.t) (alertData : PriceAlert.t)
    (req : SendPriceAlertEmail.Request) :
  AlertSetupMail.sendPriceAlertSetupEmail (Some token) email product alertData
    = Some req ->
  getUser token = Some user ->
  SendPriceAlertEmail.handler getUser mailer req
  = match SendPriceAlertEmail.present email,
          SendPriceAlertEmail.present
            (SendPriceAlertEmail.resendApiKey mailer) with
    | Some address, Some _ =>
        let sent := SendPriceAlertEmail.AlertSetup address product alertData in
        (if SendPriceAlertEmail.accepted mailer sent
         then SendPriceAlertEmail.Success
         else SendPriceAlertEmail.Refused 500 "Failed to send email",
         [sent])
    | Some address, None => (SendPriceAlertEmail.Success, [])
    | None, _ => (SendPriceAlertEmail.Refused 400 "Missing required fields", [])
    end.
Proof.
  unfold AlertSetupMail.sendPriceAlertSetupEmail.
  destruct token as [|c token']; [discriminate|].
  cbn [is_empty]. intros H G. injection H as <-.
  unfold SendPriceAlertEmail.handler,
         SendPriceAlertEmail.sendPriceAlertSetupEmail,
         SendPriceAlertEmail.post.
  cbn -[String.eqb SendPriceAlertEmail.present].
  replace (String.eqb "POST" "OPTIONS") with false by reflexivity.
  replace (SendPriceAlertEmail.present (Some "alert_setup"))
    with (Some "alert_setup") by reflexivity.
  destruct (SendPriceAlertEmail.present email) as [address|].
  2:{ destruct (SendPriceAlertEmail.present
                  (SendPriceAlertEmail.resendApiKey mailer)); reflexivity. }
  cbn -[String.eqb]. rewrite G.
  replace (String.eqb "alert_setup" "alert_setup") with true by reflexivity.
  destruct (SendPriceAlertEmail.present
              (SendPriceAlertEmail.resendApiKey mailer)); cbn [fst snd];
    [|reflexivity].
  destruct (SendPriceAlertEmail.accepted mailer _); reflexivity.
Qed.

Lemma setup_mail_goes_to_the_user_witness :
  SendPriceAlertEmail.handler
    (getUser (sample_world (served sample_html))) sample_mailer
    {| SendPriceAlertEmail.method := "POST";
       SendPriceAlertEmail.body :=
         Ok {| SendPriceAlertEmail.type := Some "alert_setup";
               SendPriceAlertEmail.product := Some (sample_product "product-1");
               SendPriceAlertEmail.alert :=
                 Some (sample_alert "alert-1" "user-1" 40000 true);
               SendPriceAlertEmail.userEmail := Some "user-1@example.com";
               SendPriceAlertEmail.newPrice := None |};
       SendPriceAlertEmail.authorization := Some "Bearer token-1" |}
  = (SendPriceAlertEmail.Success,
     [SendPriceAlertEmail.AlertSetup "user-1@example.com"
        (sample_product "product-1")
        (sample_alert "alert-1" "user-1" 40000 true)]).
Proof.
  exact (setup_mail_goes_to_the_user
           (getUser (sample_world (served sample_html))) sample_mailer
           "token-1" "user-1" (Some "user-1@example.com")
           (sample_product "product-1")
           (sample_alert "alert-1" "user-1" 40000 true)
           _ eq_refl eq_refl).
Defined.
